(** * Sub-Domains-Manager: the deployment saga of the client routes

    A shallow embedding of the backend code that provisions and tears down a
    tenant's public endpoint:

    - [services/cloudflare.ts]  the DNS adapter ([Cloudflare]);
    - [services/coolify.ts]     the deployment adapter ([Coolify]);
    - [routes/clients.js]       the create, deploy and undeploy routes
                                ([Clients]).

    Conventions of the embedding.

    - A JavaScript string is a [string] holding the UTF-8 encoding of its
      text, so [Buffer.from(s, 'utf8')] is the list of its characters.
    - A JavaScript value of type [any] is a [JsValue]; an object is an
      association list in insertion order, its keys distinct.  Numbers are
      the integers.
    - [async] code is sequential: every [await] is a call in a monad that
      threads the world (the two providers, the tenant store, the console)
      and propagates a thrown error.
    - The two providers are arbitrary: a [Provider] answers every HTTP
      request with a body or with an axios failure, and moves to a state of
      its own choosing.  Every request that is issued is recorded in a trace.
    - The tenant store (mongoose) answers [findOne] and [save] without
      failing, and authentication has put the user's identifier in the
      request.
    - Of the create route, the validation of the request (lines 203-249)
      and the upload of the logo (lines 254-275) are not modelled: a
      request is one that passed validation, and it carries the URL of the
      logo that was uploaded for it, if any.  [JSON.parse] is a parameter
      of the route.
    - The module keeps each API client it has built; a client is modelled
      as built from the environment, and the line its constructor writes to
      the console the first time is not modelled. *)

From Stdlib Require Import ZArith String Ascii List Bool Lia DecimalString.
Import ListNotations.

#[local] Set Warnings "-register-all".

Local Open Scope string_scope.
Local Open Scope Z_scope.

(* ================================================================= *)
(** ** JavaScript values *)

Inductive JsValue : Type :=
| JUndefined
| JNull
| JBool (b : bool)
| JNum (z : Z)
| JStr (s : string)
| JArr (xs : list JsValue)
| JObj (fields : list (string * JsValue)).

Definition JsObject : Type := list (string * JsValue).

(** [if (v)], [!v], [a || b], [a && b] *)
Definition truthy (v : JsValue) : bool :=
  match v with
  | JUndefined | JNull => false
  | JBool b => b
  | JNum z => negb (z =? 0)
  | JStr s => negb (s =? "")%string
  | JArr _ | JObj _ => true
  end.

Definition js_or (a b : JsValue) : JsValue := if truthy a then a else b.

Definition nullish (v : JsValue) : bool :=
  match v with
  | JUndefined | JNull => true
  | _ => false
  end.

(** [o.k] for an object held as an association list *)
Fixpoint obj_get (o : JsObject) (k : string) : JsValue :=
  match o with
  | [] => JUndefined
  | (k', v) :: rest => if (k' =? k)%string then v else obj_get rest k
  end.

Fixpoint obj_has (o : JsObject) (k : string) : bool :=
  match o with
  | [] => false
  | (k', _) :: rest => (k' =? k)%string || obj_has rest k
  end.

(** [{ ...o, k: v }]: an existing key keeps its place, a new one goes last *)
Fixpoint obj_set (o : JsObject) (k : string) (v : JsValue) : JsObject :=
  match o with
  | [] => [(k, v)]
  | (k', v') :: rest =>
      if (k' =? k)%string then (k, v) :: rest else (k', v') :: obj_set rest k v
  end.

(** [const { k, ...rest } = o] *)
Fixpoint obj_remove (o : JsObject) (k : string) : JsObject :=
  match o with
  | [] => []
  | (k', v') :: rest =>
      if (k' =? k)%string then obj_remove rest k else (k', v') :: obj_remove rest k
  end.

(** [v.k] on a value that is neither [null] nor [undefined]; the properties
    read by the code ([message], [errors]) exist on objects only. *)
Definition js_prop (v : JsValue) (k : string) : JsValue :=
  match v with
  | JObj o => obj_get o k
  | _ => JUndefined
  end.

(** [v?.k] *)
Definition js_opt_prop (v : JsValue) (k : string) : JsValue :=
  if nullish v then JUndefined else js_prop v k.

(** [v?.[0]] *)
Definition js_opt_elem0 (v : JsValue) : JsValue :=
  match v with
  | JArr (x :: _) => x
  | JStr (String c _) => JStr (String c "")
  | JObj o => obj_get o "0"
  | _ => JUndefined
  end.

(* ----------------------------------------------------------------- *)
(** *** String conversion, as in a template literal *)

Definition string_of_Z (z : Z) : string := NilZero.string_of_int (Z.to_int z).

Fixpoint join (sep : string) (l : list string) : string :=
  match l with
  | [] => ""
  | [s] => s
  | s :: rest => s ++ sep ++ join sep rest
  end.

Fixpoint js_toString (v : JsValue) : string :=
  match v with
  | JUndefined => "undefined"
  | JNull => "null"
  | JBool true => "true"
  | JBool false => "false"
  | JNum z => string_of_Z z
  | JStr s => s
  | JArr xs =>
      join "," (map (fun x => if nullish x then "" else js_toString x) xs)
  | JObj _ => "[object Object]"
  end.

(* ----------------------------------------------------------------- *)
(** *** [JSON.stringify] *)

Definition hex_digit (n : N) : ascii :=
  match n with
  | 0%N => "0" | 1%N => "1" | 2%N => "2" | 3%N => "3" | 4%N => "4"
  | 5%N => "5" | 6%N => "6" | 7%N => "7" | 8%N => "8" | 9%N => "9"
  | 10%N => "a" | 11%N => "b" | 12%N => "c" | 13%N => "d" | 14%N => "e"
  | _ => "f"
  end%char.

Definition dquote : ascii := ascii_of_N 34.
Definition backslash : ascii := ascii_of_N 92.

Definition json_escape_char (c : ascii) : string :=
  let n := N_of_ascii c in
  let esc (t : string) := String backslash t in
  if (n =? 34)%N then esc (String dquote "")
  else if (n =? 92)%N then esc (String backslash "")
  else if (n =? 8)%N then esc "b"
  else if (n =? 12)%N then esc "f"
  else if (n =? 10)%N then esc "n"
  else if (n =? 13)%N then esc "r"
  else if (n =? 9)%N then esc "t"
  else if (n <? 32)%N then
    esc ("u00" ++ String (hex_digit (n / 16)) (String (hex_digit (n mod 16)) ""))
  else String c "".

Fixpoint json_escape (s : string) : string :=
  match s with
  | EmptyString => ""
  | String c rest => json_escape_char c ++ json_escape rest
  end.

Definition json_quote (s : string) : string :=
  String dquote (json_escape s) ++ String dquote "".

(** A member whose value is [undefined] is left out of an object and written
    [null] in an array. *)
Fixpoint json_text (v : JsValue) : string :=
  match v with
  | JUndefined | JNull => "null"
  | JBool true => "true"
  | JBool false => "false"
  | JNum z => string_of_Z z
  | JStr s => json_quote s
  | JArr xs => "[" ++ join "," (map json_text xs) ++ "]"
  | JObj o =>
      let fix members (l : list (string * JsValue)) : list string :=
        match l with
        | [] => []
        | (_, JUndefined) :: rest => members rest
        | (k, v') :: rest =>
            (json_quote k ++ ":" ++ json_text v') :: members rest
        end in
      "{" ++ join "," (members o) ++ "}"
  end.

Definition JSON_stringify (o : JsObject) : string := json_text (JObj o).


(* ----------------------------------------------------------------- *)
(** *** [String.prototype.trim]

    The white space and line terminators of ECMAScript, read in UTF-8:
    U+0009..U+000D, U+0020, U+00A0, U+1680, U+2000..U+200A, U+2028, U+2029,
    U+202F, U+205F, U+3000 and U+FEFF. *)

Definition ws1 (a : N) : bool :=
  ((9 <=? a) && (a <=? 13) || (a =? 32))%N.

Definition ws2 (a b : N) : bool :=
  ((a =? 194) && (b =? 160))%N.

Definition ws3 (a b c : N) : bool :=
  ((a =? 225) && (b =? 154) && (c =? 128)
   || (a =? 226) && (b =? 128)
      && ((128 <=? c) && (c <=? 138) || (c =? 168) || (c =? 169) || (c =? 175))
   || (a =? 226) && (b =? 129) && (c =? 159)
   || (a =? 227) && (b =? 128) && (c =? 128)
   || (a =? 239) && (b =? 187) && (c =? 191))%N.

(** Drops leading white space; [fwd] tells whether the bytes are read in
    their order or, for the end of the string, reversed. *)
Fixpoint strip_ws (fwd : bool) (l : list ascii) : list ascii :=
  match l with
  | [] => []
  | c1 :: r1 =>
      let n1 := N_of_ascii c1 in
      if ws1 n1 then strip_ws fwd r1
      else
        match r1 with
        | [] => l
        | c2 :: r2 =>
            let n2 := N_of_ascii c2 in
            if (if fwd then ws2 n1 n2 else ws2 n2 n1) then strip_ws fwd r2
            else
              match r2 with
              | [] => l
              | c3 :: r3 =>
                  let n3 := N_of_ascii c3 in
                  if (if fwd then ws3 n1 n2 n3 else ws3 n3 n2 n1)
                  then strip_ws fwd r3
                  else l
              end
        end
  end.

Definition trim (s : string) : string :=
  string_of_list_ascii
    (rev (strip_ws false (rev (strip_ws true (list_ascii_of_string s))))).

(* ----------------------------------------------------------------- *)
(** *** [Buffer.from(s, 'utf8').toString('base64')] *)

Definition base64_alphabet : string :=
  "ABCDEFGHIJKLMNOPQRSTUVWXYZabcdefghijklmnopqrstuvwxyz0123456789+/".

Definition base64_pad : ascii := "="%char.

Definition base64_char (n : N) : ascii :=
  match String.get (N.to_nat n) base64_alphabet with
  | Some c => c
  | None => base64_pad
  end.

(** Three bytes give four characters; one or two trailing bytes are padded. *)
Fixpoint base64_encode (bs : list ascii) : list ascii :=
  match bs with
  | [] => []
  | [a] =>
      let x := N_of_ascii a in
      [base64_char (x / 4); base64_char ((x mod 4) * 16);
       base64_pad; base64_pad]
  | [a; b] =>
      let x := N_of_ascii a in
      let y := N_of_ascii b in
      [base64_char (x / 4); base64_char ((x mod 4) * 16 + y / 16);
       base64_char ((y mod 16) * 4); base64_pad]
  | a :: b :: c :: rest =>
      let x := N_of_ascii a in
      let y := N_of_ascii b in
      let z := N_of_ascii c in
      base64_char (x / 4) :: base64_char ((x mod 4) * 16 + y / 16)
      :: base64_char ((y mod 16) * 4 + z / 64) :: base64_char (z mod 64)
      :: base64_encode rest
  end%N.

Definition Buffer_from_utf8 (s : string) : list ascii := list_ascii_of_string s.

Definition Buffer_toString_base64 (bs : list ascii) : string :=
  string_of_list_ascii (base64_encode bs).

(** The decoding of RFC 4648, by which the round trip of the encoded HTML is
    stated. *)
Fixpoint index_of (c : ascii) (s : string) : option N :=
  match s with
  | EmptyString => None
  | String c' rest =>
      if Ascii.eqb c c' then Some 0%N
      else option_map N.succ (index_of c rest)
  end.

Definition base64_value (c : ascii) : option N := index_of c base64_alphabet.

Fixpoint base64_decode (cs : list ascii) : option (list ascii) :=
  match cs with
  | [] => Some []
  | c1 :: c2 :: c3 :: c4 :: rest =>
      match base64_value c1, base64_value c2 with
      | Some v1, Some v2 =>
          let b1 := ascii_of_N (v1 * 4 + v2 / 16) in
          if Ascii.eqb c3 base64_pad then
            match rest with
            | [] => if Ascii.eqb c4 base64_pad then Some [b1] else None
            | _ => None
            end
          else
            match base64_value c3 with
            | Some v3 =>
                let b2 := ascii_of_N ((v2 mod 16) * 16 + v3 / 4) in
                if Ascii.eqb c4 base64_pad then
                  match rest with
                  | [] => Some [b1; b2]
                  | _ => None
                  end
                else
                  match base64_value c4, base64_decode rest with
                  | Some v4, Some tl =>
                      Some (b1 :: b2 :: ascii_of_N ((v3 mod 4) * 64 + v4) :: tl)
                  | _, _ => None
                  end
            | None => None
            end
      | _, _ => None
      end
  | _ => None
  end%N.

(** What a consumer of the variable computes:
    [Buffer.from(v, 'base64').toString('utf8')] *)
Definition base64_decode_utf8 (v : string) : option string :=
  option_map string_of_list_ascii (base64_decode (list_ascii_of_string v)).


(* ================================================================= *)
(** ** The tenant record ([models/Client.js]) *)

Record Client : Type := mkClient {
  _id : string;
  owner : string;
  name : string;
  subdomain : string;
  description : string;
  links : JsValue;
  customization : JsValue;
  logo : option string;
  isDeployed : bool;
  deploymentType : string;
  htmlCode : option string
}.

Definition set_isDeployed (c : Client) (b : bool) : Client :=
  mkClient (_id c) (owner c) (name c) (subdomain c) (description c) (links c)
           (customization c) (logo c) b (deploymentType c) (htmlCode c).

(** A field of the document that may be missing *)
Definition js_opt_string (o : option string) : JsValue :=
  match o with
  | Some s => JStr s
  | None => JUndefined
  end.

(** [client.toObject()], for the fields of the schema kept in [Client] *)
Definition toObject (c : Client) : JsObject :=
  [("_id", JStr (_id c)); ("owner", JStr (owner c)); ("name", JStr (name c));
   ("subdomain", JStr (subdomain c)); ("description", JStr (description c));
   ("links", links c); ("customization", customization c);
   ("logo", js_opt_string (logo c)); ("isDeployed", JBool (isDeployed c));
   ("deploymentType", JStr (deploymentType c));
   ("htmlCode", js_opt_string (htmlCode c))].

(* ================================================================= *)
(** ** HTTP: the requests of the two adapters and what axios gives back *)

Module Axios.

Record Response : Type := mkResponse {
  status : Z;
  data : JsValue
}.

Record EnvVar : Type := mkEnvVar {
  key : string;
  value : string;
  is_literal : bool
}.

Record DnsRecord : Type := mkDnsRecord {
  id : string;
  record_name : string;
  content : string
}.

Record Application : Type := mkApplication {
  uuid : string;
  app_name : string
}.

(** The base URL, the zone in the path and the headers are those of the
    adapter that sends the request; what varies is kept. *)
Inductive Request : Type :=
| GetDnsRecords (zoneId fqdn : string)          (* params: name, type 'A' *)
| PostDnsRecord (zoneId label target : string)  (* type 'A', proxied *)
| DeleteDnsRecord (zoneId recordId : string)
| GetApplications
| PostApplication (createPayload : JsObject)
| PatchEnvsBulk (applicationId : string) (envVariables : list EnvVar)
| GetDeploy (applicationId : string)
| DeleteApplication (applicationId : string).

(** The part of a 2xx body that the code reads:
    [response.data.result], [response.data] of the application list
    ([None] when it is falsy) and [createResponse.data?.uuid]. *)
Definition Body (r : Request) : Type :=
  match r with
  | GetDnsRecords _ _ => list DnsRecord
  | GetApplications => option (list Application)
  | PostApplication _ => option string
  | _ => unit
  end.

(** A request resolves with a body or rejects with an [AxiosError], whose
    [response] is missing when no answer came at all. *)
Inductive Result (A : Type) : Type :=
| Resolved (body : A)
| Rejected (message : string) (response : option Response).
Arguments Resolved {A} body.
Arguments Rejected {A} message response.

(** The providers, seen from the process: a state of type [P] and an answer
    to every request. *)
Definition Provider (P : Type) : Type :=
  forall r : Request, P -> Result (Body r) * P.

Definition is_dns_request (r : Request) : bool :=
  match r with
  | GetDnsRecords _ _ | PostDnsRecord _ _ _ | DeleteDnsRecord _ _ => true
  | _ => false
  end.

End Axios.

(* ================================================================= *)
(** ** Errors *)

Inductive JsError : Type :=
| AxiosError (message : string) (response : option Axios.Response)
| CloudflareAPIError (message code : string) (status : option Z)
                     (details : JsValue)
| CoolifyAPIError (message code : string) (status : option Z)
                  (response : JsValue)
| TypeError (message : string)
| SyntaxError (message : string).

(** [error.message] *)
Definition error_message (e : JsError) : string :=
  match e with
  | AxiosError m _ => m
  | CloudflareAPIError m _ _ _ => m
  | CoolifyAPIError m _ _ _ => m
  | TypeError m => m
  | SyntaxError m => m
  end.

(** [error.code] *)
Definition error_code (e : JsError) : option string :=
  match e with
  | CloudflareAPIError _ c _ _ => Some c
  | CoolifyAPIError _ c _ _ => Some c
  | _ => None
  end.

(** [status === n] for the [status] of [axiosError.response?.status] *)
Definition status_is (status : option Z) (n : Z) : bool :=
  match status with
  | Some s => s =? n
  | None => false
  end.

(** [error.status || 500] *)
Definition status_or_500 (status : option Z) : Z :=
  match status with
  | Some s => if s =? 0 then 500 else s
  | None => 500
  end.

(* ================================================================= *)
(** ** The world and the monad of [async] code *)

Inductive LogLevel : Type := LOG | WARN | ERROR.


(** The requests sent so far, the leading message of each call to the
    console, and the tenants that are saved *)
Record World (P : Type) : Type := mkWorld {
  providers : P;
  trace : list Axios.Request;
  console : list (LogLevel * string);
  store : list Client
}.
Arguments mkWorld {P} providers trace console store.
Arguments providers {P} w.
Arguments trace {P} w.
Arguments console {P} w.
Arguments store {P} w.

Definition lookup_client (id userId : string) (l : list Client)
  : option Client :=
  find (fun c => (_id c =? id)%string && (owner c =? userId)%string) l.

(** The deployment flag the store holds for a tenant *)
Definition deployed_flag (id userId : string) (l : list Client) : option bool :=
  option_map isDeployed (lookup_client id userId l).

Inductive Outcome (A : Type) : Type :=
| Return (a : A)
| Throw (e : JsError).
Arguments Return {A} a.
Arguments Throw {A} e.

Definition M (P A : Type) : Type := World P -> Outcome A * World P.

Section Monad.
Context {P : Type}.

Definition ret {A} (a : A) : M P A := fun w => (Return a, w).

Definition throw {A} (e : JsError) : M P A := fun w => (Throw e, w).

Definition bind {A B} (m : M P A) (k : A -> M P B) : M P B :=
  fun w =>
    match m w with
    | (Return a, w') => k a w'
    | (Throw e, w') => (Throw e, w')
    end.

(** [try { m } catch (error) { handler error }] *)
Definition try_catch {A} (m : M P A) (handler : JsError -> M P A) : M P A :=
  fun w =>
    match m w with
    | (Return a, w') => (Return a, w')
    | (Throw e, w') => handler e w'
    end.

Definition console_write (l : LogLevel) (msg : string) : M P unit :=
  fun w =>
    (Return tt,
     mkWorld (providers w) (trace w) (console w ++ [(l, msg)]) (store w)).

Definition console_log : string -> M P unit := console_write LOG.
Definition console_warn : string -> M P unit := console_write WARN.
Definition console_error : string -> M P unit := console_write ERROR.

(** [await axios.get/post/patch/delete(...)] *)
Definition request (prov : Axios.Provider P) (r : Axios.Request)
  : M P (Axios.Body r) :=
  fun w =>
    let '(res, p') := prov r (providers w) in
    let w' := mkWorld p' (trace w ++ [r]) (console w) (store w) in
    match res with
    | Axios.Resolved body => (Return body, w')
    | Axios.Rejected msg resp => (Throw (AxiosError msg resp), w')
    end.

(** [Client.findOne({ _id, owner })] *)
Definition findOne (id userId : string) : M P (option Client) :=
  fun w => (Return (lookup_client id userId (store w)), w).

Fixpoint store_put (c : Client) (l : list Client) : list Client :=
  match l with
  | [] => [c]
  | c' :: rest =>
      if (_id c' =? _id c)%string then c :: rest else c' :: store_put c rest
  end.

(** [await client.save()] *)
Definition save (c : Client) : M P unit :=
  fun w =>
    (Return tt,
     mkWorld (providers w) (trace w) (console w) (store_put c (store w))).

End Monad.

Declare Scope async_scope.
Delimit Scope async_scope with async.
Notation "x <- m ;; k" := (bind m (fun x => k))
  (at level 61, m at next level, right associativity) : async_scope.
Notation "m ;; k" := (bind m (fun _ => k))
  (at level 61, right associativity) : async_scope.

(** [process.env] *)
Record ProcessEnv : Type := mkProcessEnv {
  CLOUDFLARE_API_TOKEN : option string;
  CLOUDFLARE_ZONE_ID : option string;
  DOMAIN : option string;
  SERVER_IP : option string;
  COOLIFY_API_KEY : option string;
  COOLIFY_API_URL : option string;
  TEMPLATE_REPO : option string;
  COOLIFY_PROJECT_ID : option string;
  COOLIFY_ENVIRONMENT_ID : option string;
  COOLIFY_SERVER_ID : option string
}.

(** [!!process.env.X] *)
Definition env_set (v : option string) : bool := truthy (js_opt_string v).

(** [a || b] on strings that may be missing *)
Definition str_or (a : option string) (b : string) : string :=
  match a with
  | Some s => if (s =? "")%string then b else s
  | None => b
  end.

(** [throw] or [return] of a computation that touches nothing *)
Definition lift_outcome {P A} (o : Outcome A) : M P A := fun w => (o, w).

(* ================================================================= *)
(** ** The DNS adapter ([services/cloudflare.ts]) *)

Module Cloudflare.
Import Axios.
Local Open Scope async_scope.

Record CloudflareAPI : Type := mkCloudflareAPI {
  zoneId : string;
  domain : string;
  serverIp : string
}.

(** [new CloudflareAPI(apiToken, zoneId, domain, serverIp)] *)
Definition new (env : ProcessEnv) (apiToken zone dom ip : option string)
  : Outcome CloudflareAPI :=
  if negb (env_set apiToken) || negb (env_set zone) then
    Throw (CloudflareAPIError "API token and Zone ID are required"
                              "INVALID_CREDENTIALS" None JUndefined)
  else
    Return (mkCloudflareAPI
              (str_or zone "")
              (str_or dom (str_or (DOMAIN env) "theosirislabs.com"))
              (str_or ip (str_or (SERVER_IP env) "127.0.0.1"))).

Section Adapter.
Context {P : Type} (prov : Provider P).

(** [data?.errors?.[0]?.message] *)
Definition first_error_message (data : JsValue) : JsValue :=
  js_opt_prop (js_opt_elem0 (js_opt_prop data "errors")) "message".

Definition handleError {A} (error : JsError) : M P A :=
  match error with
  | AxiosError _ response =>
      let status := option_map Axios.status response in
      let data :=
        match response with
        | Some r => Axios.data r
        | None => JUndefined
        end in
      console_error "Cloudflare API Error:" ;;
      if status_is status 401 then
        throw (CloudflareAPIError "Invalid API credentials"
                                  "UNAUTHORIZED" status JUndefined)
      else if status_is status 403 then
        throw (CloudflareAPIError "Access forbidden. Check API permissions"
                                  "FORBIDDEN" status JUndefined)
      else if status_is status 404 then
        throw (CloudflareAPIError "Resource not found"
                                  "NOT_FOUND" status data)
      else if status_is status 429 then
        throw (CloudflareAPIError "Rate limit exceeded"
                                  "RATE_LIMIT" status JUndefined)
      else
        throw (CloudflareAPIError
                 (js_toString
                    (js_or (first_error_message data)
                           (JStr "An error occurred with the Cloudflare API")))
                 "API_ERROR" status data)
  | _ =>
      throw (CloudflareAPIError "An unexpected error occurred"
                                "UNKNOWN_ERROR" (Some 500) JUndefined)
  end.

Definition subdomain_required {A} : M P A :=
  throw (CloudflareAPIError "Subdomain is required" "INVALID_PARAMETER"
                            None JUndefined).

Definition checkSubdomainAvailability (api : CloudflareAPI)
           (subdomain : string) : M P bool :=
  if negb (truthy (JStr subdomain)) then subdomain_required
  else
    try_catch
      ( (* Check if the DNS record exists *)
        result <- request prov
                    (GetDnsRecords (zoneId api)
                                   (subdomain ++ "." ++ domain api)) ;;
        console_log "" ;;                  (* console.log(response.data) *)
        (* If no records found, subdomain is available *)
        ret (length result =? 0)%nat )
      handleError.

Definition createSubdomainRecord (api : CloudflareAPI)
           (subdomain : string) : M P unit :=
  if negb (truthy (JStr subdomain)) then subdomain_required
  else
    try_catch
      (request prov (PostDnsRecord (zoneId api) subdomain (serverIp api)))
      handleError.

Definition deleteSubdomainRecord (api : CloudflareAPI)
           (subdomain : string) : M P unit :=
  if negb (truthy (JStr subdomain)) then subdomain_required
  else
    try_catch
      ( (* First, find the record ID *)
        result <- request prov
                    (GetDnsRecords (zoneId api)
                                   (subdomain ++ "." ++ domain api)) ;;
        match result with
        | record :: _ =>                       (* result.length > 0 *)
            (* Delete the record *)
            request prov (DeleteDnsRecord (zoneId api) (id record))
        | [] => ret tt
        end )
      handleError.

End Adapter.
End Cloudflare.

(* ================================================================= *)
(** ** The deployment adapter ([services/coolify.ts]) *)

Module Coolify.
Import Axios.
Local Open Scope async_scope.

Record CoolifyAPI : Type := mkCoolifyAPI {
  baseUrl : string
}.

(** [baseUrl.replace(/\/$/, '')] *)
Fixpoint strip_trailing_slash (s : string) : string :=
  match s with
  | EmptyString => EmptyString
  | String c EmptyString => if Ascii.eqb c "/" then EmptyString else s
  | String c rest => String c (strip_trailing_slash rest)
  end.

(** [new CoolifyAPI(apiKey, baseUrl)] *)
Definition new (apiKey url : option string) : Outcome CoolifyAPI :=
  if negb (env_set apiKey) || negb (env_set url) then
    Throw (CoolifyAPIError "API key and base URL are required"
                           "INVALID_CREDENTIALS" None JUndefined)
  else Return (mkCoolifyAPI (strip_trailing_slash (str_or url ""))).

(** [{ ...clientData, logo: clientData.logo || null }] without [htmlCode] *)
Definition clientDataForEnv (clientData : JsObject) : JsObject :=
  let clientDataWithLogo :=
    obj_set clientData "logo" (js_or (obj_get clientData "logo") JNull) in
  obj_remove clientDataWithLogo "htmlCode".

Definition CUSTOM_HTML_KEY : string := "NEXT_PUBLIC_CUSTOM_HTML_BASE64".

(** The environment variables of [createDeployment] (lines 202-241) *)
Definition createDeployment_envVariables (clientData : JsObject)
  : Outcome (list EnvVar) :=
  let envVariables :=
    [ mkEnvVar "CLIENT_DATA"
               (JSON_stringify (clientDataForEnv clientData)) true;
      mkEnvVar "NODE_ENV" "production" true;
      mkEnvVar "NEXT_PUBLIC_CLIENT_DATA"
               (JSON_stringify (clientDataForEnv clientData)) true ] in
  (* if (clientData.htmlCode && clientData.htmlCode.trim()) *)
  let html := obj_get clientData "htmlCode" in
  if truthy html then
    match html with
    | JStr s =>
        if truthy (JStr (trim s)) then
          let encodedHTML := Buffer_toString_base64 (Buffer_from_utf8 s) in
          Return (envVariables ++ [mkEnvVar CUSTOM_HTML_KEY encodedHTML true])%list
        else Return envVariables
    | _ => Throw (TypeError "clientData.htmlCode.trim is not a function")
    end
  else Return envVariables.

(** The environment variables of [updateDeployment] (lines 332-371) *)
Definition updateDeployment_envVariables (clientData : JsObject)
  : Outcome (list EnvVar) :=
  let envVariables :=
    [ mkEnvVar "CLIENT_DATA"
               (JSON_stringify (clientDataForEnv clientData)) true;
      mkEnvVar "NODE_ENV" "production" true;
      mkEnvVar "NEXT_PUBLIC_CLIENT_DATA"
               (JSON_stringify (clientDataForEnv clientData)) true ] in
  let html := obj_get clientData "htmlCode" in
  if truthy html then
    match html with
    | JStr s =>
        if truthy (JStr (trim s)) then
          let encodedHTML := Buffer_toString_base64 (Buffer_from_utf8 s) in
          Return (envVariables ++ [mkEnvVar CUSTOM_HTML_KEY encodedHTML true])%list
        else Return envVariables
    | _ => Throw (TypeError "clientData.htmlCode.trim is not a function")
    end
  else Return envVariables.

(** The value a set of variables gives a key *)
Fixpoint env_value (k : string) (vars : list EnvVar) : option string :=
  match vars with
  | [] => None
  | v :: rest => if (key v =? k)%string then Some (value v) else env_value k rest
  end.

(** The [htmlCode] of a tenant payload is a string when it is there
    ([htmlCode?: string] of [IClient]) *)
Definition htmlCode_typed (clientData : JsObject) : Prop :=
  obj_get clientData "htmlCode" = JUndefined
  \/ obj_get clientData "htmlCode" = JNull
  \/ exists s, obj_get clientData "htmlCode" = JStr s.

(** The body of [POST /api/v1/applications/public] *)
Definition createPayload (env : ProcessEnv) (subdomain : string)
           (clientData : JsObject) : JsObject :=
  let url :=
    "https://" ++ subdomain ++ "." ++ js_toString (js_opt_string (DOMAIN env)) in
  [ ("project_uuid", js_opt_string (COOLIFY_PROJECT_ID env));
    ("server_uuid", js_opt_string (COOLIFY_SERVER_ID env));
    ("environment_uuid", js_opt_string (COOLIFY_ENVIRONMENT_ID env));
    ("environment_name", JStr "production");
    ("git_repository", js_opt_string (TEMPLATE_REPO env));
    ("git_branch", JStr "master");
    ("build_pack", JStr "dockercompose");
    ("name", JStr subdomain);
    ("description", js_or (obj_get clientData "description") (JStr ""));
    ("domains", JStr url);
    ("docker_compose_domains",
     JArr [JObj [("name", JStr "web"); ("domain", JStr url)]]);
    ("base_directory", JStr "/");
    ("ports_exposes", JNum 3000);
    ("docker_compose_location", JStr "docker-compose.yml");
    ("health_check_enabled", JBool true);
    ("health_check_path", JStr "/api/health");
    ("health_check_port", JStr "3000");
    ("health_check_scheme", JStr "http");
    ("health_check_interval", JNum 10);
    ("health_check_timeout", JNum 3);
    ("health_check_retries", JNum 3);
    ("health_check_start_period", JNum 30);
    ("instant_deploy", JBool false) ].

Section Adapter.
Context {P : Type} (prov : Provider P).

Definition handleError {A} (error : JsError) (context : string) : M P A :=
  match error with
  | AxiosError message response =>
      let status := option_map Axios.status response in
      let data :=
        match response with
        | Some r => Axios.data r
        | None => JUndefined
        end in
      console_error ("Coolify API Error (" ++ context ++ "):") ;;
      (* console.log(data.errors) *)
      match data with
      | JUndefined =>
          throw (TypeError
            "Cannot read properties of undefined (reading 'errors')")
      | JNull =>
          throw (TypeError
            "Cannot read properties of null (reading 'errors')")
      | _ => console_log ""
      end ;;
      throw (CoolifyAPIError
               (context ++ ": "
                ++ js_toString
                     (js_or (js_opt_prop data "message")
                        (js_or (JStr message)
                           (JStr "An error occurred with the Coolify API"))))
               "API_ERROR" status data)
  | _ =>
      console_error ("Coolify API Error (" ++ context ++ "):") ;;
      throw (CoolifyAPIError
               (context ++ ": "
                ++ js_toString
                     (js_or (JStr (error_message error))
                            (JStr "An unexpected error occurred")))
               "UNKNOWN_ERROR" (Some 500) JUndefined)
  end.

Definition getApplications : M P (list Application) :=
  try_catch
    ( data <- request prov GetApplications ;;
      ret (match data with               (* response.data || [] *)
           | Some applications => applications
           | None => []
           end) )
    (fun error => handleError error "Failed to get applications").

Definition findApplicationByName (name : string)
  : M P (option Application) :=
  try_catch
    ( applications <- getApplications ;;
      ret (find (fun app => (app_name app =? name)%string) applications) )
    (fun error =>
       console_error "Error finding application:" ;;
       ret None).

Definition createDeployment (env : ProcessEnv) (subdomain : string)
           (clientData : JsObject) : M P unit :=
  try_catch
    ( (* Validate required environment variables *)
      (if negb (env_set (TEMPLATE_REPO env)) then
         throw (CoolifyAPIError "GitHub repository URL is required"
                                "INVALID_PARAMETER" None JUndefined)
       else ret tt) ;;
      (if negb (env_set (COOLIFY_PROJECT_ID env))
          || negb (env_set (COOLIFY_ENVIRONMENT_ID env))
          || negb (env_set (COOLIFY_SERVER_ID env)) then
         throw (CoolifyAPIError
                  "Coolify project ID, environment ID, and server ID are required but not provided"
                  "INVALID_PARAMETER" None JUndefined)
       else ret tt) ;;
      (* Check if application already exists *)
      existingApp <- findApplicationByName subdomain ;;
      applicationId <-
        match existingApp with
        | Some app =>
            console_log "Found existing application:" ;;
            ret (uuid app)
        | None =>
            console_log "Creating template-based deployment with" ;;
            created <- request prov
                         (PostApplication
                            (createPayload env subdomain clientData)) ;;
            console_log "Create application response:" ;;
            (* applicationId = createResponse.data?.uuid *)
            if env_set created then ret (str_or created "")
            else
              throw (CoolifyAPIError
                       "Application created but no ID returned"
                       "INVALID_RESPONSE" None JUndefined)
        end ;;
      (* Set environment variables *)
      console_log "Setting environment variables for application:" ;;
      envVariables <- lift_outcome (createDeployment_envVariables clientData) ;;
      request prov (PatchEnvsBulk applicationId envVariables) ;;
      (* Deploy application *)
      console_log "Deploying application:" ;;
      request prov (GetDeploy applicationId) ;;
      console_log "Deployment completed successfully" )
    (fun error => handleError error "Failed to create deployment").

Definition deleteDeployment (subdomain : string) : M P unit :=
  try_catch
    ( app <- findApplicationByName subdomain ;;
      match app with
      | None =>
          throw (CoolifyAPIError "Application not found" "NOT_FOUND"
                                 (Some 404) JUndefined)
      | Some app =>
          console_log "Deleting application:" ;;
          request prov (DeleteApplication (uuid app)) ;;
          console_log "Application deleted successfully"
      end )
    (fun error => handleError error "Failed to delete deployment").

Definition updateDeployment (env : ProcessEnv) (subdomain : string)
           (clientData : JsObject) : M P unit :=
  try_catch
    ( app <- findApplicationByName subdomain ;;
      match app with
      | None =>
          (* If application doesn't exist, create it instead of throwing
             an error *)
          console_log "Application not found, creating new deployment..." ;;
          createDeployment env subdomain clientData
      | Some app =>
          console_log "Updating existing application:" ;;
          (* Update environment variables *)
          envVariables <- lift_outcome (updateDeployment_envVariables clientData) ;;
          request prov (PatchEnvsBulk (uuid app) envVariables) ;;
          (* Redeploy application *)
          request prov (GetDeploy (uuid app)) ;;
          console_log "Update completed successfully"
      end )
    (fun error => handleError error "Failed to update deployment").

End Adapter.
End Coolify.

(* ================================================================= *)
(** ** The client routes ([routes/clients.js]) *)

Module Clients.
Import Axios.
Local Open Scope async_scope.

(** [res.status(statusCode).json(json)] *)
Record Res : Type := mkRes {
  statusCode : Z;
  json : JsObject
}.

(** The [clientData] object literal of the deploy and update routes *)
Definition clientData_of (client : Client) : JsObject :=
  [ ("name", JStr (name client));
    ("description", JStr (description client));
    ("links", links client);
    ("customization", customization client);
    ("logo", js_opt_string (logo client));
    ("deploymentType", JStr (deploymentType client));
    ("htmlCode", js_opt_string (htmlCode client)) ].

(** A request to the create route that passed validation: the fields of
    [req.body] as they came ([links] and [customization] are strings when
    the form sent them as JSON text), the URL of the logo that was uploaded
    for it ([None] when it had no file), [req.user.userId] and the
    identifier mongoose gives the new document. *)
Record CreateRequest : Type := mkCreateRequest {
  req_id : string;
  req_userId : string;
  req_name : string;
  req_subdomain : string;
  req_description : option string;
  req_links : JsValue;
  req_customization : JsValue;
  req_logoUrl : option string;
  req_deploymentType : option string;
  req_htmlCode : option string
}.

(** [new Client({...})], with the defaults of the schema *)
Definition new_Client (req : CreateRequest) (links customization : JsValue)
  : Client :=
  mkClient (req_id req) (req_userId req) (req_name req) (req_subdomain req)
           (match req_description req with Some d => d | None => "" end)
           links customization (req_logoUrl req)
           false
           (str_or (req_deploymentType req) "template")
           (req_htmlCode req).

(** The [clientData] object literal of the create route *)
Definition clientData_of_request (req : CreateRequest)
           (links customization : JsValue) : JsObject :=
  [ ("name", JStr (req_name req));
    ("description", js_opt_string (req_description req));
    ("links", links);
    ("customization", customization);
    ("logo", js_opt_string (req_logoUrl req));
    ("deploymentType", JStr (str_or (req_deploymentType req) "template"));
    ("htmlCode", js_opt_string (req_htmlCode req)) ].

Section Routes.
Context {P : Type} (prov : Provider P).

(** [JSON.parse]: a value, or the [SyntaxError] it throws *)
Variable JSON_parse : string -> Outcome JsValue.

(** [typeof v === 'string' ? JSON.parse(v) : v] *)
Definition parse_if_string (v : JsValue) : Outcome JsValue :=
  match v with
  | JStr s => JSON_parse s
  | _ => Return v
  end.

(** The module keeps each client in a variable once it is built; the
    environment does not change, so this is the client built from it.  The
    line the constructor writes to the console when the client is first
    built is not modelled. *)
Definition getCloudflareAPI (env : ProcessEnv)
  : M P (option Cloudflare.CloudflareAPI) :=
  if negb (env_set (CLOUDFLARE_API_TOKEN env))
     || negb (env_set (CLOUDFLARE_ZONE_ID env)) then
    console_warn
      "Warning: Cloudflare API credentials not found in environment variables" ;;
    ret None
  else
    match Cloudflare.new env (CLOUDFLARE_API_TOKEN env)
            (CLOUDFLARE_ZONE_ID env) (DOMAIN env) (SERVER_IP env) with
    | Return api => ret (Some api)
    | Throw _ =>
        console_error "Error initializing Cloudflare API:" ;;
        ret None
    end.

Definition getCoolifyAPI (env : ProcessEnv)
  : M P (option Coolify.CoolifyAPI) :=
  if negb (env_set (COOLIFY_API_KEY env))
     || negb (env_set (COOLIFY_API_URL env)) then
    console_warn
      "Warning: Coolify API credentials not found in environment variables" ;;
    ret None
  else
    match Coolify.new (COOLIFY_API_KEY env) (COOLIFY_API_URL env) with
    | Return api => ret (Some api)
    | Throw _ =>
        console_error "Error initializing Coolify API:" ;;
        ret None
    end.

(** [checkCloudflareAPI(res)]: the client, or the 503 that was sent *)
Definition checkCloudflareAPI (env : ProcessEnv)
  : M P (Cloudflare.CloudflareAPI + Res) :=
  api <- getCloudflareAPI env ;;
  match api with
  | Some cloudflare => ret (inl cloudflare)
  | None =>
      ret (inr (mkRes 503
        [("message",
          JStr "Domain management service is currently unavailable. Please try again later.")]))
  end.

Definition checkCoolifyAPI (env : ProcessEnv)
  : M P (Coolify.CoolifyAPI + Res) :=
  api <- getCoolifyAPI env ;;
  match api with
  | Some coolify => ret (inl coolify)
  | None =>
      ret (inr (mkRes 503
        [("message",
          JStr "Deployment service is currently unavailable. Please try again later.")]))
  end.

(** [if (!checkCloudflareAPI(res) || !checkCoolifyAPI(res)) return;] *)
Definition checkServices (env : ProcessEnv)
  : M P (Cloudflare.CloudflareAPI * Coolify.CoolifyAPI + Res) :=
  cf <- checkCloudflareAPI env ;;
  match cf with
  | inr res => ret (inr res)
  | inl cloudflare =>
      co <- checkCoolifyAPI env ;;
      match co with
      | inr res => ret (inr res)
      | inl coolify => ret (inl (cloudflare, coolify))
      end
  end.

(** [router.post('/')] for a request that passed validation, from the
    service check on (lines 250-351), without the upload of the logo
    (lines 254-275) *)
Definition create_route (env : ProcessEnv) (req : CreateRequest) : M P Res :=
  try_catch
    ( svc <- checkServices env ;;
      match svc with
      | inr res => ret res
      | inl (cloudflare, coolify) =>
          (* Check subdomain availability in Cloudflare *)
          checked <-
            try_catch
              ( available <- Cloudflare.checkSubdomainAvailability prov
                               cloudflare (req_subdomain req) ;;
                if negb available then
                  ret (Some (mkRes 400
                    [("message", JStr "This subdomain is not available")]))
                else ret None )
              (fun error =>
                 console_error "Error checking subdomain availability:" ;;
                 ret (Some (mkRes 500
                   [("message",
                     JStr "Failed to check subdomain availability")]))) ;;
          match checked with
          | Some res => ret res
          | None =>
              (* Create client in database *)
              links <- lift_outcome (parse_if_string (req_links req)) ;;
              customization <-
                lift_outcome (parse_if_string (req_customization req)) ;;
              let client := new_Client req links customization in
              save client ;;
              (* Create DNS record in Cloudflare *)
              try_catch
                (Cloudflare.createSubdomainRecord prov cloudflare
                   (req_subdomain req))
                (fun error =>
                   (* Don't fail the request if DNS record creation fails
                      The record can be created later using the deploy
                      endpoint *)
                   console_error "Error creating DNS record:") ;;
              (* Deploy template to Coolify *)
              client <-
                try_catch
                  ( links <- lift_outcome (parse_if_string (req_links req)) ;;
                    customization <-
                      lift_outcome (parse_if_string (req_customization req)) ;;
                    Coolify.createDeployment prov env (req_subdomain req)
                      (clientData_of_request req links customization) ;;
                    let client := set_isDeployed client true in
                    save client ;;
                    ret client )
                  (fun error =>
                     (* Don't fail the request if deployment fails
                        The deployment can be retried later using the
                        deploy endpoint *)
                     console_error "Error deploying template:" ;;
                     ret client) ;;
              ret (mkRes 201 (toObject client))
          end
      end )
    (fun error =>
       console_error "Error creating client:" ;;
       ret (mkRes 500 [("message", JStr "Server error")])).

(** The DNS phase of the deploy route (lines 411-431): [None] when it
    is through, the answer that was sent when it failed. *)
Definition deploy_dns_phase (cloudflare : Cloudflare.CloudflareAPI)
           (client : Client) : M P (option Res) :=
  try_catch
    ( console_log "Checking Cloudflare DNS record for:" ;;
      dnsExists <- Cloudflare.checkSubdomainAvailability
                     prov cloudflare (subdomain client) ;;
      (if dnsExists : bool then
         console_log "Creating Cloudflare DNS record for:" ;;
         Cloudflare.createSubdomainRecord prov cloudflare
           (subdomain client) ;;
         console_log "Successfully created Cloudflare DNS record"
       else
         console_log "DNS record already exists for:") ;;
      ret None )
    (fun error =>
       console_error "Error managing DNS record:" ;;
       ret (Some (mkRes 500
         [("error", JStr "Failed to manage DNS record");
          ("details", JStr (error_message error))]))).

(** Try to clean up DNS record if deployment failed (lines 466-473) *)
Definition deploy_cleanup (cloudflare : Cloudflare.CloudflareAPI)
           (client : Client) : M P unit :=
  try_catch
    ( Cloudflare.deleteSubdomainRecord prov cloudflare (subdomain client) ;;
      console_log "Cleaned up DNS record after failed deployment" )
    (fun cleanupError =>
       console_error "Failed to clean up DNS record:").

(** The answer for a failed deployment (lines 474-487) *)
Definition deployment_failed (error : JsError) : Res :=
  match error with
  | CoolifyAPIError message code status response =>
      mkRes (status_or_500 status)
        [("error", JStr "Deployment failed");
         ("details", JStr message);
         ("code", JStr code);
         ("apiResponse", response)]
  | _ =>
      mkRes 500
        [("error", JStr "Deployment failed");
         ("details", JStr (error_message error))]
  end.

Definition deployment_successful (client : Client) : Res :=
  mkRes 200
    [("message", JStr "Deployment successful");
     ("client",
      JObj (obj_set (toObject client) "isDeployed" (JBool true)))].

(** The deployment phase of the deploy route (lines 432-488) *)
Definition deploy_app_phase (env : ProcessEnv)
           (cloudflare : Cloudflare.CloudflareAPI) (client : Client)
  : M P Res :=
  try_catch
    ( console_log "Creating Coolify deployment for:" ;;
      Coolify.createDeployment prov env
        (subdomain client) (clientData_of client) ;;
      (* Update client status in database *)
      let client := set_isDeployed client true in
      save client ;;
      console_log "Deployment successful for client:" ;;
      ret (deployment_successful client) )
    (fun error =>
       console_error "Deployment failed for client:" ;;
       deploy_cleanup cloudflare client ;;
       ret (deployment_failed error)).

(** [router.post('/:id/deploy')] *)
Definition deploy_route (env : ProcessEnv) (id userId : string) : M P Res :=
  try_catch
    ( found <- findOne id userId ;;
      match found with
      | None => ret (mkRes 404 [("error", JStr "Client not found")])
      | Some client =>
          (* Check if client is already deployed *)
          if isDeployed client then
            ret (mkRes 400 [("error", JStr "Client is already deployed")])
          else
            (* Initialize services *)
            svc <- checkServices env ;;
            match svc with
            | inr res => ret res
            | inl (cloudflare, coolify) =>
                console_log "Starting deployment process for client:" ;;
                (* Check if DNS record exists in Cloudflare *)
                dns <- deploy_dns_phase cloudflare client ;;
                match dns with
                | Some res => ret res
                | None =>
                    (* Create deployment in Coolify *)
                    deploy_app_phase env cloudflare client
                end
            end
      end )
    (fun error =>
       console_error "Error in deploy route:" ;;
       ret (mkRes 500
         [("error", JStr "Server error");
          ("details", JStr (error_message error))])).

(** The two phases of the undeploy route; each gives the errors it
    pushes. *)
Definition undeploy_dns_phase (cloudflare : Cloudflare.CloudflareAPI)
           (client : Client) : M P (list string) :=
  try_catch
    ( console_log "Deleting Cloudflare DNS record for:" ;;
      Cloudflare.deleteSubdomainRecord prov cloudflare (subdomain client) ;;
      console_log "Successfully deleted Cloudflare DNS record" ;;
      ret [] )
    (fun error =>
       console_error "Error deleting DNS record:" ;;
       ret ["Failed to delete DNS record"]).

Definition undeploy_app_phase (client : Client) : M P (list string) :=
  try_catch
    ( console_log "Deleting Coolify deployment for:" ;;
      Coolify.deleteDeployment prov (subdomain client) ;;
      console_log "Successfully deleted Coolify deployment" ;;
      ret [] )
    (fun error =>
       console_error "Error undeploying from Coolify:" ;;
       ret ["Failed to delete Coolify deployment"]).

Definition errors_json (errors : list string) : JsValue :=
  JArr (map JStr errors).

(** [router.delete('/:id/deploy')] *)
Definition undeploy_route (env : ProcessEnv) (id userId : string)
  : M P Res :=
  try_catch
    ( svc <- checkServices env ;;
      match svc with
      | inr res => ret res
      | inl (cloudflare, coolify) =>
          found <- findOne id userId ;;
          match found with
          | None => ret (mkRes 404 [("message", JStr "Client not found")])
          | Some client =>
              console_log "Starting undeployment for client:" ;;
              (* Delete DNS record from Cloudflare *)
              errors1 <- undeploy_dns_phase cloudflare client ;;
              (* Delete deployment from Coolify *)
              errors2 <- undeploy_app_phase client ;;
              let errors := (errors1 ++ errors2)%list in
              (* Update client status if at least one operation
                 succeeded *)
              (if (length errors <? 2)%nat then
                 save (set_isDeployed client false) ;;
                 console_log "Updated client deployment status to false"
               else ret tt) ;;
              (* Return appropriate response based on errors *)
              if (length errors =? 0)%nat then
                ret (mkRes 200
                  [("message", JStr "Client undeployed successfully")])
              else if (length errors =? 2)%nat then
                ret (mkRes 500
                  [("message", JStr "Failed to undeploy client");
                   ("errors", errors_json errors)])
              else
                ret (mkRes 207
                  [("message", JStr "Client partially undeployed");
                   ("errors", errors_json errors)])
          end
      end )
    (fun error =>
       console_error "Error in undeploy route:" ;;
       ret (mkRes 500
         [("message", JStr "Server error");
          ("error", JStr (error_message error))])).

End Routes.
End Clients.

(* ================================================================= *)
(** ** A pair of providers to run the code against

    A zone and a set of applications held in memory.  Every request first
    takes the next entry of [faults]: [Some] makes the request fail with the
    given answer and leaves the resources alone, [None] (or no entry) lets
    it through. *)

Module Sim.
Import Axios.

Record State : Type := mkState {
  zone_name : string;
  records : list DnsRecord;
  applications : list Application;
  faults : list (option (string * option Response))
}.

Definition with_faults (st : State)
           (f : list (option (string * option Response))) : State :=
  mkState (zone_name st) (records st) (applications st) f.

Definition serve (r : Request) (st : State) : Result (Body r) * State :=
  match r return Result (Body r) * State with
  | GetDnsRecords _ fqdn =>
      (Resolved
         (filter (fun d => (record_name d =? fqdn)%string) (records st)), st)
  | PostDnsRecord _ label target =>
      let fqdn := label ++ "." ++ zone_name st in
      (Resolved tt,
       mkState (zone_name st)
               (records st ++ [mkDnsRecord ("rec-" ++ label) fqdn target])
               (applications st) (faults st))
  | DeleteDnsRecord _ recordId =>
      (Resolved tt,
       mkState (zone_name st)
               (filter (fun d => negb (id d =? recordId)%string) (records st))
               (applications st) (faults st))
  | GetApplications => (Resolved (Some (applications st)), st)
  | PostApplication payload =>
      let n := js_toString (obj_get payload "name") in
      (Resolved (Some ("app-" ++ n)),
       mkState (zone_name st) (records st)
               (applications st ++ [mkApplication ("app-" ++ n) n])
               (faults st))
  | PatchEnvsBulk _ _ => (Resolved tt, st)
  | GetDeploy _ => (Resolved tt, st)
  | DeleteApplication applicationId =>
      (Resolved tt,
       mkState (zone_name st) (records st)
               (filter (fun a => negb (uuid a =? applicationId)%string)
                       (applications st))
               (faults st))
  end.

Definition provider : Provider State :=
  fun r st =>
    match faults st with
    | Some (message, response) :: rest =>
        (Rejected message response, with_faults st rest)
    | None :: rest => serve r (with_faults st rest)
    | [] => serve r st
    end.

Definition http_error (status : Z) (data : JsValue)
  : option (string * option Response) :=
  Some ("Request failed with status code " ++ string_of_Z status,
        Some (mkResponse status data)).

Definition env : ProcessEnv :=
  mkProcessEnv (Some "token") (Some "zone-1") (Some "example.com")
               (Some "203.0.113.7") (Some "key")
               (Some "https://coolify.example.com/")
               (Some "https://github.com/acme/template")
               (Some "project-1") (Some "environment-1") (Some "server-1").

Definition acme : Client :=
  mkClient "c1" "u1" "Acme" "acme" "The Acme site"
           (JArr [JObj [("title", JStr "Home");
                        ("url", JStr "https://acme.test")]])
           (JObj []) None false "custom-html" (Some "<b>hi</b>").

Definition world (st : State) (clients : list Client) : World State :=
  mkWorld st [] [] clients.

Definition empty_zone : State := mkState "example.com" [] [] [].

End Sim.

(* ================================================================= *)
(** ** What a computation may touch *)

(** [sends Q m]: whatever [m] does, it leaves the tenant store as it was,
    only adds lines to the console, and sends only requests that satisfy
    [Q]. *)
Definition sends {P A : Type} (Q : Axios.Request -> Prop) (m : M P A) : Prop :=
  forall w o w',
    m w = (o, w') ->
    store w' = store w
    /\ (exists t, trace w' = trace w ++ t /\ Forall Q t)%list
    /\ (exists c, console w' = console w ++ c)%list.

Definition dns_request (r : Axios.Request) : Prop :=
  Axios.is_dns_request r = true.

Definition not_dns_request (r : Axios.Request) : Prop :=
  Axios.is_dns_request r = false.

(** A request that sets environment variables sets exactly [vars]. *)
Definition sets_only (vars : Outcome (list Axios.EnvVar)) (r : Axios.Request)
  : Prop :=
  match r with
  | Axios.PatchEnvsBulk _ envVariables => vars = Return envVariables
  | _ => True
  end.

(** The world after one more line on the console *)
Definition logged {P : Type} (w : World P) (l : LogLevel) (msg : string)
  : World P :=
  mkWorld (providers w) (trace w) (console w ++ [(l, msg)]) (store w).

(** [starts_with r m]: the first request [m] sends is [r], and it always
    sends it. *)
Definition starts_with {P A : Type} (r : Axios.Request) (m : M P A) : Prop :=
  forall w o w',
    m w = (o, w') -> exists rest, trace w' = (trace w ++ r :: rest)%list.

(** [throws E m]: an error that escapes [m] satisfies [E]. *)
Definition throws {P A : Type} (E : JsError -> Prop) (m : M P A) : Prop :=
  forall w e w', m w = (Throw e, w') -> E e.

(** [requests Q m]: the requests [m] sends all satisfy [Q]; unlike [sends],
    [m] may write to the tenant store. *)
Definition requests {P A : Type} (Q : Axios.Request -> Prop) (m : M P A)
  : Prop :=
  forall w o w',
    m w = (o, w') -> exists t, trace w' = (trace w ++ t)%list /\ Forall Q t.

(** The errors of the DNS adapter's own class *)
Definition is_CloudflareAPIError (e : JsError) : Prop :=
  match e with
  | CloudflareAPIError _ _ _ _ => True
  | _ => False
  end.

(** What a caller of the deployment adapter can catch: its own class with
    one of two codes, or the [TypeError] of reading [errors] off a missing
    body. *)
Definition coolify_caller_error (e : JsError) : Prop :=
  match e with
  | CoolifyAPIError _ code _ _ => code = "API_ERROR" \/ code = "UNKNOWN_ERROR"
  | TypeError m =>
      m = "Cannot read properties of undefined (reading 'errors')"
      \/ m = "Cannot read properties of null (reading 'errors')"
  | _ => False
  end.

(** The requests that create or configure something *)
Definition creates_nothing (r : Axios.Request) : Prop :=
  match r with
  | Axios.PostDnsRecord _ _ _ | Axios.PostApplication _
  | Axios.PatchEnvsBulk _ _ | Axios.GetDeploy _ => False
  | _ => True
  end.

Definition deletes_nothing (r : Axios.Request) : Prop :=
  match r with
  | Axios.DeleteDnsRecord _ _ | Axios.DeleteApplication _ => False
  | _ => True
  end.

Definition deletes_no_application (r : Axios.Request) : Prop :=
  match r with
  | Axios.DeleteApplication _ => False
  | _ => True
  end.


(** Requests that leave the set of applications as it is and address only
    the application [applicationId] *)
Definition only_touches (applicationId : string) (r : Axios.Request) : Prop :=
  match r with
  | Axios.GetApplications => True
  | Axios.PatchEnvsBulk i _ | Axios.GetDeploy i => i = applicationId
  | _ => False
  end.

(** The requests of the DNS adapter [api] on behalf of [subdomain]: the query
    for the name in its zone, the creation of the record for the label with
    the server's address, and a deletion in its zone *)
Definition dns_request_for (api : Cloudflare.CloudflareAPI)
           (subdomain : string) (r : Axios.Request) : Prop :=
  match r with
  | Axios.GetDnsRecords zone fqdn =>
      zone = Cloudflare.zoneId api
      /\ fqdn = subdomain ++ "." ++ Cloudflare.domain api
  | Axios.PostDnsRecord zone label target =>
      zone = Cloudflare.zoneId api /\ label = subdomain
      /\ target = Cloudflare.serverIp api
  | Axios.DeleteDnsRecord zone _ => zone = Cloudflare.zoneId api
  | _ => False
  end.

(** The static configuration [createDeployment] asks for before anything
    else *)
Definition deployment_configured (env : ProcessEnv) : bool :=
  env_set (TEMPLATE_REPO env) && env_set (COOLIFY_PROJECT_ID env)
  && env_set (COOLIFY_ENVIRONMENT_ID env) && env_set (COOLIFY_SERVER_ID env).

(** [applications.find(app => app.name === name)] on [response.data || []] *)
Definition find_application (name : string)
           (data : option (list Axios.Application))
  : option Axios.Application :=
  find (fun app => (Axios.app_name app =? name)%string)
       (match data with Some applications => applications | None => [] end).

Section AfterLookup.
Context {P : Type} (prov : Axios.Provider P).

(** What [createDeployment] does once the lookup has answered
    [existingApp] (lines 128-263) *)
Definition after_lookup (env : ProcessEnv) (subdomain : string)
           (clientData : JsObject) (existingApp : option Axios.Application)
  : M P unit :=
  bind
    match existingApp with
    | Some app =>
        bind (console_log "Found existing application:")
             (fun _ => ret (Axios.uuid app))
    | None =>
        bind (console_log "Creating template-based deployment with")
          (fun _ =>
           bind (request prov
                   (Axios.PostApplication
                      (Coolify.createPayload env subdomain clientData)))
             (fun created =>
              bind (console_log "Create application response:")
                (fun _ =>
                 if env_set created then ret (str_or created "")
                 else
                   throw (CoolifyAPIError
                            "Application created but no ID returned"
                            "INVALID_RESPONSE" None JUndefined))))
    end
    (fun applicationId =>
     bind (console_log "Setting environment variables for application:")
       (fun _ =>
        bind (lift_outcome (Coolify.createDeployment_envVariables clientData))
          (fun envVariables =>
           bind (request prov (Axios.PatchEnvsBulk applicationId envVariables))
             (fun _ =>
              bind (console_log "Deploying application:")
                (fun _ =>
                 bind (request prov (Axios.GetDeploy applicationId))
                   (fun _ => console_log "Deployment completed successfully")))))).

End AfterLookup.

(** The four credentials the routes ask for before they call a provider *)
Definition services_configured (env : ProcessEnv) : bool :=
  env_set (CLOUDFLARE_API_TOKEN env) && env_set (CLOUDFLARE_ZONE_ID env)
  && env_set (COOLIFY_API_KEY env) && env_set (COOLIFY_API_URL env).

(** The two credentials of the DNS provider *)
Definition dns_configured (env : ProcessEnv) : bool :=
  env_set (CLOUDFLARE_API_TOKEN env) && env_set (CLOUDFLARE_ZONE_ID env).

(** The clients the routes work with when the credentials are there *)
Definition cloudflare_of (env : ProcessEnv) : Cloudflare.CloudflareAPI :=
  Cloudflare.mkCloudflareAPI
    (str_or (CLOUDFLARE_ZONE_ID env) "")
    (str_or (DOMAIN env) "theosirislabs.com")
    (str_or (SERVER_IP env) "127.0.0.1").

Definition coolify_of (env : ProcessEnv) : Coolify.CoolifyAPI :=
  Coolify.mkCoolifyAPI
    (Coolify.strip_trailing_slash (str_or (COOLIFY_API_URL env) "")).

(** [answers S m]: [m] never throws, and what it returns satisfies [S]. *)
Definition answers {P A : Type} (S : A -> Prop) (m : M P A) : Prop :=
  forall w, exists a w', m w = (Return a, w') /\ S a.

(** [yields S m]: what [m] returns, when it returns, satisfies [S]. *)
Definition yields {P A : Type} (S : A -> Prop) (m : M P A) : Prop :=
  forall w a w', m w = (Return a, w') -> S a.

(** The answer of a service check that failed is a 503. *)
Definition unavailable {A : Type} (svc : A + Clients.Res) : Prop :=
  match svc with
  | inl _ => True
  | inr res => Clients.statusCode res = 503
  end.

(** [quiet w w']: from [w] to [w'] nothing was sent and nothing was saved. *)
Definition quiet {P : Type} (w w' : World P) : Prop :=
  providers w' = providers w /\ trace w' = trace w /\ store w' = store w.

(** A provider that accepts every request and answers with an empty
    body: no records, no list of applications, no identifier *)
Definition empty_answers : Axios.Provider unit :=
  fun r p =>
    (match r return Axios.Result (Axios.Body r) with
     | Axios.GetDnsRecords _ _ => Axios.Resolved []
     | Axios.PostDnsRecord _ _ _ => Axios.Resolved tt
     | Axios.DeleteDnsRecord _ _ => Axios.Resolved tt
     | Axios.GetApplications => Axios.Resolved None
     | Axios.PostApplication _ => Axios.Resolved None
     | Axios.PatchEnvsBulk _ _ => Axios.Resolved tt
     | Axios.GetDeploy _ => Axios.Resolved tt
     | Axios.DeleteApplication _ => Axios.Resolved tt
     end, p).

(** [JSON.parse] as it answers a text that is not JSON, the empty text
    for one; the examples hand it no other text. *)
Definition JSON_parse_rejects (s : string) : Outcome JsValue :=
  Throw (SyntaxError "Unexpected end of JSON input").

(** A provider that cannot be reached: every request is rejected without
    a response *)
Definition no_answers : Axios.Provider unit :=
  fun r p => (Axios.Rejected "Network Error" None, p).

(* ================================================================= *)
(** ** The availability route ([router.get('/check-subdomain')]) *)

Module CheckSubdomain.
Import Axios.
Local Open Scope async_scope.

(** A character of [[a-z0-9-]] *)
Definition subdomain_char (c : ascii) : bool :=
  let n := N_of_ascii c in
  ((97 <=? n) && (n <=? 122) || (48 <=? n) && (n <=? 57) || (n =? 45))%N.

(** [/^[a-z0-9-]+$/.test(s)] *)
Definition subdomainRegex_test (s : string) : bool :=
  negb (s =? "")%string && forallb subdomain_char (list_ascii_of_string s).

Section Route.
Context {P : Type} (prov : Provider P).

(** [Client.findOne({ subdomain })] *)
Definition findOne_by_subdomain (s : string) : M P (option Client) :=
  fun w =>
    (Return (find (fun c => (subdomain c =? s)%string) (store w)), w).

(** [router.get('/check-subdomain')] (lines 144-190), on the value of
    [req.query.subdomain] *)
Definition check_subdomain_route (env : ProcessEnv) (query : JsValue)
  : M P Clients.Res :=
  try_catch
    ( match query with
      | JStr s =>
          (* !subdomain || typeof subdomain !== 'string' *)
          if negb (truthy query) then
            ret (Clients.mkRes 400 [("message", JStr "Subdomain is required")])
          else
            checked <- Clients.checkCloudflareAPI env ;;
            match checked with
            | inr res => ret res
            | inl cloudflare =>
                (* Check subdomain format *)
                if negb (subdomainRegex_test s) then
                  ret (Clients.mkRes 400
                    [("message",
                      JStr "Subdomain can only contain lowercase letters, numbers, and hyphens")])
                else
                  (* Check if subdomain exists in database *)
                  existingClient <- findOne_by_subdomain s ;;
                  match existingClient with
                  | Some _ =>
                      ret (Clients.mkRes 400
                        [("message", JStr "This subdomain is already taken")])
                  | None =>
                      (* Check subdomain availability in Cloudflare *)
                      try_catch
                        ( available <- Cloudflare.checkSubdomainAvailability
                                         prov cloudflare s ;;
                          ret (Clients.mkRes 200
                                 [("available", JBool available)]) )
                        (fun error =>
                           match error with
                           | CloudflareAPIError message _ status _ =>
                               ret (Clients.mkRes (status_or_500 status)
                                      [("message", JStr message)])
                           | _ => throw error
                           end)
                  end
            end
      | _ =>
          ret (Clients.mkRes 400 [("message", JStr "Subdomain is required")])
      end )
    (fun error =>
       console_error "Error checking subdomain:" ;;
       ret (Clients.mkRes 500 [("message", JStr "Server error")])).

End Route.
End CheckSubdomain.

Ltac Zify.zify_post_hook ::= Z.to_euclidean_division_equations.

Lemma base64_value_char (n : N) :
  (n < 64)%N -> base64_value (base64_char n) = Some n.
Proof.
  intros H.
  destruct n as [|p]; [reflexivity|].
  do 6 (destruct p as [p|p|]; try reflexivity; try lia).
Qed.

Lemma base64_char_not_pad (n : N) :
  (n < 64)%N -> Ascii.eqb (base64_char n) base64_pad = false.
Proof.
  intros H.
  destruct n as [|p]; [reflexivity|].
  do 6 (destruct p as [p|p|]; try reflexivity; try lia).
Qed.

Lemma N_of_ascii_lt (a : ascii) : (N_of_ascii a < 256)%N.
Proof. destruct a as [[] [] [] [] [] [] [] []]; reflexivity. Qed.

Lemma list_ind3 (A : Type) (P : list A -> Prop) :
  P [] -> (forall a, P [a]) -> (forall a b, P [a; b]) ->
  (forall a b c rest, P rest -> P (a :: b :: c :: rest)) ->
  forall l, P l.
Proof.
  intros H0 H1 H2 H3.
  fix IH 1.
  intros [|a [|b [|c rest]]];
    [exact H0 | exact (H1 a) | exact (H2 a b) | exact (H3 a b c rest (IH rest))].
Qed.

Lemma sextet1_lt (x : N) : (x < 256 -> x / 4 < 64)%N.
Proof. lia. Qed.
Lemma sextet2_lt (x y : N) : (y < 256 -> x mod 4 * 16 + y / 16 < 64)%N.
Proof. lia. Qed.
Lemma sextet2_pad_lt (x : N) : (x mod 4 * 16 < 64)%N.
Proof. lia. Qed.
Lemma sextet3_lt (y z : N) : (z < 256 -> y mod 16 * 4 + z / 64 < 64)%N.
Proof. lia. Qed.
Lemma sextet3_pad_lt (y : N) : (y mod 16 * 4 < 64)%N.
Proof. lia. Qed.
Lemma sextet4_lt (z : N) : (z mod 64 < 64)%N.
Proof. lia. Qed.

Lemma byte1_eq (x y : N) :
  (y < 256 -> x / 4 * 4 + (x mod 4 * 16 + y / 16) / 16 = x)%N.
Proof. lia. Qed.
Lemma byte1_pad_eq (x : N) : (x / 4 * 4 + x mod 4 * 16 / 16 = x)%N.
Proof. lia. Qed.
Lemma byte2_eq (x y z : N) :
  (y < 256 -> z < 256 ->
   (x mod 4 * 16 + y / 16) mod 16 * 16 + (y mod 16 * 4 + z / 64) / 4 = y)%N.
Proof. lia. Qed.
Lemma byte2_pad_eq (x y : N) :
  (y < 256 ->
   (x mod 4 * 16 + y / 16) mod 16 * 16 + y mod 16 * 4 / 4 = y)%N.
Proof. lia. Qed.
Lemma byte3_eq (y z : N) :
  (z < 256 -> (y mod 16 * 4 + z / 64) mod 4 * 64 + z mod 64 = z)%N.
Proof. lia. Qed.

Lemma base64_decode_encode (bs : list ascii) :
  base64_decode (base64_encode bs) = Some bs.
Proof.
  induction bs as [|a|a b|a b c rest IH] using list_ind3.
  - reflexivity.
  - pose proof (N_of_ascii_lt a) as Ha.
    cbn [base64_encode base64_decode].
    rewrite (base64_value_char _ (sextet1_lt _ Ha)).
    rewrite (base64_value_char _ (sextet2_pad_lt _)).
    rewrite Ascii.eqb_refl, byte1_pad_eq.
    now rewrite ascii_N_embedding.
  - pose proof (N_of_ascii_lt a) as Ha. pose proof (N_of_ascii_lt b) as Hb.
    cbn [base64_encode base64_decode].
    rewrite (base64_value_char _ (sextet1_lt _ Ha)).
    rewrite (base64_value_char _ (sextet2_lt _ _ Hb)).
    rewrite (base64_value_char _ (sextet3_pad_lt _)).
    rewrite (base64_char_not_pad _ (sextet3_pad_lt _)).
    rewrite Ascii.eqb_refl, (byte1_eq _ _ Hb), (byte2_pad_eq _ _ Hb).
    now rewrite !ascii_N_embedding.
  - pose proof (N_of_ascii_lt a) as Ha. pose proof (N_of_ascii_lt b) as Hb.
    pose proof (N_of_ascii_lt c) as Hc.
    cbn [base64_encode base64_decode].
    rewrite (base64_value_char _ (sextet1_lt _ Ha)).
    rewrite (base64_value_char _ (sextet2_lt _ _ Hb)).
    rewrite (base64_value_char _ (sextet3_lt _ _ Hc)).
    rewrite (base64_value_char _ (sextet4_lt _)).
    rewrite (base64_char_not_pad _ (sextet3_lt _ _ Hc)).
    rewrite (base64_char_not_pad _ (sextet4_lt _)).
    rewrite IH, (byte1_eq _ _ Hb), (byte2_eq _ _ _ Hb Hc), (byte3_eq _ _ Hc).
    now rewrite !ascii_N_embedding.
Qed.

(* ================================================================= *)
(** ** Objects *)

Lemma obj_get_set_other (o : JsObject) (k k' : string) (v : JsValue) :
  k <> k' -> obj_get (obj_set o k v) k' = obj_get o k'.
Proof.
  intros Hk. induction o as [|[k0 v0] rest IH]; simpl.
  - now apply String.eqb_neq in Hk as ->.
  - destruct (String.eqb_spec k0 k) as [->|Hne]; simpl.
    + now apply String.eqb_neq in Hk as ->.
    + now rewrite IH.
Qed.

Lemma obj_has_remove (o : JsObject) (k : string) :
  obj_has (obj_remove o k) k = false.
Proof.
  induction o as [|[k0 v0] rest IH]; simpl; [reflexivity|].
  destruct (String.eqb_spec k0 k) as [->|Hne]; simpl; [exact IH|].
  apply String.eqb_neq in Hne. now rewrite Hne.
Qed.

Lemma obj_get_remove_same (o : JsObject) (k : string) :
  obj_get (obj_remove o k) k = JUndefined.
Proof.
  induction o as [|[k0 v0] rest IH]; simpl; [reflexivity|].
  destruct (String.eqb_spec k0 k) as [->|Hne]; simpl; [exact IH|].
  apply String.eqb_neq in Hne. now rewrite Hne.
Qed.

Lemma obj_get_remove_other (o : JsObject) (k k' : string) :
  k <> k' -> obj_get (obj_remove o k) k' = obj_get o k'.
Proof.
  intros Hk. induction o as [|[k0 v0] rest IH]; simpl; [reflexivity|].
  destruct (String.eqb_spec k0 k) as [->|Hne]; simpl.
  - apply String.eqb_neq in Hk. now rewrite Hk.
  - now rewrite IH.
Qed.

Lemma obj_remove_set_same (o : JsObject) (k : string) (v : JsValue) :
  obj_remove (obj_set o k v) k = obj_remove o k.
Proof.
  induction o as [|[k0 v0] rest IH]; simpl.
  - now rewrite String.eqb_refl.
  - destruct (String.eqb_spec k0 k) as [->|Hne]; simpl.
    + now rewrite String.eqb_refl.
    + apply String.eqb_neq in Hne. now rewrite Hne, IH.
Qed.

Lemma obj_remove_set_set (o : JsObject) (k k' : string) (v v' : JsValue) :
  k <> k' ->
  obj_remove (obj_set (obj_set o k v) k' v') k = obj_remove (obj_set o k' v') k.
Proof.
  intros Hk.
  pose proof Hk as Hkb. apply String.eqb_neq in Hkb.
  assert (Hkb' : (k' =? k)%string = false)
    by (apply String.eqb_neq; congruence).
  induction o as [|[k0 v0] rest IH]; simpl.
  - rewrite Hkb. simpl. now rewrite String.eqb_refl, Hkb'.
  - destruct (String.eqb_spec k0 k) as [->|Hne]; simpl.
    + rewrite Hkb. simpl. now rewrite String.eqb_refl.
    + destruct (String.eqb_spec k0 k') as [->|Hne']; simpl.
      * now rewrite Hkb', obj_remove_set_same.
      * apply String.eqb_neq in Hne. now rewrite Hne, IH.
Qed.

(* ================================================================= *)
(** ** The environment variables *)

Lemma clientDataForEnv_ignores_htmlCode (clientData : JsObject) (html : JsValue) :
  Coolify.clientDataForEnv (obj_set clientData "htmlCode" html)
  = Coolify.clientDataForEnv clientData.
Proof.
  unfold Coolify.clientDataForEnv.
  rewrite obj_get_set_other by discriminate.
  apply obj_remove_set_set. discriminate.
Qed.

Lemma clientDataForEnv_other_fields (clientData : JsObject) (k : string) :
  k <> "htmlCode" -> k <> "logo" ->
  obj_get (Coolify.clientDataForEnv clientData) k = obj_get clientData k.
Proof.
  intros Hh Hl. unfold Coolify.clientDataForEnv.
  rewrite obj_get_remove_other by congruence.
  apply obj_get_set_other. congruence.
Qed.

Lemma base64_utf8_round_trip (s : string) :
  base64_decode_utf8 (Buffer_toString_base64 (Buffer_from_utf8 s)) = Some s.
Proof.
  unfold base64_decode_utf8, Buffer_toString_base64, Buffer_from_utf8.
  rewrite list_ascii_of_string_of_list_ascii, base64_decode_encode.
  simpl. now rewrite string_of_list_ascii_of_string.
Qed.

Lemma truthy_JStr (s : string) : truthy (JStr s) = true <-> s <> "".
Proof.
  simpl. destruct (String.eqb_spec s ""); simpl; split; congruence.
Qed.

Lemma updateDeployment_envVariables_eq :
  Coolify.updateDeployment_envVariables = Coolify.createDeployment_envVariables.
Proof. reflexivity. Qed.

(** What [createDeployment_envVariables] gives on a payload whose [htmlCode]
    is a string or is missing *)
Lemma envVariables_typed (clientData : JsObject) :
  Coolify.htmlCode_typed clientData ->
  let payload := JSON_stringify (Coolify.clientDataForEnv clientData) in
  let base :=
    [ Axios.mkEnvVar "CLIENT_DATA" payload true;
      Axios.mkEnvVar "NODE_ENV" "production" true;
      Axios.mkEnvVar "NEXT_PUBLIC_CLIENT_DATA" payload true ] in
  (Coolify.createDeployment_envVariables clientData = Return base
   /\ ~ (exists s, obj_get clientData "htmlCode" = JStr s /\ trim s <> ""))
  \/ (exists s, obj_get clientData "htmlCode" = JStr s /\ trim s <> ""
      /\ Coolify.createDeployment_envVariables clientData
         = Return (base ++ [Axios.mkEnvVar Coolify.CUSTOM_HTML_KEY
                              (Buffer_toString_base64 (Buffer_from_utf8 s))
                              true])%list).
Proof.
  intros Hty payload base.
  unfold Coolify.createDeployment_envVariables.
  fold payload. fold base.
  destruct Hty as [H | [H | [s H]]]; rewrite H.
  - left. split; [reflexivity|]. intros (s & Hs & _). discriminate.
  - left. split; [reflexivity|]. intros (s & Hs & _). discriminate.
  - destruct (truthy (JStr s)) eqn:Hs.
    + destruct (truthy (JStr (trim s))) eqn:Ht.
      * right. exists s. apply truthy_JStr in Ht. auto.
      * left. split; [reflexivity|]. intros (s' & Hs' & Hne).
        injection Hs' as <-. apply truthy_JStr in Hne. congruence.
    + left. split; [reflexivity|]. intros (s' & Hs' & Hne).
      injection Hs' as <-.
      assert (s = "") as ->.
      { destruct (String.eqb_spec s ""); [assumption|].
        apply truthy_JStr in n. congruence. }
      now apply Hne.
Qed.

Ltac run_async :=
  unfold bind, try_catch, ret, throw, console_log, console_error,
    console_warn, console_write, lift_outcome, request, findOne, save;
  cbn beta iota zeta delta [providers trace console store fst snd].


(* ================================================================= *)
(** ** Frame lemmas *)

Section Sends.
Context {P : Type}.
Variable Q : Axios.Request -> Prop.

Lemma sends_nothing (w : World P) :
  store w = store w
  /\ (exists t, trace w = trace w ++ t /\ Forall Q t)%list
  /\ (exists c, console w = console w ++ c)%list.
Proof.
  split; [reflexivity|].
  split; exists []; rewrite app_nil_r; [split; [reflexivity|constructor]|reflexivity].
Qed.

Lemma sends_ret {A} (a : A) : sends (P:=P) Q (ret a).
Proof. intros w o w' H. injection H as <- <-. apply sends_nothing. Qed.

Lemma sends_throw {A} (e : JsError) : sends (P:=P) (A:=A) Q (throw e).
Proof. intros w o w' H. injection H as <- <-. apply sends_nothing. Qed.

Lemma sends_lift_outcome {A} (x : Outcome A) : sends (P:=P) Q (lift_outcome x).
Proof. intros w o w' H. injection H as <- <-. apply sends_nothing. Qed.

Lemma sends_console_write (l : LogLevel) (msg : string) :
  sends (P:=P) Q (console_write l msg).
Proof.
  intros w o w' H. injection H as <- <-. simpl.
  split; [reflexivity|]. split.
  - exists []. rewrite app_nil_r. split; [reflexivity|constructor].
  - now exists [(l, msg)].
Qed.

Lemma sends_request (prov : Axios.Provider P) (r : Axios.Request) :
  Q r -> sends Q (request prov r).
Proof.
  intros HQ w o w' H. unfold request in H.
  destruct (prov r (providers w)) as [[body|msg resp] p'];
    injection H as <- <-; simpl;
    (split; [reflexivity|]); (split; [|exists []; now rewrite app_nil_r]);
    exists [r]; (split; [reflexivity|]); now constructor.
Qed.

Lemma sends_trans (w1 w2 w3 : World P) :
  (store w2 = store w1
   /\ (exists t, trace w2 = trace w1 ++ t /\ Forall Q t)
   /\ (exists c, console w2 = console w1 ++ c))%list ->
  (store w3 = store w2
   /\ (exists t, trace w3 = trace w2 ++ t /\ Forall Q t)
   /\ (exists c, console w3 = console w2 ++ c))%list ->
  (store w3 = store w1
   /\ (exists t, trace w3 = trace w1 ++ t /\ Forall Q t)
   /\ (exists c, console w3 = console w1 ++ c))%list.
Proof.
  intros (Hs1 & (t1 & Ht1 & Hq1) & (c1 & Hc1))
         (Hs2 & (t2 & Ht2 & Hq2) & (c2 & Hc2)).
  split; [congruence|]. split.
  - exists (t1 ++ t2)%list. rewrite Ht2, Ht1, app_assoc.
    split; [reflexivity|]. apply Forall_app. now split.
  - exists (c1 ++ c2)%list. now rewrite Hc2, Hc1, app_assoc.
Qed.

Lemma sends_bind {A B} (m : M P A) (k : A -> M P B) :
  sends Q m -> (forall a, sends Q (k a)) -> sends Q (bind m k).
Proof.
  intros Hm Hk w o w' H. unfold bind in H.
  destruct (m w) as [[a|e] w1] eqn:Hmw.
  - exact (sends_trans _ _ _ (Hm _ _ _ Hmw) (Hk a _ _ _ H)).
  - injection H as <- <-. exact (Hm _ _ _ Hmw).
Qed.

(** After [lift_outcome x] the rest runs on what [x] returned. *)
Lemma sends_bind_lift {A B} (x : Outcome A) (k : A -> M P B) :
  (forall a, x = Return a -> sends Q (k a)) ->
  sends Q (bind (lift_outcome x) k).
Proof.
  intros Hk w o w' H. unfold bind, lift_outcome in H.
  destruct x as [a|e].
  - exact (Hk a eq_refl _ _ _ H).
  - injection H as <- <-. apply sends_nothing.
Qed.

Lemma sends_try_catch {A} (m : M P A) (h : JsError -> M P A) :
  sends Q m -> (forall e, sends Q (h e)) -> sends Q (try_catch m h).
Proof.
  intros Hm Hh w o w' H. unfold try_catch in H.
  destruct (m w) as [[a|e] w1] eqn:Hmw.
  - injection H as <- <-. exact (Hm _ _ _ Hmw).
  - exact (sends_trans _ _ _ (Hm _ _ _ Hmw) (Hh e _ _ _ H)).
Qed.

End Sends.

Lemma sends_weaken {P A : Type} (Q Q' : Axios.Request -> Prop) (m : M P A) :
  (forall r, Q r -> Q' r) -> sends Q m -> sends Q' m.
Proof.
  intros HQ Hm w o w' H.
  destruct (Hm _ _ _ H) as (Hs & (t & Ht & Hq) & Hc).
  split; [exact Hs|]. split; [|exact Hc].
  exists t. split; [exact Ht|]. revert Hq. apply Forall_impl. exact HQ.
Qed.

Ltac sends_step :=
  first
    [ apply sends_ret
    | apply sends_throw
    | apply sends_console_write
    | match goal with
      | |- sends ?Q (request ?p ?r) =>
          refine (sends_request Q p r _);
          first [exact eq_refl | exact I | assumption]
      end
    | apply sends_bind_lift; intros ? ?
    | apply sends_lift_outcome
    | apply sends_bind; [|intros ?]
    | apply sends_try_catch; [|intros ?]
    | match goal with
      | |- sends _ (if ?b then _ else _) => destruct b
      | |- sends _ (match ?x with _ => _ end) => destruct x
      end ].

Ltac sends_auto := repeat sends_step.

Section AdapterFrames.
Context {P : Type} (prov : Axios.Provider P).

Lemma sends_cloudflare_handleError {A} Q (e : JsError) :
  sends (P:=P) (A:=A) Q (Cloudflare.handleError e).
Proof.
  unfold Cloudflare.handleError, console_error. sends_auto.
Qed.

Lemma sends_checkSubdomainAvailability api subdomain :
  sends dns_request
        (Cloudflare.checkSubdomainAvailability prov api subdomain).
Proof.
  unfold Cloudflare.checkSubdomainAvailability, Cloudflare.subdomain_required,
    console_log.
  sends_auto; apply sends_cloudflare_handleError.
Qed.

Lemma sends_createSubdomainRecord api subdomain :
  sends dns_request
        (Cloudflare.createSubdomainRecord prov api subdomain).
Proof.
  unfold Cloudflare.createSubdomainRecord, Cloudflare.subdomain_required.
  sends_auto; apply sends_cloudflare_handleError.
Qed.

Lemma sends_deleteSubdomainRecord api subdomain :
  sends dns_request
        (Cloudflare.deleteSubdomainRecord prov api subdomain).
Proof.
  unfold Cloudflare.deleteSubdomainRecord, Cloudflare.subdomain_required.
  sends_auto; apply sends_cloudflare_handleError.
Qed.

Lemma sends_coolify_handleError {A} Q (e : JsError) (context : string) :
  sends (P:=P) (A:=A) Q (Coolify.handleError e context).
Proof.
  unfold Coolify.handleError, console_error, console_log. sends_auto.
Qed.

Lemma sends_getApplications (Q : Axios.Request -> Prop) :
  Q Axios.GetApplications -> sends Q (Coolify.getApplications prov).
Proof.
  intros HQ. unfold Coolify.getApplications.
  sends_auto; apply sends_coolify_handleError.
Qed.

Lemma sends_findApplicationByName (Q : Axios.Request -> Prop) name :
  Q Axios.GetApplications ->
  sends Q (Coolify.findApplicationByName prov name).
Proof.
  intros HQ. unfold Coolify.findApplicationByName, console_error.
  apply sends_try_catch; [|intros e; sends_auto].
  apply sends_bind; [|intros a; sends_auto].
  now apply sends_getApplications.
Qed.

(** What [createDeployment] sends: the listing, the creation, the variables
    that [createDeployment_envVariables] returned, and the deploy signal. *)
Lemma sends_createDeployment_with (Q : Axios.Request -> Prop)
      env subdomain clientData :
  Q Axios.GetApplications ->
  (forall payload, Q (Axios.PostApplication payload)) ->
  (forall applicationId vars,
      Coolify.createDeployment_envVariables clientData = Return vars ->
      Q (Axios.PatchEnvsBulk applicationId vars)) ->
  (forall applicationId, Q (Axios.GetDeploy applicationId)) ->
  sends Q (Coolify.createDeployment prov env subdomain clientData).
Proof.
  intros Hlist Hpost Hpatch Hdeploy.
  unfold Coolify.createDeployment, console_log.
  apply sends_try_catch; [|intros e; apply sends_coolify_handleError].
  apply sends_bind; [sends_auto|intros _].
  apply sends_bind; [sends_auto|intros _].
  apply sends_bind; [now apply sends_findApplicationByName|intros existingApp].
  apply sends_bind.
  - destruct existingApp as [app|]; [sends_auto|].
    apply sends_bind; [sends_auto|intros _].
    apply sends_bind;
      [exact (sends_request Q prov (Axios.PostApplication _) (Hpost _))
      |intros created].
    sends_auto.
  - intros applicationId.
    apply sends_bind; [sends_auto|intros _].
    apply sends_bind_lift. intros vars Hvars.
    apply sends_bind;
      [exact (sends_request Q prov (Axios.PatchEnvsBulk _ _)
                (Hpatch _ _ Hvars))
      |intros _].
    apply sends_bind; [sends_auto|intros _].
    apply sends_bind;
      [exact (sends_request Q prov (Axios.GetDeploy _) (Hdeploy _))
      |intros _].
    sends_auto.
Qed.

Lemma sends_createDeployment env subdomain clientData :
  sends not_dns_request
        (Coolify.createDeployment prov env subdomain clientData).
Proof. apply sends_createDeployment_with; intros; reflexivity. Qed.

(** The variables [createDeployment] sets are those it built. *)
Lemma createDeployment_sets_envVariables env subdomain clientData :
  sends (sets_only (Coolify.createDeployment_envVariables clientData))
        (Coolify.createDeployment prov env subdomain clientData).
Proof.
  apply sends_createDeployment_with; intros; try exact I. assumption.
Qed.


(** The variables [updateDeployment] sets are those it built, also when it
    falls back on [createDeployment]. *)
Lemma updateDeployment_sets_envVariables env subdomain clientData :
  sends (sets_only (Coolify.updateDeployment_envVariables clientData))
        (Coolify.updateDeployment prov env subdomain clientData).
Proof.
  unfold Coolify.updateDeployment, console_log.
  apply sends_try_catch; [|intros e; apply sends_coolify_handleError].
  apply sends_bind;
    [apply sends_findApplicationByName; exact I|intros [app|]].
  - apply sends_bind; [sends_auto|intros _].
    apply sends_bind_lift. intros vars Hvars.
    apply sends_bind;
      [exact (sends_request _ prov (Axios.PatchEnvsBulk _ _) Hvars)|intros _].
    apply sends_bind;
      [exact (sends_request _ prov (Axios.GetDeploy _) I)|intros _].
    sends_auto.
  - apply sends_bind; [sends_auto|intros _].
    rewrite updateDeployment_envVariables_eq.
    apply createDeployment_sets_envVariables.
Qed.

End AdapterFrames.

Lemma lookup_client_some (id userId : string) (l : list Client) (c : Client) :
  lookup_client id userId l = Some c -> _id c = id /\ owner c = userId.
Proof.
  unfold lookup_client. intros H. apply find_some in H as [_ H].
  apply andb_true_iff in H as [H1 H2].
  now apply String.eqb_eq in H1, H2.
Qed.

Lemma lookup_store_put (id userId : string) (l : list Client) (c c' : Client) :
  lookup_client id userId l = Some c ->
  _id c' = id -> owner c' = userId ->
  lookup_client id userId (store_put c' l) = Some c'.
Proof.
  intros Hl Hid Hown. unfold lookup_client in *.
  induction l as [|c0 rest IH]; simpl in *; [discriminate|].
  destruct (String.eqb_spec (_id c0) (_id c')) as [Heq|Hne]; simpl.
  - now rewrite Hid, Hown, !String.eqb_refl.
  - rewrite Hid in Hne. apply String.eqb_neq in Hne. rewrite Hne in *.
    simpl in *. now apply IH.
Qed.

Section RouteSteps.
Context {P : Type} (prov : Axios.Provider P).

Lemma checkServices_inl env (w w' : World P) cloudflare coolify :
  Clients.checkServices env w = (Return (inl (cloudflare, coolify)), w') ->
  w' = w.
Proof.
  unfold Clients.checkServices, Clients.checkCloudflareAPI,
    Clients.checkCoolifyAPI, Clients.getCloudflareAPI, Clients.getCoolifyAPI.
  destruct (negb (env_set (CLOUDFLARE_API_TOKEN env))
            || negb (env_set (CLOUDFLARE_ZONE_ID env)));
    [run_async; discriminate|].
  destruct (Cloudflare.new _ _ _ _ _); [|run_async; discriminate].
  destruct (negb (env_set (COOLIFY_API_KEY env))
            || negb (env_set (COOLIFY_API_URL env)));
    [run_async; discriminate|].
  destruct (Coolify.new _ _); [|run_async; discriminate].
  run_async. congruence.
Qed.

End RouteSteps.


Section DeployRoute.
Context {P : Type} (prov : Axios.Provider P).

Lemma deploy_dns_phase_total cloudflare client (w : World P) :
  exists r w1, Clients.deploy_dns_phase prov cloudflare client w = (Return r, w1).
Proof.
  unfold Clients.deploy_dns_phase. unfold try_catch at 1.
  match goal with |- context [let (_, _) := ?m w in _] =>
    destruct (m w) as [[r|e] w1] end.
  - now exists r, w1.
  - run_async. eauto.
Qed.

Lemma deploy_cleanup_run cloudflare client (w : World P) :
  Clients.deploy_cleanup prov cloudflare client w
  = match Cloudflare.deleteSubdomainRecord prov cloudflare (subdomain client) w with
    | (Return _, wc) =>
        (Return tt,
         logged wc LOG "Cleaned up DNS record after failed deployment")
    | (Throw _, wc) =>
        (Return tt, logged wc ERROR "Failed to clean up DNS record:")
    end.
Proof.
  cbv [Clients.deploy_cleanup try_catch bind console_log console_error
       console_write logged].
  destruct (Cloudflare.deleteSubdomainRecord prov cloudflare
              (subdomain client) w) as [[[]|e] wc]; reflexivity.
Qed.

Lemma deploy_app_phase_run env cloudflare client (w : World P) :
  Clients.deploy_app_phase prov env cloudflare client w
  = match Coolify.createDeployment prov env (subdomain client)
            (Clients.clientData_of client)
            (logged w LOG "Creating Coolify deployment for:") with
    | (Return _, w2) =>
        (Return (Clients.deployment_successful (set_isDeployed client true)),
         logged (mkWorld (providers w2) (trace w2) (console w2)
                   (store_put (set_isDeployed client true) (store w2)))
                LOG "Deployment successful for client:")
    | (Throw error, w2) =>
        match Clients.deploy_cleanup prov cloudflare client
                (logged w2 ERROR "Deployment failed for client:") with
        | (Return _, w3) => (Return (Clients.deployment_failed error), w3)
        | (Throw e, w3) => (Throw e, w3)
        end
    end.
Proof.
  cbv [Clients.deploy_app_phase try_catch bind console_log console_error
       console_write logged save ret].
  destruct (Coolify.createDeployment prov env (subdomain client)
              (Clients.clientData_of client) _) as [[[]|error] w2];
    [reflexivity|].
  cbn [providers trace console store].
  destruct (Clients.deploy_cleanup prov cloudflare client _) as [[[]|e] w3];
    reflexivity.
Qed.

Lemma deploy_app_phase_total env cloudflare client (w : World P) :
  exists r w1,
    Clients.deploy_app_phase prov env cloudflare client w = (Return r, w1).
Proof.
  rewrite deploy_app_phase_run.
  destruct (Coolify.createDeployment _ _ _ _ _) as [[[]|error] w2]; eauto.
  rewrite deploy_cleanup_run.
  destruct (Cloudflare.deleteSubdomainRecord _ _ _ _) as [[[]|e] wc]; eauto.
Qed.

Lemma deploy_route_run env id userId client cloudflare coolify (w : World P) :
  lookup_client id userId (store w) = Some client ->
  isDeployed client = false ->
  Clients.checkServices env w = (Return (inl (cloudflare, coolify)), w) ->
  Clients.deploy_route prov env id userId w
  = match Clients.deploy_dns_phase prov cloudflare client
            (logged w LOG "Starting deployment process for client:") with
    | (Return (Some res), w1) => (Return res, w1)
    | (Return None, w1) =>
        Clients.deploy_app_phase prov env cloudflare client w1
    | (Throw e, w1) =>
        (Return (Clients.mkRes 500
                   [("error", JStr "Server error");
                    ("details", JStr (error_message e))]),
         logged w1 ERROR "Error in deploy route:")
    end.
Proof.
  intros Hfind Hflag Hsvc.
  cbv [Clients.deploy_route try_catch bind findOne].
  rewrite Hfind, Hflag, Hsvc.
  cbv [console_log console_write logged].
  destruct (Clients.deploy_dns_phase prov cloudflare client _)
    as [[[res|]|e] w1]; try reflexivity.
  destruct (deploy_app_phase_total env cloudflare client w1) as (r & w2 & ->).
  reflexivity.
Qed.


End DeployRoute.

Section Compensation.
Context {P : Type} (prov : Axios.Provider P).

Lemma sends_deploy_dns_phase cloudflare client :
  sends dns_request (Clients.deploy_dns_phase prov cloudflare client).
Proof.
  unfold Clients.deploy_dns_phase, console_log, console_error.
  sends_auto;
    first [apply sends_checkSubdomainAvailability
          | apply sends_createSubdomainRecord].
Qed.


End Compensation.

Section StartsWith.
Context {P : Type}.
Variable r : Axios.Request.

Lemma starts_request (prov : Axios.Provider P) :
  starts_with r (request prov r).
Proof.
  intros w o w' H. unfold request in H.
  destruct (prov r (providers w)) as [[body|msg resp] p'];
    injection H as <- <-; now exists [].
Qed.

Lemma starts_bind {A B} Q (m : M P A) (k : A -> M P B) :
  starts_with r m -> (forall a, sends Q (k a)) -> starts_with r (bind m k).
Proof.
  intros Hm Hk w o w' H. unfold bind in H.
  destruct (m w) as [[a|e] w1] eqn:Hmw.
  - destruct (Hm _ _ _ Hmw) as (rest & Hrest).
    destruct (Hk a _ _ _ H) as (_ & (t & Ht & _) & _).
    exists (rest ++ t)%list. rewrite Ht, Hrest, <- app_assoc. reflexivity.
  - injection H as <- <-. exact (Hm _ _ _ Hmw).
Qed.

Lemma starts_try_catch {A} Q (m : M P A) (h : JsError -> M P A) :
  starts_with r m -> (forall e, sends Q (h e)) ->
  starts_with r (try_catch m h).
Proof.
  intros Hm Hh w o w' H. unfold try_catch in H.
  destruct (m w) as [[a|e] w1] eqn:Hmw.
  - injection H as <- <-. exact (Hm _ _ _ Hmw).
  - destruct (Hm _ _ _ Hmw) as (rest & Hrest).
    destruct (Hh e _ _ _ H) as (_ & (t & Ht & _) & _).
    exists (rest ++ t)%list. rewrite Ht, Hrest, <- app_assoc. reflexivity.
Qed.

Lemma starts_after_console {A} (l : LogLevel) (msg : string) (m : M P A) :
  starts_with r m -> starts_with r (bind (console_write l msg) (fun _ => m)).
Proof.
  intros Hm w o w' H. unfold bind, console_write in H.
  exact (Hm _ _ _ H).
Qed.

End StartsWith.

Section Deletions.
Context {P : Type} (prov : Axios.Provider P).




Lemma undeploy_dns_phase_run cloudflare client (w : World P) :
  Clients.undeploy_dns_phase prov cloudflare client w
  = match Cloudflare.deleteSubdomainRecord prov cloudflare (subdomain client)
            (logged w LOG "Deleting Cloudflare DNS record for:") with
    | (Return _, w1) =>
        (Return [], logged w1 LOG "Successfully deleted Cloudflare DNS record")
    | (Throw _, w1) =>
        (Return ["Failed to delete DNS record"],
         logged w1 ERROR "Error deleting DNS record:")
    end.
Proof.
  cbv [Clients.undeploy_dns_phase try_catch bind console_log console_error
       console_write logged ret].
  destruct (Cloudflare.deleteSubdomainRecord prov cloudflare
              (subdomain client) _) as [[[]|e] w1]; reflexivity.
Qed.

Lemma undeploy_app_phase_run client (w : World P) :
  Clients.undeploy_app_phase prov client w
  = match Coolify.deleteDeployment prov (subdomain client)
            (logged w LOG "Deleting Coolify deployment for:") with
    | (Return _, w1) =>
        (Return [], logged w1 LOG "Successfully deleted Coolify deployment")
    | (Throw _, w1) =>
        (Return ["Failed to delete Coolify deployment"],
         logged w1 ERROR "Error undeploying from Coolify:")
    end.
Proof.
  cbv [Clients.undeploy_app_phase try_catch bind console_log console_error
       console_write logged ret].
  destruct (Coolify.deleteDeployment prov (subdomain client) _)
    as [[[]|e] w1]; reflexivity.
Qed.

(** The route once the services are there and the tenant is found *)
Lemma undeploy_route_run env id userId client cloudflare coolify
      (w w1 w2 : World P) errors1 errors2 :
  Clients.checkServices env w = (Return (inl (cloudflare, coolify)), w) ->
  lookup_client id userId (store w) = Some client ->
  Clients.undeploy_dns_phase prov cloudflare client
    (logged w LOG "Starting undeployment for client:")
  = (Return errors1, w1) ->
  Clients.undeploy_app_phase prov client w1 = (Return errors2, w2) ->
  Clients.undeploy_route prov env id userId w
  = let errors := (errors1 ++ errors2)%list in
    let w3 :=
      if (length errors <? 2)%nat then
        logged (mkWorld (providers w2) (trace w2) (console w2)
                  (store_put (set_isDeployed client false) (store w2)))
               LOG "Updated client deployment status to false"
      else w2 in
    (Return
       (if (length errors =? 0)%nat then
          Clients.mkRes 200
            [("message", JStr "Client undeployed successfully")]
        else if (length errors =? 2)%nat then
          Clients.mkRes 500
            [("message", JStr "Failed to undeploy client");
             ("errors", Clients.errors_json errors)]
        else
          Clients.mkRes 207
            [("message", JStr "Client partially undeployed");
             ("errors", Clients.errors_json errors)]),
     w3).
Proof.
  intros Hsvc Hfind H1 H2.
  cbv [Clients.undeploy_route try_catch bind findOne].
  rewrite Hsvc, Hfind.
  cbv [console_log console_write].
  fold (logged w LOG "Starting undeployment for client:").
  rewrite H1, H2.
  cbv [save ret logged].
  destruct (length (errors1 ++ errors2) <? 2)%nat;
    destruct (length (errors1 ++ errors2) =? 0)%nat;
    destruct (length (errors1 ++ errors2) =? 2)%nat; reflexivity.
Qed.

End Deletions.

Section AbsentResources.
Context {P : Type} (prov : Axios.Provider P).

(** Deleting the record of a name that has none: one query, no deletion,
    no error *)
Lemma deleteSubdomainRecord_absent api subdomain (w : World P) p1 :
  subdomain <> "" ->
  prov (Axios.GetDnsRecords (Cloudflare.zoneId api)
          (subdomain ++ "." ++ Cloudflare.domain api)) (providers w)
  = (Axios.Resolved [], p1) ->
  Cloudflare.deleteSubdomainRecord prov api subdomain w
  = (Return tt,
     mkWorld p1
       (trace w ++ [Axios.GetDnsRecords (Cloudflare.zoneId api)
                      (subdomain ++ "." ++ Cloudflare.domain api)])
       (console w) (store w)).
Proof.
  intros Hsub Hlist. unfold Cloudflare.deleteSubdomainRecord.
  apply truthy_JStr in Hsub. rewrite Hsub. cbn [negb].
  run_async. now rewrite Hlist.
Qed.

(** Deleting the application of a name that has none: the listing, then
    the error the adapter throws itself *)
Lemma deleteDeployment_absent subdomain (w : World P) data p2 :
  prov Axios.GetApplications (providers w) = (Axios.Resolved data, p2) ->
  find (fun app => (Axios.app_name app =? subdomain)%string)
       (match data with Some applications => applications | None => [] end)
  = None ->
  Coolify.deleteDeployment prov subdomain w
  = (Throw (CoolifyAPIError
              "Failed to delete deployment: Application not found"
              "UNKNOWN_ERROR" (Some 500) JUndefined),
     mkWorld p2 (trace w ++ [Axios.GetApplications])
       (console w
        ++ [(ERROR, "Coolify API Error (Failed to delete deployment):")])
       (store w)).
Proof.
  intros Happs Hnone.
  unfold Coolify.deleteDeployment, Coolify.findApplicationByName,
    Coolify.getApplications.
  run_async. rewrite Happs.
  cbn beta iota zeta delta [providers trace console store fst snd].
  rewrite Hnone. reflexivity.
Qed.

End AbsentResources.

Section DeployFlag.
Context {P : Type} (prov : Axios.Provider P).

(** On the deploy route the flag is raised only after both phases: the DNS
    phase went through and [createDeployment] returned. *)
Lemma deploy_route_flag_after_both_phases env id userId client
      cloudflare coolify (w w' : World P) res :
  lookup_client id userId (store w) = Some client ->
  isDeployed client = false ->
  Clients.checkServices env w = (Return (inl (cloudflare, coolify)), w) ->
  Clients.deploy_route prov env id userId w = (res, w') ->
  deployed_flag id userId (store w') = Some true ->
  exists w1 w2,
    Clients.deploy_dns_phase prov cloudflare client
      (logged w LOG "Starting deployment process for client:")
    = (Return None, w1)
    /\ Coolify.createDeployment prov env (subdomain client)
         (Clients.clientData_of client)
         (logged w1 LOG "Creating Coolify deployment for:")
       = (Return tt, w2).
Proof.
  intros Hfind Hflag Hsvc Hroute Hset.
  assert (Hkeep : forall x : World P,
             store x = store w -> deployed_flag id userId (store x) <> Some true).
  { intros x Hx. unfold deployed_flag. rewrite Hx, Hfind. simpl.
    rewrite Hflag. discriminate. }
  rewrite (deploy_route_run prov env id userId client cloudflare coolify w
             Hfind Hflag Hsvc) in Hroute.
  destruct (Clients.deploy_dns_phase prov cloudflare client _)
    as [o1 w1] eqn:Hdns.
  destruct (sends_deploy_dns_phase prov _ _ _ _ _ Hdns) as (Hs1 & _).
  cbn [store logged] in Hs1.
  destruct o1 as [[r|]|e].
  - injection Hroute as <- <-. now elim (Hkeep w1).
  - rewrite deploy_app_phase_run in Hroute.
    destruct (Coolify.createDeployment prov env _ _ _) as [o2 w2] eqn:Hdep.
    destruct (sends_createDeployment prov _ _ _ _ _ _ Hdep) as (Hs2 & _).
    cbn [store logged] in Hs2.
    destruct o2 as [[]|error]; [now exists w1, w2|].
    rewrite deploy_cleanup_run in Hroute.
    destruct (Cloudflare.deleteSubdomainRecord prov _ _ _)
      as [o3 w3] eqn:Hdel.
    destruct (sends_deleteSubdomainRecord prov _ _ _ _ _ Hdel) as (Hs3 & _).
    cbn [store logged] in Hs3.
    destruct o3 as [[]|e3]; injection Hroute as <- <-;
      elim (Hkeep _ (eq_trans Hs3 (eq_trans Hs2 Hs1))); exact Hset.
  - injection Hroute as <- <-. now elim (Hkeep w1).
Qed.

End DeployFlag.

(* ================================================================= *)
(** ** Errors that escape, requests that are sent *)

Section Throws.
Context {P : Type}.
Variable E : JsError -> Prop.

Lemma throws_ret {A} (a : A) : throws (P:=P) E (ret a).
Proof. intros w e w' H. discriminate. Qed.

Lemma throws_throw {A} (e : JsError) : E e -> throws (P:=P) (A:=A) E (throw e).
Proof. intros He w e' w' H. now injection H as <- <-. Qed.

Lemma throws_console_write (l : LogLevel) (msg : string) :
  throws (P:=P) E (console_write l msg).
Proof. intros w e w' H. discriminate. Qed.

Lemma throws_bind {A B} (m : M P A) (k : A -> M P B) :
  throws E m -> (forall a, throws E (k a)) -> throws E (bind m k).
Proof.
  intros Hm Hk w e w' H. unfold bind in H.
  destruct (m w) as [[a|e0] w1] eqn:Hmw.
  - exact (Hk a _ _ _ H).
  - injection H as <- <-. exact (Hm _ _ _ Hmw).
Qed.

(** What the handler throws is all that escapes a [try]. *)
Lemma throws_try_catch {A} (m : M P A) (h : JsError -> M P A) :
  (forall e, throws E (h e)) -> throws E (try_catch m h).
Proof.
  intros Hh w e w' H. unfold try_catch in H.
  destruct (m w) as [[a|e0] w1] eqn:Hmw; [discriminate|].
  exact (Hh e0 _ _ _ H).
Qed.

End Throws.

Ltac throws_step :=
  first
    [ apply throws_ret
    | apply throws_console_write
    | apply throws_throw; cbn; auto
    | apply throws_try_catch; intros ?
    | apply throws_bind; [|intros ?]
    | match goal with
      | |- throws _ (if ?b then _ else _) => destruct b
      | |- throws _ (match ?x with _ => _ end) => destruct x
      end ].

Ltac throws_auto := repeat throws_step.

Section Requests.
Context {P : Type}.
Variable Q : Axios.Request -> Prop.

Lemma requests_of_sends {A} (m : M P A) : sends Q m -> requests Q m.
Proof. intros Hm w o w' H. now destruct (Hm _ _ _ H) as (_ & Ht & _). Qed.

Lemma requests_silent {A} (m : M P A) :
  (forall w o w', m w = (o, w') -> trace w' = trace w) -> requests Q m.
Proof.
  intros Hm w o w' H. exists []. rewrite app_nil_r.
  split; [exact (Hm _ _ _ H)|constructor].
Qed.

Lemma requests_ret {A} (a : A) : requests (P:=P) Q (ret a).
Proof. apply requests_silent. intros w o w' H. now injection H as <- <-. Qed.

Lemma requests_save (c : Client) : requests (P:=P) Q (save c).
Proof. apply requests_silent. intros w o w' H. now injection H as <- <-. Qed.

Lemma requests_findOne (id userId : string) :
  requests (P:=P) Q (findOne id userId).
Proof. apply requests_silent. intros w o w' H. now injection H as <- <-. Qed.

Lemma requests_bind {A B} (m : M P A) (k : A -> M P B) :
  requests Q m -> (forall a, requests Q (k a)) -> requests Q (bind m k).
Proof.
  intros Hm Hk w o w' H. unfold bind in H.
  destruct (m w) as [[a|e] w1] eqn:Hmw.
  - destruct (Hm _ _ _ Hmw) as (t1 & Ht1 & Hq1).
    destruct (Hk a _ _ _ H) as (t2 & Ht2 & Hq2).
    exists (t1 ++ t2)%list. rewrite Ht2, Ht1, app_assoc.
    split; [reflexivity|]. apply Forall_app. now split.
  - injection H as <- <-. exact (Hm _ _ _ Hmw).
Qed.

Lemma requests_try_catch {A} (m : M P A) (h : JsError -> M P A) :
  requests Q m -> (forall e, requests Q (h e)) -> requests Q (try_catch m h).
Proof.
  intros Hm Hh w o w' H. unfold try_catch in H.
  destruct (m w) as [[a|e] w1] eqn:Hmw.
  - injection H as <- <-. exact (Hm _ _ _ Hmw).
  - destruct (Hm _ _ _ Hmw) as (t1 & Ht1 & Hq1).
    destruct (Hh e _ _ _ H) as (t2 & Ht2 & Hq2).
    exists (t1 ++ t2)%list. rewrite Ht2, Ht1, app_assoc.
    split; [reflexivity|]. apply Forall_app. now split.
Qed.

End Requests.

Lemma requests_console_write {P : Type} Q (l : LogLevel) (msg : string) :
  requests (P:=P) Q (console_write l msg).
Proof. apply requests_of_sends, sends_console_write. Qed.

Lemma requests_lift_outcome {P A : Type} Q (x : Outcome A) :
  requests (P:=P) Q (lift_outcome x).
Proof. apply requests_of_sends, sends_lift_outcome. Qed.

Section CoolifyRuns.
Context {P : Type} (prov : Axios.Provider P).

Lemma findApplicationByName_resolved name (w : World P) data p1 :
  prov Axios.GetApplications (providers w) = (Axios.Resolved data, p1) ->
  Coolify.findApplicationByName prov name w
  = (Return (find_application name data),
     mkWorld p1 (trace w ++ [Axios.GetApplications]) (console w) (store w)).
Proof.
  intros Hlist.
  unfold Coolify.findApplicationByName, Coolify.getApplications.
  run_async. now rewrite Hlist.
Qed.

Lemma findApplicationByName_rejected name (w : World P) message response p1 :
  prov Axios.GetApplications (providers w)
  = (Axios.Rejected message response, p1) ->
  exists c,
    Coolify.findApplicationByName prov name w
    = (Return None,
       mkWorld p1 (trace w ++ [Axios.GetApplications]) (console w ++ c)
               (store w)).
Proof.
  intros Hlist.
  unfold Coolify.findApplicationByName, Coolify.getApplications,
    Coolify.handleError.
  run_async. rewrite Hlist.
  cbn beta iota zeta delta [providers trace console store fst snd].
  destruct response as [[status data]|];
    [destruct data|]; cbn; rewrite <- ?app_assoc; eexists; reflexivity.
Qed.

Lemma configured_checks env :
  deployment_configured env = true ->
  negb (env_set (TEMPLATE_REPO env)) = false
  /\ negb (env_set (COOLIFY_PROJECT_ID env))
     || negb (env_set (COOLIFY_ENVIRONMENT_ID env))
     || negb (env_set (COOLIFY_SERVER_ID env)) = false.
Proof.
  unfold deployment_configured. intros H.
  apply andb_true_iff in H as [H H4]. apply andb_true_iff in H as [H H3].
  apply andb_true_iff in H as [H1 H2]. now rewrite H1, H2, H3, H4.
Qed.

Lemma createDeployment_after_lookup env subdomain clientData (w w1 : World P)
      existingApp :
  deployment_configured env = true ->
  Coolify.findApplicationByName prov subdomain w = (Return existingApp, w1) ->
  Coolify.createDeployment prov env subdomain clientData w
  = try_catch (after_lookup prov env subdomain clientData existingApp)
      (fun error => Coolify.handleError error "Failed to create deployment") w1.
Proof.
  intros Hconf Hfind. destruct (configured_checks env Hconf) as [H1 H2].
  unfold Coolify.createDeployment, after_lookup.
  rewrite H1, H2.
  cbv beta iota delta [try_catch bind ret]. rewrite Hfind. reflexivity.
Qed.

End CoolifyRuns.

Section ServiceChecks.
Context {P : Type}.

Lemma str_or_idem (a : option string) (b : string) :
  str_or a (str_or a b) = str_or a b.
Proof. destruct a as [s|]; [|reflexivity]. cbn. now destruct (s =? "")%string. Qed.

Lemma checkServices_configured env (w : World P) :
  services_configured env = true ->
  Clients.checkServices env w
  = (Return (inl (cloudflare_of env, coolify_of env)), w).
Proof.
  unfold services_configured. intros H.
  apply andb_true_iff in H as [H H4]. apply andb_true_iff in H as [H H3].
  apply andb_true_iff in H as [H1 H2].
  unfold Clients.checkServices, Clients.checkCloudflareAPI,
    Clients.checkCoolifyAPI, Clients.getCloudflareAPI, Clients.getCoolifyAPI,
    Cloudflare.new, Coolify.new, cloudflare_of, coolify_of.
  rewrite H1, H2, H3, H4. cbn [negb orb]. run_async.
  now rewrite !str_or_idem.
Qed.

Lemma checkServices_unconfigured env (w : World P) :
  services_configured env = false ->
  exists message c,
    Clients.checkServices env w
    = (Return (inr (Clients.mkRes 503 [("message", JStr message)])),
       mkWorld (providers w) (trace w) (console w ++ c) (store w)).
Proof.
  unfold services_configured. intros H.
  unfold Clients.checkServices, Clients.checkCloudflareAPI,
    Clients.checkCoolifyAPI, Clients.getCloudflareAPI, Clients.getCoolifyAPI,
    Cloudflare.new, Coolify.new.
  destruct (env_set (CLOUDFLARE_API_TOKEN env)),
    (env_set (CLOUDFLARE_ZONE_ID env));
    cbn [negb orb andb] in *; run_async; try (do 2 eexists; reflexivity).
  destruct (env_set (COOLIFY_API_KEY env)), (env_set (COOLIFY_API_URL env));
    cbn [negb orb andb] in *; run_async; try discriminate;
    exists "Deployment service is currently unavailable. Please try again later.";
    eexists; reflexivity.
Qed.

End ServiceChecks.

Section CloudflareRuns.
Context {P : Type} (prov : Axios.Provider P).

Lemma cloudflare_handleError_axios {A} message response (w : World P) :
  exists msg code details,
    Cloudflare.handleError (A:=A) (AxiosError message response) w
    = (Throw (CloudflareAPIError msg code
                (option_map Axios.status response) details),
       logged w ERROR "Cloudflare API Error:").
Proof.
  unfold Cloudflare.handleError. run_async. unfold logged.
  repeat match goal with
         | |- context [if ?b then _ else _] => destruct b
         end; do 3 eexists; reflexivity.
Qed.

Lemma checkSubdomainAvailability_resolved api subdomain (w : World P)
      result p1 :
  subdomain <> "" ->
  prov (Axios.GetDnsRecords (Cloudflare.zoneId api)
          (subdomain ++ "." ++ Cloudflare.domain api)) (providers w)
  = (Axios.Resolved result, p1) ->
  Cloudflare.checkSubdomainAvailability prov api subdomain w
  = (Return (length result =? 0)%nat,
     mkWorld p1
       (trace w ++ [Axios.GetDnsRecords (Cloudflare.zoneId api)
                      (subdomain ++ "." ++ Cloudflare.domain api)])
       (console w ++ [(LOG, "")]) (store w)).
Proof.
  intros Hsub Hq. unfold Cloudflare.checkSubdomainAvailability.
  apply truthy_JStr in Hsub. rewrite Hsub. cbn [negb].
  run_async. now rewrite Hq.
Qed.

Lemma checkSubdomainAvailability_rejected api subdomain (w : World P)
      message response p1 :
  subdomain <> "" ->
  prov (Axios.GetDnsRecords (Cloudflare.zoneId api)
          (subdomain ++ "." ++ Cloudflare.domain api)) (providers w)
  = (Axios.Rejected message response, p1) ->
  exists msg code details,
    Cloudflare.checkSubdomainAvailability prov api subdomain w
    = (Throw (CloudflareAPIError msg code
                (option_map Axios.status response) details),
       mkWorld p1
         (trace w ++ [Axios.GetDnsRecords (Cloudflare.zoneId api)
                        (subdomain ++ "." ++ Cloudflare.domain api)])
         (console w ++ [(ERROR, "Cloudflare API Error:")]) (store w)).
Proof.
  intros Hsub Hq. unfold Cloudflare.checkSubdomainAvailability.
  apply truthy_JStr in Hsub. rewrite Hsub. cbn [negb].
  unfold try_catch, bind, request. rewrite Hq.
  apply cloudflare_handleError_axios.
Qed.

Lemma createSubdomainRecord_resolved api subdomain (w : World P) p1 :
  subdomain <> "" ->
  prov (Axios.PostDnsRecord (Cloudflare.zoneId api) subdomain
          (Cloudflare.serverIp api)) (providers w)
  = (Axios.Resolved tt, p1) ->
  Cloudflare.createSubdomainRecord prov api subdomain w
  = (Return tt,
     mkWorld p1
       (trace w ++ [Axios.PostDnsRecord (Cloudflare.zoneId api) subdomain
                      (Cloudflare.serverIp api)])
       (console w) (store w)).
Proof.
  intros Hsub Hq. unfold Cloudflare.createSubdomainRecord.
  apply truthy_JStr in Hsub. rewrite Hsub. cbn [negb].
  run_async. now rewrite Hq.
Qed.

Lemma createSubdomainRecord_rejected api subdomain (w : World P)
      message response p1 :
  subdomain <> "" ->
  prov (Axios.PostDnsRecord (Cloudflare.zoneId api) subdomain
          (Cloudflare.serverIp api)) (providers w)
  = (Axios.Rejected message response, p1) ->
  exists msg code details,
    Cloudflare.createSubdomainRecord prov api subdomain w
    = (Throw (CloudflareAPIError msg code
                (option_map Axios.status response) details),
       mkWorld p1
         (trace w ++ [Axios.PostDnsRecord (Cloudflare.zoneId api) subdomain
                        (Cloudflare.serverIp api)])
         (console w ++ [(ERROR, "Cloudflare API Error:")]) (store w)).
Proof.
  intros Hsub Hq. unfold Cloudflare.createSubdomainRecord.
  apply truthy_JStr in Hsub. rewrite Hsub. cbn [negb].
  unfold try_catch, request. rewrite Hq.
  apply cloudflare_handleError_axios.
Qed.

End CloudflareRuns.


Section AdapterVocabulary.
Context {P : Type} (prov : Axios.Provider P).
Variable Q : Axios.Request -> Prop.

Lemma sends_checkSubdomainAvailability_with api subdomain :
  (forall zone fqdn, Q (Axios.GetDnsRecords zone fqdn)) ->
  sends Q (Cloudflare.checkSubdomainAvailability prov api subdomain).
Proof.
  intros Hq.
  unfold Cloudflare.checkSubdomainAvailability, Cloudflare.subdomain_required,
    console_log.
  destruct (negb (truthy (JStr subdomain))); [apply sends_throw|].
  apply sends_try_catch; [|intros e; apply sends_cloudflare_handleError].
  apply sends_bind;
    [exact (sends_request Q prov (Axios.GetDnsRecords _ _) (Hq _ _))
    |intros result].
  sends_auto.
Qed.

Lemma sends_createSubdomainRecord_with api subdomain :
  (forall zone label target, Q (Axios.PostDnsRecord zone label target)) ->
  sends Q (Cloudflare.createSubdomainRecord prov api subdomain).
Proof.
  intros Hq.
  unfold Cloudflare.createSubdomainRecord, Cloudflare.subdomain_required.
  destruct (negb (truthy (JStr subdomain))); [apply sends_throw|].
  apply sends_try_catch; [|intros e; apply sends_cloudflare_handleError].
  exact (sends_request Q prov (Axios.PostDnsRecord _ _ _) (Hq _ _ _)).
Qed.

Lemma sends_deleteSubdomainRecord_with api subdomain :
  (forall zone fqdn, Q (Axios.GetDnsRecords zone fqdn)) ->
  (forall zone recordId, Q (Axios.DeleteDnsRecord zone recordId)) ->
  sends Q (Cloudflare.deleteSubdomainRecord prov api subdomain).
Proof.
  intros Hq Hd.
  unfold Cloudflare.deleteSubdomainRecord, Cloudflare.subdomain_required.
  destruct (negb (truthy (JStr subdomain))); [apply sends_throw|].
  apply sends_try_catch; [|intros e; apply sends_cloudflare_handleError].
  apply sends_bind;
    [exact (sends_request Q prov (Axios.GetDnsRecords _ _) (Hq _ _))
    |intros [|record others]].
  - apply sends_ret.
  - exact (sends_request Q prov (Axios.DeleteDnsRecord _ _) (Hd _ _)).
Qed.

Lemma sends_deleteDeployment_with subdomain :
  Q Axios.GetApplications ->
  (forall applicationId, Q (Axios.DeleteApplication applicationId)) ->
  sends Q (Coolify.deleteDeployment prov subdomain).
Proof.
  intros Hl Hd. unfold Coolify.deleteDeployment, console_log.
  apply sends_try_catch; [|intros e; apply sends_coolify_handleError].
  apply sends_bind;
    [now apply sends_findApplicationByName|intros [app|]]; [|sends_auto].
  apply sends_bind; [sends_auto|intros _].
  apply sends_bind;
    [exact (sends_request Q prov (Axios.DeleteApplication _) (Hd _))
    |intros _].
  sends_auto.
Qed.

Lemma requests_checkServices env :
  requests (P:=P) Q (Clients.checkServices env).
Proof.
  apply requests_silent. intros w o w'.
  unfold Clients.checkServices, Clients.checkCloudflareAPI,
    Clients.checkCoolifyAPI, Clients.getCloudflareAPI, Clients.getCoolifyAPI.
  destruct (negb (env_set (CLOUDFLARE_API_TOKEN env))
            || negb (env_set (CLOUDFLARE_ZONE_ID env)));
    [run_async; intros H; now injection H as <- <-|].
  destruct (Cloudflare.new _ _ _ _ _);
    [|run_async; intros H; now injection H as <- <-].
  destruct (negb (env_set (COOLIFY_API_KEY env))
            || negb (env_set (COOLIFY_API_URL env)));
    [run_async; intros H; now injection H as <- <-|].
  destruct (Coolify.new _ _); run_async; intros H; now injection H as <- <-.
Qed.

End AdapterVocabulary.

Ltac requests_step :=
  first
    [ apply requests_ret
    | apply requests_console_write
    | apply requests_save
    | apply requests_lift_outcome
    | apply requests_findOne
    | apply requests_checkServices
    | apply requests_bind; [|intros ?]
    | apply requests_try_catch; [|intros ?]
    | match goal with
      | |- requests _ (if ?b then _ else _) => destruct b
      | |- requests _ (match ?x with _ => _ end) => destruct x
      end ].

Section CheckRoute.
Context {P : Type} (prov : Axios.Provider P).

Lemma checkCloudflareAPI_configured env (w : World P) :
  dns_configured env = true ->
  Clients.checkCloudflareAPI env w = (Return (inl (cloudflare_of env)), w).
Proof.
  unfold dns_configured. intros H. apply andb_true_iff in H as [H1 H2].
  unfold Clients.checkCloudflareAPI, Clients.getCloudflareAPI, Cloudflare.new,
    cloudflare_of.
  rewrite H1, H2. cbn [negb orb]. run_async. now rewrite !str_or_idem.
Qed.

Lemma checkCloudflareAPI_unconfigured env (w : World P) :
  dns_configured env = false ->
  Clients.checkCloudflareAPI env w
  = (Return (inr (Clients.mkRes 503
       [("message",
         JStr "Domain management service is currently unavailable. Please try again later.")])),
     logged w WARN
       "Warning: Cloudflare API credentials not found in environment variables").
Proof.
  unfold dns_configured. intros H.
  unfold Clients.checkCloudflareAPI, Clients.getCloudflareAPI.
  destruct (env_set (CLOUDFLARE_API_TOKEN env)),
    (env_set (CLOUDFLARE_ZONE_ID env)); try discriminate; reflexivity.
Qed.

Lemma subdomainRegex_test_nonempty (s : string) :
  CheckSubdomain.subdomainRegex_test s = true -> s <> "".
Proof.
  unfold CheckSubdomain.subdomainRegex_test. intros H.
  apply andb_true_iff in H as [H _]. apply negb_true_iff in H.
  now apply String.eqb_neq.
Qed.

Lemma check_subdomain_route_run env (s : string) (w : World P) :
  dns_configured env = true ->
  CheckSubdomain.subdomainRegex_test s = true ->
  find (fun c => (subdomain c =? s)%string) (store w) = None ->
  CheckSubdomain.check_subdomain_route prov env (JStr s) w
  = match Cloudflare.checkSubdomainAvailability prov (cloudflare_of env) s w
    with
    | (Return available, w1) =>
        (Return (Clients.mkRes 200 [("available", JBool available)]), w1)
    | (Throw (CloudflareAPIError message _ status _), w1) =>
        (Return (Clients.mkRes (status_or_500 status)
                   [("message", JStr message)]), w1)
    | (Throw _, w1) =>
        (Return (Clients.mkRes 500 [("message", JStr "Server error")]),
         logged w1 ERROR "Error checking subdomain:")
    end.
Proof.
  intros Hconf Hre Hfree.
  pose proof (subdomainRegex_test_nonempty s Hre) as Hne.
  apply truthy_JStr in Hne.
  unfold CheckSubdomain.check_subdomain_route. rewrite Hne, Hre.
  cbn [negb].
  cbv beta iota delta [try_catch bind ret CheckSubdomain.findOne_by_subdomain].
  rewrite (checkCloudflareAPI_configured env w Hconf). rewrite Hfree.
  destruct (Cloudflare.checkSubdomainAvailability prov (cloudflare_of env) s w)
    as [[available|[]] w1]; reflexivity.
Qed.

End CheckRoute.

Section Yields.
Context {P : Type}.

Lemma yields_ret {A} (S : A -> Prop) (a : A) : S a -> yields (P:=P) S (ret a).
Proof. intros Ha w a' w' H. now injection H as <- <-. Qed.

Lemma yields_throw {A} (S : A -> Prop) (e : JsError) :
  yields (P:=P) S (throw e).
Proof. intros w a w' H. discriminate. Qed.

Lemma yields_any {A} (m : M P A) : yields (fun _ => True) m.
Proof. now intros w a w' H. Qed.

Lemma yields_bind {A B} (T : A -> Prop) (S : B -> Prop) (m : M P A)
      (k : A -> M P B) :
  yields T m -> (forall a, T a -> yields S (k a)) -> yields S (bind m k).
Proof.
  intros Hm Hk w b w' H. unfold bind in H.
  destruct (m w) as [[a|e] w1] eqn:Hmw; [|discriminate].
  exact (Hk a (Hm _ _ _ Hmw) _ _ _ H).
Qed.

Lemma yields_try_catch {A} (S : A -> Prop) (m : M P A) (h : JsError -> M P A) :
  yields S m -> (forall e, yields S (h e)) -> yields S (try_catch m h).
Proof.
  intros Hm Hh w a w' H. unfold try_catch in H.
  destruct (m w) as [[a0|e] w1] eqn:Hmw.
  - injection H as <- <-. exact (Hm _ _ _ Hmw).
  - exact (Hh e _ _ _ H).
Qed.

Lemma answers_ret {A} (S : A -> Prop) (a : A) : S a -> answers (P:=P) S (ret a).
Proof. intros Ha w. now exists a, w. Qed.

Lemma answers_after_console {A} (S : A -> Prop) l msg (m : M P A) :
  answers S m -> answers S (bind (console_write l msg) (fun _ => m)).
Proof. intros Hm w. unfold bind, console_write. apply Hm. Qed.

Lemma answers_try_catch {A} (S : A -> Prop) (m : M P A) (h : JsError -> M P A) :
  yields S m -> (forall e, answers S (h e)) -> answers S (try_catch m h).
Proof.
  intros Hm Hh w. unfold try_catch.
  destruct (m w) as [[a|e] w1] eqn:Hmw.
  - exists a, w1. split; [reflexivity|exact (Hm _ _ _ Hmw)].
  - apply Hh.
Qed.

Lemma yields_checkServices env :
  yields (P:=P) unavailable (Clients.checkServices env).
Proof.
  intros w svc w'.
  unfold Clients.checkServices, Clients.checkCloudflareAPI,
    Clients.checkCoolifyAPI, Clients.getCloudflareAPI, Clients.getCoolifyAPI.
  destruct (negb (env_set (CLOUDFLARE_API_TOKEN env))
            || negb (env_set (CLOUDFLARE_ZONE_ID env)));
    [run_async; intros H; now injection H as <- <-|].
  destruct (Cloudflare.new _ _ _ _ _);
    [|run_async; intros H; now injection H as <- <-].
  destruct (negb (env_set (COOLIFY_API_KEY env))
            || negb (env_set (COOLIFY_API_URL env)));
    [run_async; intros H; now injection H as <- <-|].
  destruct (Coolify.new _ _); run_async; intros H; now injection H as <- <-.
Qed.

End Yields.

(* ================================================================= *)
(** ** What a run of an adapter has sent *)

Section Compensated.
Context {P : Type} (prov : Axios.Provider P).

(** [deleteSubdomainRecord], request by request *)
Lemma deleteSubdomainRecord_run api subdomain (w : World P) :
  subdomain <> "" ->
  Cloudflare.deleteSubdomainRecord prov api subdomain w
  = match prov (Axios.GetDnsRecords (Cloudflare.zoneId api)
                  (subdomain ++ "." ++ Cloudflare.domain api)) (providers w)
    with
    | (Axios.Resolved [], p1) =>
        (Return tt,
         mkWorld p1
           (trace w ++ [Axios.GetDnsRecords (Cloudflare.zoneId api)
                          (subdomain ++ "." ++ Cloudflare.domain api)])
           (console w) (store w))
    | (Axios.Resolved (record :: _), p1) =>
        match prov (Axios.DeleteDnsRecord (Cloudflare.zoneId api)
                      (Axios.id record)) p1
        with
        | (Axios.Resolved _, p2) =>
            (Return tt,
             mkWorld p2
               (trace w ++ [Axios.GetDnsRecords (Cloudflare.zoneId api)
                              (subdomain ++ "." ++ Cloudflare.domain api);
                            Axios.DeleteDnsRecord (Cloudflare.zoneId api)
                              (Axios.id record)])
               (console w) (store w))
        | (Axios.Rejected message response, p2) =>
            Cloudflare.handleError (AxiosError message response)
              (mkWorld p2
                 (trace w ++ [Axios.GetDnsRecords (Cloudflare.zoneId api)
                                (subdomain ++ "." ++ Cloudflare.domain api);
                              Axios.DeleteDnsRecord (Cloudflare.zoneId api)
                                (Axios.id record)])
                 (console w) (store w))
        end
    | (Axios.Rejected message response, p1) =>
        Cloudflare.handleError (AxiosError message response)
          (mkWorld p1
             (trace w ++ [Axios.GetDnsRecords (Cloudflare.zoneId api)
                            (subdomain ++ "." ++ Cloudflare.domain api)])
             (console w) (store w))
    end.
Proof.
  intros Hsub. unfold Cloudflare.deleteSubdomainRecord.
  apply truthy_JStr in Hsub. rewrite Hsub. cbn [negb].
  unfold try_catch, bind, request, ret.
  destruct (prov _ (providers w)) as [[[|record others]|message response] p1];
    [reflexivity| |reflexivity].
  cbn beta iota zeta delta [providers trace console store fst snd].
  destruct (prov _ p1) as [[[]|message response] p2];
    cbn [trace]; rewrite <- app_assoc; reflexivity.
Qed.

(** The DNS phase of the deploy route goes through only for a tenant that
    has a subdomain. *)
Lemma deploy_dns_phase_through cloudflare client (w w1 : World P) :
  Clients.deploy_dns_phase prov cloudflare client w = (Return None, w1) ->
  subdomain client <> "".
Proof.
  intros H Hempty. revert H.
  unfold Clients.deploy_dns_phase, Cloudflare.checkSubdomainAvailability,
    Cloudflare.subdomain_required.
  rewrite Hempty. run_async. discriminate.
Qed.

End Compensated.

Section Deployed.
Context {P : Type} (prov : Axios.Provider P).








End Deployed.

(* ================================================================= *)
(** ** The claims *)

(** C6.  For every tenant payload, the environment variables built by
    [createDeployment] and by [updateDeployment] hold the serialized payload
    under [CLIENT_DATA] and the same text under [NEXT_PUBLIC_CLIENT_DATA], and
    [NODE_ENV] is [production].  The object that is serialized has no
    [htmlCode] field, agrees with the tenant's data on every field other than
    [logo], and its text does not depend on the HTML at all.  When the HTML
    is there (a string that is not blank) the variables are exactly the three
    above and [NEXT_PUBLIC_CUSTOM_HTML_BASE64], whose value decodes from
    base64 back to the HTML. *)
Theorem environment_encoding
  (build : JsObject -> Outcome (list Axios.EnvVar)) (clientData : JsObject) :
  In build [Coolify.createDeployment_envVariables;
            Coolify.updateDeployment_envVariables] ->
  Coolify.htmlCode_typed clientData ->
  exists vars payload,
    build clientData = Return vars
    /\ payload = JSON_stringify (Coolify.clientDataForEnv clientData)
    /\ Coolify.env_value "CLIENT_DATA" vars = Some payload
    /\ Coolify.env_value "NEXT_PUBLIC_CLIENT_DATA" vars = Some payload
    /\ Coolify.env_value "NODE_ENV" vars = Some "production"
    /\ obj_has (Coolify.clientDataForEnv clientData) "htmlCode" = false
    /\ (forall k, k <> "htmlCode" -> k <> "logo" ->
        obj_get (Coolify.clientDataForEnv clientData) k = obj_get clientData k)
    /\ (forall html,
        JSON_stringify
          (Coolify.clientDataForEnv (obj_set clientData "htmlCode" html))
        = payload)
    /\ (forall s, obj_get clientData "htmlCode" = JStr s -> trim s <> "" ->
        exists v,
          Coolify.env_value Coolify.CUSTOM_HTML_KEY vars = Some v
          /\ base64_decode_utf8 v = Some s
          /\ map Axios.key vars
             = ["CLIENT_DATA"; "NODE_ENV"; "NEXT_PUBLIC_CLIENT_DATA";
                Coolify.CUSTOM_HTML_KEY]).
Proof.
  intros Hbuild Hty.
  assert (Hb : build = Coolify.createDeployment_envVariables).
  { destruct Hbuild as [<-|[<-|[]]]; reflexivity. }
  subst build.
  destruct (envVariables_typed clientData Hty) as [[Hret Hno] | (s & Hs & Hne & Hret)];
    rewrite Hret; eexists; eexists; (split; [reflexivity|]);
    (split; [reflexivity|]);
    repeat (split; [reflexivity|]);
    (split; [apply obj_has_remove|]);
    (split; [apply clientDataForEnv_other_fields|]);
    (split; [intros html; now rewrite clientDataForEnv_ignores_htmlCode|]).
  - intros s Hs Hne. exfalso. apply Hno. now exists s.
  - intros s' Hs' _. rewrite Hs in Hs'. injection Hs' as <-.
    eexists. split; [reflexivity|]. split; [|reflexivity].
    apply base64_utf8_round_trip.
Qed.

Lemma environment_encoding_witness :
  let clientData := Clients.clientData_of Sim.acme in
  In Coolify.createDeployment_envVariables
     [Coolify.createDeployment_envVariables;
      Coolify.updateDeployment_envVariables]
  /\ Coolify.htmlCode_typed clientData
  /\ exists vars payload,
       Coolify.createDeployment_envVariables clientData = Return vars
       /\ payload = JSON_stringify (Coolify.clientDataForEnv clientData)
       /\ Coolify.env_value "CLIENT_DATA" vars = Some payload
       /\ Coolify.env_value "NEXT_PUBLIC_CLIENT_DATA" vars = Some payload
       /\ Coolify.env_value "NODE_ENV" vars = Some "production"
       /\ obj_has (Coolify.clientDataForEnv clientData) "htmlCode" = false
       /\ (forall k, k <> "htmlCode" -> k <> "logo" ->
           obj_get (Coolify.clientDataForEnv clientData) k
           = obj_get clientData k)
       /\ (forall html,
           JSON_stringify
             (Coolify.clientDataForEnv (obj_set clientData "htmlCode" html))
           = payload)
       /\ (forall s, obj_get clientData "htmlCode" = JStr s -> trim s <> "" ->
           exists v,
             Coolify.env_value Coolify.CUSTOM_HTML_KEY vars = Some v
             /\ base64_decode_utf8 v = Some s
             /\ map Axios.key vars
                = ["CLIENT_DATA"; "NODE_ENV"; "NEXT_PUBLIC_CLIENT_DATA";
                   Coolify.CUSTOM_HTML_KEY]).
Proof.
  intros clientData.
  assert (H1 : In Coolify.createDeployment_envVariables
                  [Coolify.createDeployment_envVariables;
                   Coolify.updateDeployment_envVariables])
    by (left; reflexivity).
  assert (H2 : Coolify.htmlCode_typed clientData)
    by (right; right; exists "<b>hi</b>"; reflexivity).
  split; [exact H1|]. split; [exact H2|].
  exact (environment_encoding _ clientData H1 H2).
Defined.

(** C10.  For [createDeployment] and for [updateDeployment], the variables
    hold [NEXT_PUBLIC_CUSTOM_HTML_BASE64] if and only if [htmlCode] is a
    string that is not empty once trimmed; setting [deploymentType] to any
    value changes neither whether the variable is there nor its value. *)
Theorem custom_html_variable_iff
  (build : JsObject -> Outcome (list Axios.EnvVar)) (clientData : JsObject) :
  In build [Coolify.createDeployment_envVariables;
            Coolify.updateDeployment_envVariables] ->
  Coolify.htmlCode_typed clientData ->
  exists vars,
    build clientData = Return vars
    /\ (Coolify.env_value Coolify.CUSTOM_HTML_KEY vars <> None
        <-> exists s, obj_get clientData "htmlCode" = JStr s /\ trim s <> "")
    /\ (forall deploymentType, exists vars',
          build (obj_set clientData "deploymentType" deploymentType)
          = Return vars'
          /\ Coolify.env_value Coolify.CUSTOM_HTML_KEY vars'
             = Coolify.env_value Coolify.CUSTOM_HTML_KEY vars).
Proof.
  intros Hbuild Hty.
  assert (Hb : build = Coolify.createDeployment_envVariables).
  { destruct Hbuild as [<-|[<-|[]]]; reflexivity. }
  subst build.
  assert (Hget : forall d,
             obj_get (obj_set clientData "deploymentType" d) "htmlCode"
             = obj_get clientData "htmlCode")
    by (intros d; apply obj_get_set_other; discriminate).
  assert (Hty' : forall d,
             Coolify.htmlCode_typed (obj_set clientData "deploymentType" d))
    by (intros d; unfold Coolify.htmlCode_typed; now rewrite Hget).
  destruct (envVariables_typed clientData Hty)
    as [[Hret Hno] | (s & Hs & Hne & Hret)]; rewrite Hret; eexists;
    (split; [reflexivity|]); split.
  - split; [intros H; now elim H | intros H; now elim Hno].
  - intros d.
    destruct (envVariables_typed _ (Hty' d))
      as [[Hret' _] | (s' & Hs' & Hne' & _)].
    + rewrite Hret'. eexists. split; reflexivity.
    + exfalso. apply Hno. exists s'. now rewrite <- Hget with (d := d).
  - split; [intros _; now exists s | intros _; discriminate].
  - intros d.
    destruct (envVariables_typed _ (Hty' d))
      as [[_ Hno'] | (s' & Hs' & Hne' & Hret')].
    + exfalso. apply Hno'. exists s. now rewrite Hget.
    + rewrite Hret'. eexists. split; [reflexivity|].
      rewrite Hget, Hs in Hs'. now injection Hs' as <-.
Qed.

Lemma custom_html_variable_iff_witness :
  let clientData := Clients.clientData_of Sim.acme in
  In Coolify.updateDeployment_envVariables
     [Coolify.createDeployment_envVariables;
      Coolify.updateDeployment_envVariables]
  /\ Coolify.htmlCode_typed clientData
  /\ exists vars,
       Coolify.updateDeployment_envVariables clientData = Return vars
       /\ (Coolify.env_value Coolify.CUSTOM_HTML_KEY vars <> None
           <-> exists s, obj_get clientData "htmlCode" = JStr s /\ trim s <> "")
       /\ (forall deploymentType, exists vars',
             Coolify.updateDeployment_envVariables
               (obj_set clientData "deploymentType" deploymentType)
             = Return vars'
             /\ Coolify.env_value Coolify.CUSTOM_HTML_KEY vars'
                = Coolify.env_value Coolify.CUSTOM_HTML_KEY vars).
Proof.
  intros clientData.
  assert (H1 : In Coolify.updateDeployment_envVariables
                  [Coolify.createDeployment_envVariables;
                   Coolify.updateDeployment_envVariables])
    by (right; left; reflexivity).
  assert (H2 : Coolify.htmlCode_typed clientData)
    by (right; right; exists "<b>hi</b>"; reflexivity).
  split; [exact H1|]. split; [exact H2|].
  exact (custom_html_variable_iff _ clientData H1 H2).
Defined.

(** C8.  For a subdomain that is given, when the provider answers the
    filtered record query with a list, the availability check returns
    [true] exactly when the list is empty and [false] exactly when it has at
    least one record; with two records or more it returns [false]. *)
Theorem availability_is_emptiness {P : Type} (prov : Axios.Provider P)
  (api : Cloudflare.CloudflareAPI) (subdomain : string) (w : World P)
  (result : list Axios.DnsRecord) (p' : P) :
  subdomain <> "" ->
  prov (Axios.GetDnsRecords (Cloudflare.zoneId api)
          (subdomain ++ "." ++ Cloudflare.domain api)) (providers w)
  = (Axios.Resolved result, p') ->
  exists available w',
    Cloudflare.checkSubdomainAvailability prov api subdomain w
    = (Return available, w')
    /\ (available = true <-> result = [])
    /\ (available = false <-> exists record others, result = record :: others)
    /\ ((2 <= length result)%nat -> available = false).
Proof.
  intros Hsub Hlist.
  unfold Cloudflare.checkSubdomainAvailability.
  apply truthy_JStr in Hsub. rewrite Hsub. cbn [negb].
  run_async. rewrite Hlist.
  cbn beta iota zeta delta [providers trace console store fst snd].
  eexists. eexists. split; [reflexivity|].
  destruct result as [|record others]; simpl.
  - repeat split; try congruence; try lia.
    intros (r & o & H). discriminate.
  - repeat split; try congruence; try lia.
    intros _. now exists record, others.
Qed.

Lemma availability_is_emptiness_witness :
  let w := Sim.world Sim.empty_zone [] in
  let api := Cloudflare.mkCloudflareAPI "zone-1" "example.com" "203.0.113.7" in
  "acme" <> ""
  /\ Sim.provider (Axios.GetDnsRecords "zone-1" "acme.example.com") (providers w)
     = (Axios.Resolved [], Sim.empty_zone)
  /\ exists available w',
       Cloudflare.checkSubdomainAvailability Sim.provider api "acme" w
       = (Return available, w')
       /\ (available = true <-> [] = @nil Axios.DnsRecord)
       /\ (available = false
           <-> exists record others, @nil Axios.DnsRecord = record :: others)
       /\ ((2 <= length (@nil Axios.DnsRecord))%nat -> available = false).
Proof.
  intros w api.
  assert (H1 : "acme" <> "") by discriminate.
  assert (H2 : Sim.provider (Axios.GetDnsRecords "zone-1" "acme.example.com")
                 (providers w)
               = (Axios.Resolved [], Sim.empty_zone)) by reflexivity.
  split; [exact H1|]. split; [exact H2|].
  exact (availability_is_emptiness Sim.provider api "acme" w [] Sim.empty_zone
           H1 H2).
Defined.

(** C9.  A deploy request for a tenant whose flag already reads deployed is
    answered 400 "Client is already deployed", and the world is left exactly
    as it was: no request has been sent to either provider (the trace is
    unchanged), the providers are in the same state, and the store, with the
    flag, is untouched. *)
Theorem deploy_rejects_deployed {P : Type} (prov : Axios.Provider P)
  (env : ProcessEnv) (id userId : string) (client : Client) (w : World P) :
  lookup_client id userId (store w) = Some client ->
  isDeployed client = true ->
  Clients.deploy_route prov env id userId w
  = (Return (Clients.mkRes 400 [("error", JStr "Client is already deployed")]),
     w).
Proof.
  intros Hfind Hflag.
  cbv [Clients.deploy_route bind try_catch findOne].
  rewrite Hfind, Hflag. reflexivity.
Qed.

Lemma deploy_rejects_deployed_witness :
  let client := set_isDeployed Sim.acme true in
  let w := Sim.world Sim.empty_zone [client] in
  lookup_client "c1" "u1" (store w) = Some client
  /\ isDeployed client = true
  /\ Clients.deploy_route Sim.provider Sim.env "c1" "u1" w
     = (Return (Clients.mkRes 400
                  [("error", JStr "Client is already deployed")]), w).
Proof.
  intros client w.
  assert (H1 : lookup_client "c1" "u1" (store w) = Some client) by reflexivity.
  assert (H2 : isDeployed client = true) by reflexivity.
  split; [exact H1|]. split; [exact H2|].
  exact (deploy_rejects_deployed Sim.provider Sim.env "c1" "u1" client w H1 H2).
Defined.



(** C4.  A deploy request whose DNS phase went through and whose
    [createDeployment] then throws [error], [w0] being the world the
    service check leaves.  The route logs the failure and runs
    [deleteSubdomainRecord] for the tenant's subdomain: it asks the DNS
    provider for the records of the name and, when the answer shows one,
    sends the deletion of the first record by its identifier; the
    compensation returns exactly when nothing was found or that deletion
    was accepted, and throws otherwise.  Whether it returns or throws, the
    only trace of that in the route is one line on the console, and the
    answer is the one built from [error]: "Deployment failed" with the
    message of [error] as details.  The store is unchanged and the tenant's
    flag still reads not deployed. *)
Theorem deploy_compensates_on_failure {P : Type} (prov : Axios.Provider P)
  (env : ProcessEnv) (id userId : string) (client : Client)
  (cloudflare : Cloudflare.CloudflareAPI) (coolify : Coolify.CoolifyAPI)
  (w w0 w1 w2 : World P) (error : JsError) :
  lookup_client id userId (store w) = Some client ->
  isDeployed client = false ->
  Clients.checkServices env w = (Return (inl (cloudflare, coolify)), w0) ->
  Clients.deploy_dns_phase prov cloudflare client
    (logged w0 LOG "Starting deployment process for client:")
  = (Return None, w1) ->
  Coolify.createDeployment prov env (subdomain client)
    (Clients.clientData_of client)
    (logged w1 LOG "Creating Coolify deployment for:")
  = (Throw error, w2) ->
  let query :=
    Axios.GetDnsRecords (Cloudflare.zoneId cloudflare)
      (subdomain client ++ "." ++ Cloudflare.domain cloudflare) in
  exists cleanup wc w3,
    Cloudflare.deleteSubdomainRecord prov cloudflare (subdomain client)
      (logged w2 ERROR "Deployment failed for client:")
    = (cleanup, wc)
    /\ match prov query (providers w2) with
       | (Axios.Resolved (record :: _), p3) =>
           let deletion :=
             Axios.DeleteDnsRecord (Cloudflare.zoneId cloudflare)
               (Axios.id record) in
           trace wc = (trace w2 ++ [query; deletion])%list
           /\ (cleanup = Return tt
               <-> exists p4, prov deletion p3 = (Axios.Resolved tt, p4))
       | (Axios.Resolved [], _) =>
           trace wc = (trace w2 ++ [query])%list /\ cleanup = Return tt
       | (Axios.Rejected _ _, _) =>
           trace wc = (trace w2 ++ [query])%list
           /\ exists e, cleanup = Throw e
       end
    /\ w3 = match cleanup with
            | Return _ =>
                logged wc LOG "Cleaned up DNS record after failed deployment"
            | Throw _ => logged wc ERROR "Failed to clean up DNS record:"
            end
    /\ Clients.deploy_route prov env id userId w
       = (Return (Clients.deployment_failed error), w3)
    /\ obj_get (Clients.json (Clients.deployment_failed error)) "error"
       = JStr "Deployment failed"
    /\ obj_get (Clients.json (Clients.deployment_failed error)) "details"
       = JStr (error_message error)
    /\ store w3 = store w
    /\ deployed_flag id userId (store w3) = Some false.
Proof.
  intros Hfind Hflag Hsvc Hdns Hdep query.
  pose proof (checkServices_inl env w w0 cloudflare coolify Hsvc) as Hw0.
  subst w0.
  pose proof (deploy_dns_phase_through prov _ _ _ _ Hdns) as Hsub.
  destruct (Cloudflare.deleteSubdomainRecord prov cloudflare (subdomain client)
              (logged w2 ERROR "Deployment failed for client:"))
    as [cleanup wc] eqn:Hdel.
  exists cleanup, wc. eexists.
  split; [reflexivity|].
  split.
  { pose proof Hdel as Hrun.
    rewrite (deleteSubdomainRecord_run prov cloudflare (subdomain client)
               (logged w2 ERROR "Deployment failed for client:") Hsub)
      in Hrun.
    cbn [providers trace console store logged] in Hrun. fold query in Hrun.
    destruct (prov query (providers w2))
      as [[[|record others]|message response] p3].
    - injection Hrun as <- <-. now split.
    - cbn zeta.
      destruct (prov (Axios.DeleteDnsRecord (Cloudflare.zoneId cloudflare)
                        (Axios.id record)) p3)
        as [[[]|message response] p4].
      + injection Hrun as <- <-. split; [reflexivity|].
        split; [intros _; now exists p4|reflexivity].
      + destruct (cloudflare_handleError_axios (A:=unit) message response
                    (mkWorld p4
                       (trace w2
                        ++ [query;
                            Axios.DeleteDnsRecord
                              (Cloudflare.zoneId cloudflare)
                              (Axios.id record)])
                       (console w2
                        ++ [(ERROR, "Deployment failed for client:")])
                       (store w2)))
          as (msg & code & details & He).
        rewrite He in Hrun. injection Hrun as <- <-.
        split; [reflexivity|].
        split; [discriminate|intros (p' & Hp'); discriminate].
    - destruct (cloudflare_handleError_axios (A:=unit) message response
                  (mkWorld p3 (trace w2 ++ [query])
                     (console w2
                      ++ [(ERROR, "Deployment failed for client:")])
                     (store w2)))
        as (msg & code & details & He).
      rewrite He in Hrun. injection Hrun as <- <-.
      split; [reflexivity|]. eexists. reflexivity. }
  split; [reflexivity|].
  assert (Hstore : store wc = store w).
  { destruct (sends_deleteSubdomainRecord prov _ _ _ _ _ Hdel) as (-> & _).
    destruct (sends_createDeployment prov _ _ _ _ _ _ Hdep) as (Hs2 & _).
    destruct (sends_deploy_dns_phase prov _ _ _ _ _ Hdns) as (Hs1 & _).
    cbn [store logged] in *. congruence. }
  split.
  { rewrite (deploy_route_run prov env id userId client cloudflare coolify w
               Hfind Hflag Hsvc), Hdns, deploy_app_phase_run, Hdep,
      deploy_cleanup_run, Hdel.
    now destruct cleanup as [[]|e]. }
  split; [now destruct error|].
  split; [now destruct error|].
  assert (Hs3 : store (match cleanup with
                       | Return _ =>
                           logged wc LOG
                             "Cleaned up DNS record after failed deployment"
                       | Throw _ =>
                           logged wc ERROR "Failed to clean up DNS record:"
                       end) = store w)
    by (destruct cleanup; exact Hstore).
  split; [exact Hs3|].
  unfold deployed_flag. rewrite Hs3, Hfind. simpl. now rewrite Hflag.
Qed.

Lemma deploy_compensates_on_failure_witness :
  let st :=
    Sim.with_faults Sim.empty_zone
      [None; None; None; None; Sim.http_error 500 (JObj [])] in
  let w := Sim.world st [Sim.acme] in
  let cloudflare :=
    Cloudflare.mkCloudflareAPI "zone-1" "example.com" "203.0.113.7" in
  let coolify := Coolify.mkCoolifyAPI "https://coolify.example.com" in
  let dns := Clients.deploy_dns_phase Sim.provider cloudflare Sim.acme
               (logged w LOG "Starting deployment process for client:") in
  let dep := Coolify.createDeployment Sim.provider Sim.env "acme"
               (Clients.clientData_of Sim.acme)
               (logged (snd dns) LOG "Creating Coolify deployment for:") in
  let error :=
    CoolifyAPIError
      "Failed to create deployment: Request failed with status code 500"
      "API_ERROR" (Some 500) (JObj []) in
  lookup_client "c1" "u1" (store w) = Some Sim.acme
  /\ isDeployed Sim.acme = false
  /\ Clients.checkServices Sim.env w = (Return (inl (cloudflare, coolify)), w)
  /\ dns = (Return None, snd dns)
  /\ dep = (Throw error, snd dep)
  /\ Sim.records (providers (snd dep))
     = [Axios.mkDnsRecord "rec-acme" "acme.example.com" "203.0.113.7"]
  /\ exists w3,
       Clients.deploy_route Sim.provider Sim.env "c1" "u1" w
       = (Return (Clients.deployment_failed error), w3)
       /\ deployed_flag "c1" "u1" (store w3) = Some false
       /\ trace w3
          = (trace (snd dep)
             ++ [Axios.GetDnsRecords "zone-1" "acme.example.com";
                 Axios.DeleteDnsRecord "zone-1" "rec-acme"])%list.
Proof.
  intros st w cloudflare coolify dns dep error.
  assert (H1 : lookup_client "c1" "u1" (store w) = Some Sim.acme)
    by reflexivity.
  assert (H2 : isDeployed Sim.acme = false) by reflexivity.
  assert (H3 : Clients.checkServices Sim.env w
               = (Return (inl (cloudflare, coolify)), w))
    by (vm_compute; reflexivity).
  assert (H4 : dns = (Return None, snd dns)) by (vm_compute; reflexivity).
  assert (H5 : dep = (Throw error, snd dep)) by (vm_compute; reflexivity).
  assert (H6 : Sim.records (providers (snd dep))
               = [Axios.mkDnsRecord "rec-acme" "acme.example.com"
                    "203.0.113.7"]) by (vm_compute; reflexivity).
  repeat (split; [assumption|]).
  destruct (deploy_compensates_on_failure Sim.provider Sim.env "c1" "u1"
              Sim.acme cloudflare coolify w w (snd dns) (snd dep) error
              H1 H2 H3 H4 H5)
    as (cleanup & wc & w3 & _ & Hcomp & Hw3 & Hroute & _ & _ & _ & Hflag).
  exists w3. split; [exact Hroute|]. split; [exact Hflag|].
  assert (Hq : Sim.provider
                 (Axios.GetDnsRecords (Cloudflare.zoneId cloudflare)
                    (subdomain Sim.acme ++ "."
                     ++ Cloudflare.domain cloudflare))
                 (providers (snd dep))
               = (Axios.Resolved
                    [Axios.mkDnsRecord "rec-acme" "acme.example.com"
                       "203.0.113.7"],
                  Sim.with_faults (providers (snd dep)) []))
    by (vm_compute; reflexivity).
  rewrite Hq in Hcomp. destruct Hcomp as [Htrace _].
  rewrite Hw3. destruct cleanup; exact Htrace.
Defined.



(** C2, as the code has it.  An undeploy request for a tenant with no DNS
    record (the query answers with no record) and no application (the
    listing has none of that name): the DNS phase sends no deletion and
    gives no error, the application phase gives the error "Failed to delete
    Coolify deployment", and the answer is 207 "Client partially undeployed"
    with that one error.  Only the query and the listing were sent, and the
    flag in the store reads not deployed. *)
Theorem undeploy_of_absent_resources {P : Type} (prov : Axios.Provider P)
  (env : ProcessEnv) (id userId : string) (client : Client)
  (cloudflare : Cloudflare.CloudflareAPI) (coolify : Coolify.CoolifyAPI)
  (w : World P) (p1 p2 : P) (data : option (list Axios.Application)) :
  Clients.checkServices env w = (Return (inl (cloudflare, coolify)), w) ->
  lookup_client id userId (store w) = Some client ->
  subdomain client <> "" ->
  let query :=
    Axios.GetDnsRecords (Cloudflare.zoneId cloudflare)
      (subdomain client ++ "." ++ Cloudflare.domain cloudflare) in
  prov query (providers w) = (Axios.Resolved [], p1) ->
  prov Axios.GetApplications p1 = (Axios.Resolved data, p2) ->
  find (fun app => (Axios.app_name app =? subdomain client)%string)
       (match data with Some applications => applications | None => [] end)
  = None ->
  exists w1 w2 w3,
    Clients.undeploy_dns_phase prov cloudflare client
      (logged w LOG "Starting undeployment for client:")
    = (Return [], w1)
    /\ Clients.undeploy_app_phase prov client w1
       = (Return ["Failed to delete Coolify deployment"], w2)
    /\ Clients.undeploy_route prov env id userId w
       = (Return (Clients.mkRes 207
                    [("message", JStr "Client partially undeployed");
                     ("errors",
                      JArr [JStr "Failed to delete Coolify deployment"])]),
          w3)
    /\ trace w3 = (trace w ++ [query; Axios.GetApplications])%list
    /\ providers w3 = p2
    /\ deployed_flag id userId (store w3) = Some false.
Proof.
  intros Hsvc Hfind Hsub query Hlist Happs Hnone.
  destruct (lookup_client_some _ _ _ _ Hfind) as [Hid Hown].
  pose proof (undeploy_dns_phase_run prov cloudflare client
                (logged w LOG "Starting undeployment for client:")) as Hp1.
  rewrite (deleteSubdomainRecord_absent prov cloudflare (subdomain client)
             (logged (logged w LOG "Starting undeployment for client:")
                     LOG "Deleting Cloudflare DNS record for:")
             p1 Hsub Hlist) in Hp1.
  match type of Hp1 with _ = (_, ?x) => set (w1 := x) in * end.
  pose proof (undeploy_app_phase_run prov client w1) as Hp2.
  rewrite (deleteDeployment_absent prov (subdomain client)
             (logged w1 LOG "Deleting Coolify deployment for:") data p2
             Happs Hnone) in Hp2.
  match type of Hp2 with _ = (_, ?x) => set (w2 := x) in * end.
  pose proof (undeploy_route_run prov env id userId client cloudflare coolify
                w w1 w2 [] ["Failed to delete Coolify deployment"]
                Hsvc Hfind Hp1 Hp2) as Hroute.
  exists w1, w2. eexists.
  split; [exact Hp1|]. split; [exact Hp2|]. split; [exact Hroute|].
  subst w1 w2 query. cbn [app length Nat.ltb Nat.leb logged trace providers store].
  split; [now rewrite <- app_assoc|]. split; [reflexivity|].
  unfold deployed_flag.
  now rewrite (lookup_store_put id userId (store w) client
                 (set_isDeployed client false) Hfind Hid Hown).
Qed.

Lemma undeploy_of_absent_resources_witness :
  let client := set_isDeployed Sim.acme true in
  let w := Sim.world Sim.empty_zone [client] in
  let cloudflare :=
    Cloudflare.mkCloudflareAPI "zone-1" "example.com" "203.0.113.7" in
  let coolify := Coolify.mkCoolifyAPI "https://coolify.example.com" in
  Clients.checkServices Sim.env w = (Return (inl (cloudflare, coolify)), w)
  /\ lookup_client "c1" "u1" (store w) = Some client
  /\ subdomain client <> ""
  /\ Sim.provider (Axios.GetDnsRecords "zone-1" "acme.example.com")
       (providers w)
     = (Axios.Resolved [], Sim.empty_zone)
  /\ Sim.provider Axios.GetApplications Sim.empty_zone
     = (Axios.Resolved (Some []), Sim.empty_zone)
  /\ find (fun app => (Axios.app_name app =? subdomain client)%string) []
     = None
  /\ exists w3,
       Clients.undeploy_route Sim.provider Sim.env "c1" "u1" w
       = (Return (Clients.mkRes 207
                    [("message", JStr "Client partially undeployed");
                     ("errors",
                      JArr [JStr "Failed to delete Coolify deployment"])]),
          w3)
       /\ deployed_flag "c1" "u1" (store w3) = Some false.
Proof.
  intros client w cloudflare coolify.
  assert (H1 : Clients.checkServices Sim.env w
               = (Return (inl (cloudflare, coolify)), w))
    by (vm_compute; reflexivity).
  assert (H2 : lookup_client "c1" "u1" (store w) = Some client)
    by reflexivity.
  assert (H3 : subdomain client <> "") by discriminate.
  assert (H4 : Sim.provider (Axios.GetDnsRecords "zone-1" "acme.example.com")
                 (providers w)
               = (Axios.Resolved [], Sim.empty_zone)) by reflexivity.
  assert (H5 : Sim.provider Axios.GetApplications Sim.empty_zone
               = (Axios.Resolved (Some []), Sim.empty_zone)) by reflexivity.
  assert (H6 : find (fun app => (Axios.app_name app =? subdomain client)%string)
                    [] = None) by reflexivity.
  repeat (split; [assumption|]).
  destruct (undeploy_of_absent_resources Sim.provider Sim.env "c1" "u1" client
              cloudflare coolify w Sim.empty_zone Sim.empty_zone (Some [])
              H1 H2 H3 H4 H5 H6)
    as (w1 & w2 & w3 & _ & _ & Hroute & _ & _ & Hflag).
  exists w3. split; assumption.
Defined.

(** C2, as stated, fails: with an empty zone and no application the answer
    to an undeploy request is not the full success. *)
Lemma undeploy_of_nothing_is_not_full_success :
  let client := set_isDeployed Sim.acme true in
  let w := Sim.world Sim.empty_zone [client] in
  Sim.records (providers w) = []
  /\ Sim.applications (providers w) = []
  /\ fst (Clients.undeploy_route Sim.provider Sim.env "c1" "u1" w)
     = Return (Clients.mkRes 207
                 [("message", JStr "Client partially undeployed");
                  ("errors",
                   JArr [JStr "Failed to delete Coolify deployment"])])
  /\ fst (Clients.undeploy_route Sim.provider Sim.env "c1" "u1" w)
     <> Return (Clients.mkRes 200
                  [("message", JStr "Client undeployed successfully")]).
Proof.
  intros client w.
  assert (H : fst (Clients.undeploy_route Sim.provider Sim.env "c1" "u1" w)
              = Return (Clients.mkRes 207
                          [("message", JStr "Client partially undeployed");
                           ("errors",
                            JArr [JStr "Failed to delete Coolify deployment"])]))
    by (vm_compute; reflexivity).
  repeat split; try reflexivity; try exact H.
  rewrite H. discriminate.
Qed.

(** C3, as the code has it.  For an error response with an HTTP status, the
    DNS adapter throws an error that keeps the status and whose kind is
    [UNAUTHORIZED] for 401, [FORBIDDEN] for 403, [NOT_FOUND] for 404,
    [RATE_LIMIT] for 429 and [API_ERROR] for any other status, the last with
    the first error message of the provider and the body.  The deployment
    adapter, for a response that has a body, throws [API_ERROR] whatever the
    status is; the error keeps the status and the body, and its message is
    the provider's (or that of axios) after the context. *)
Theorem status_mapping {P : Type} (message context : string) (status : Z)
  (data : JsValue) (w : World P) :
  nullish data = false ->
  let error := AxiosError message (Some (Axios.mkResponse status data)) in
  (exists m code details,
     Cloudflare.handleError (A:=unit) error w
     = (Throw (CloudflareAPIError m code (Some status) details),
        logged w ERROR "Cloudflare API Error:")
     /\ (status = 401 -> code = "UNAUTHORIZED")
     /\ (status = 403 -> code = "FORBIDDEN")
     /\ (status = 404 -> code = "NOT_FOUND" /\ details = data)
     /\ (status = 429 -> code = "RATE_LIMIT")
     /\ (status <> 401 -> status <> 403 -> status <> 404 -> status <> 429 ->
         code = "API_ERROR" /\ details = data
         /\ m = js_toString
                  (js_or (Cloudflare.first_error_message data)
                     (JStr "An error occurred with the Cloudflare API"))))
  /\ exists w',
       Coolify.handleError (A:=unit) error context w
       = (Throw (CoolifyAPIError
                   (context ++ ": "
                    ++ js_toString
                         (js_or (js_opt_prop data "message")
                            (js_or (JStr message)
                               (JStr "An error occurred with the Coolify API"))))
                   "API_ERROR" (Some status) data),
          w').
Proof.
  intros Hdata error. split.
  - unfold Cloudflare.handleError, error. run_async. unfold status_is.
    cbn [option_map Axios.status Axios.data].
    destruct (Z.eqb_spec status 401) as [->|H401].
    { do 3 eexists. split; [reflexivity|].
      repeat split; intros; try reflexivity; try discriminate; congruence. }
    destruct (Z.eqb_spec status 403) as [->|H403].
    { do 3 eexists. split; [reflexivity|].
      repeat split; intros; try reflexivity; try discriminate; congruence. }
    destruct (Z.eqb_spec status 404) as [->|H404].
    { do 3 eexists. split; [reflexivity|].
      repeat split; intros; try reflexivity; try discriminate; congruence. }
    destruct (Z.eqb_spec status 429) as [->|H429].
    { do 3 eexists. split; [reflexivity|].
      repeat split; intros; try reflexivity; try discriminate; congruence. }
    do 3 eexists. split; [reflexivity|].
    repeat split; intros; congruence.
  - unfold Coolify.handleError, error. run_async.
    destruct data; try discriminate; eexists; reflexivity.
Qed.

Lemma status_mapping_witness :
  let data := JObj [("message", JStr "Unauthenticated.")] in
  let error :=
    AxiosError "Request failed with status code 401"
      (Some (Axios.mkResponse 401 data)) in
  let w := Sim.world Sim.empty_zone [] in
  nullish data = false
  /\ (exists m details,
        Cloudflare.handleError (A:=unit) error w
        = (Throw (CloudflareAPIError m "UNAUTHORIZED" (Some 401) details),
           logged w ERROR "Cloudflare API Error:"))
  /\ exists w',
       Coolify.handleError (A:=unit) error "Failed to get applications" w
       = (Throw (CoolifyAPIError "Failed to get applications: Unauthenticated."
                   "API_ERROR" (Some 401) data), w').
Proof.
  intros data error w.
  assert (H1 : nullish data = false) by reflexivity.
  split; [exact H1|].
  destruct (status_mapping "Request failed with status code 401"
              "Failed to get applications" 401 data w H1)
    as [(m & code & details & Hcf & H401 & _) Hco].
  split.
  - exists m, details. now rewrite <- (H401 eq_refl).
  - exact Hco.
Defined.

(** C3, as stated, fails: on a 401 the DNS adapter gives the kind
    [UNAUTHORIZED] and the deployment adapter gives [API_ERROR]. *)
Lemma status_mapping_is_not_shared :
  let error :=
    AxiosError "Request failed with status code 401"
      (Some (Axios.mkResponse 401
               (JObj [("message", JStr "Unauthenticated.")]))) in
  let w := Sim.world Sim.empty_zone [] in
  exists e1 e2,
    fst (Cloudflare.handleError (A:=unit) error w) = Throw e1
    /\ fst (Coolify.handleError (A:=unit) error "Failed to get applications" w)
       = Throw e2
    /\ error_code e1 = Some "UNAUTHORIZED"
    /\ error_code e2 = Some "API_ERROR"
    /\ error_code e1 <> error_code e2.
Proof.
  intros error w. do 2 eexists.
  split; [vm_compute; reflexivity|]. split; [vm_compute; reflexivity|].
  repeat split. discriminate.
Qed.

(** C1, on the create route.  The tenant "beta" is created while the DNS
    provider accepts the availability query and rejects the creation of the
    record with a 500, and the deployment provider accepts everything.  The
    failure of the DNS phase is logged and no record exists, the deployment
    went through, and the tenant is saved with the flag at deployed; a
    deploy request for it is then refused as already deployed, so the
    record is not created by the deploy endpoint either. *)
Theorem create_route_flag_after_dns_failure
  (JSON_parse : string -> Outcome JsValue) :
  let st :=
    Sim.with_faults Sim.empty_zone [None; Sim.http_error 500 (JObj [])] in
  let req :=
    Clients.mkCreateRequest "c2" "u1" "Beta" "beta" None
      (JArr [JObj [("title", JStr "Home"); ("url", JStr "https://beta.test")]])
      (JObj []) None None None in
  let run :=
    Clients.create_route Sim.provider JSON_parse Sim.env req
      (Sim.world st []) in
  let w' := snd run in
  (exists body, fst run = Return (Clients.mkRes 201 body))
  /\ filter (fun l => match fst l with ERROR => true | _ => false end)
            (console w')
     = [(ERROR, "Cloudflare API Error:"); (ERROR, "Error creating DNS record:")]
  /\ filter Axios.is_dns_request (trace w')
     = [Axios.GetDnsRecords "zone-1" "beta.example.com";
        Axios.PostDnsRecord "zone-1" "beta" "203.0.113.7"]
  /\ Sim.records (providers w') = []
  /\ Sim.applications (providers w') = [Axios.mkApplication "app-beta" "beta"]
  /\ last (trace w') Axios.GetApplications = Axios.GetDeploy "app-beta"
  /\ deployed_flag "c2" "u1" (store w') = Some true
  /\ fst (Clients.deploy_route Sim.provider Sim.env "c2" "u1" w')
     = Return (Clients.mkRes 400 [("error", JStr "Client is already deployed")]).
Proof.
  intros st req run w'.
  split; [eexists; vm_compute; reflexivity|].
  repeat split; vm_compute; reflexivity.
Qed.

(* ================================================================= *)
(** ** Further properties of the adapters and the routes *)

(** X1.  Whatever the provider does, an error that escapes
    [checkSubdomainAvailability], [createSubdomainRecord] or
    [deleteSubdomainRecord] is a [CloudflareAPIError]: the axios error is
    never handed to the caller. *)
Theorem cloudflare_throws_its_own_errors {P : Type} (prov : Axios.Provider P)
  (api : Cloudflare.CloudflareAPI) (subdomain : string) :
  throws is_CloudflareAPIError
         (Cloudflare.checkSubdomainAvailability prov api subdomain)
  /\ throws is_CloudflareAPIError
            (Cloudflare.createSubdomainRecord prov api subdomain)
  /\ throws is_CloudflareAPIError
            (Cloudflare.deleteSubdomainRecord prov api subdomain).
Proof.
  assert (Hh : forall A e, throws (P:=P) (A:=A) is_CloudflareAPIError
                                  (Cloudflare.handleError e)).
  { intros A e. unfold Cloudflare.handleError, console_error. throws_auto. }
  unfold Cloudflare.checkSubdomainAvailability, Cloudflare.createSubdomainRecord,
    Cloudflare.deleteSubdomainRecord, Cloudflare.subdomain_required.
  split; [|split]; destruct (negb (truthy (JStr subdomain)));
    first [apply throws_throw; exact I
          | apply throws_try_catch; intros e; apply Hh].
Qed.

(** X2.  The three operations of the DNS adapter leave the tenant store
    alone and send nothing but requests in the adapter's own zone for the
    name they were given: the query for [subdomain.domain], the creation of
    the label [subdomain] pointing at the server's address, and deletions.
    With an empty subdomain they send nothing at all and change nothing. *)
Theorem cloudflare_requests_stay_on_the_name {P : Type}
  (prov : Axios.Provider P) (api : Cloudflare.CloudflareAPI)
  (subdomain : string) :
  (sends (dns_request_for api subdomain)
         (Cloudflare.checkSubdomainAvailability prov api subdomain)
   /\ sends (dns_request_for api subdomain)
            (Cloudflare.createSubdomainRecord prov api subdomain)
   /\ sends (dns_request_for api subdomain)
            (Cloudflare.deleteSubdomainRecord prov api subdomain))
  /\ forall w : World P,
       snd (Cloudflare.checkSubdomainAvailability prov api "" w) = w
       /\ snd (Cloudflare.createSubdomainRecord prov api "" w) = w
       /\ snd (Cloudflare.deleteSubdomainRecord prov api "" w) = w.
Proof.
  split; [|intros w; repeat split].
  unfold Cloudflare.checkSubdomainAvailability, Cloudflare.createSubdomainRecord,
    Cloudflare.deleteSubdomainRecord, Cloudflare.subdomain_required,
    console_log.
  split; [|split]; (destruct (negb (truthy (JStr subdomain)));
    [apply sends_throw|]);
    (apply sends_try_catch; [|intros e; apply sends_cloudflare_handleError]).
  - apply sends_bind;
      [exact (sends_request _ prov (Axios.GetDnsRecords _ _)
                (conj eq_refl eq_refl))|intros result].
    sends_auto.
  - exact (sends_request _ prov (Axios.PostDnsRecord _ _ _)
             (conj eq_refl (conj eq_refl eq_refl))).
  - apply sends_bind;
      [exact (sends_request _ prov (Axios.GetDnsRecords _ _)
                (conj eq_refl eq_refl))|intros [|record others]].
    + apply sends_ret.
    + exact (sends_request _ prov (Axios.DeleteDnsRecord _ _) eq_refl).
Qed.

(** X3.  When several records match the name, [deleteSubdomainRecord]
    deletes the first one of the answer and no other: after the query it
    sends one deletion, for the identifier of that record, and returns. *)
Theorem delete_removes_the_first_record_only {P : Type}
  (prov : Axios.Provider P) (api : Cloudflare.CloudflareAPI)
  (subdomain : string) (w : World P) (record : Axios.DnsRecord)
  (others : list Axios.DnsRecord) (p1 p2 : P) :
  subdomain <> "" ->
  let query :=
    Axios.GetDnsRecords (Cloudflare.zoneId api)
      (subdomain ++ "." ++ Cloudflare.domain api) in
  let deletion :=
    Axios.DeleteDnsRecord (Cloudflare.zoneId api) (Axios.id record) in
  prov query (providers w) = (Axios.Resolved (record :: others), p1) ->
  prov deletion p1 = (Axios.Resolved tt, p2) ->
  Cloudflare.deleteSubdomainRecord prov api subdomain w
  = (Return tt,
     mkWorld p2 (trace w ++ [query; deletion]) (console w) (store w)).
Proof.
  intros Hsub query deletion Hlist Hdel.
  unfold Cloudflare.deleteSubdomainRecord.
  apply truthy_JStr in Hsub. rewrite Hsub. cbn [negb].
  subst query deletion. run_async. rewrite Hlist.
  cbn beta iota zeta delta [providers trace console store fst snd].
  rewrite Hdel. cbn [trace]. now rewrite <- app_assoc.
Qed.

Lemma delete_removes_the_first_record_only_witness :
  let first := Axios.mkDnsRecord "rec-1" "acme.example.com" "203.0.113.7" in
  let second := Axios.mkDnsRecord "rec-2" "acme.example.com" "198.51.100.9" in
  let st := Sim.mkState "example.com" [first; second] [] [] in
  let api := Cloudflare.mkCloudflareAPI "zone-1" "example.com" "203.0.113.7" in
  let w := Sim.world st [] in
  let left := Sim.mkState "example.com" [second] [] [] in
  "acme" <> ""
  /\ Sim.provider (Axios.GetDnsRecords "zone-1" "acme.example.com") (providers w)
     = (Axios.Resolved [first; second], st)
  /\ Sim.provider (Axios.DeleteDnsRecord "zone-1" "rec-1") st
     = (Axios.Resolved tt, left)
  /\ Cloudflare.deleteSubdomainRecord Sim.provider api "acme" w
     = (Return tt,
        mkWorld left
          [Axios.GetDnsRecords "zone-1" "acme.example.com";
           Axios.DeleteDnsRecord "zone-1" "rec-1"] [] []).
Proof.
  intros first second st api w left.
  assert (H1 : "acme" <> "") by discriminate.
  assert (H2 : Sim.provider (Axios.GetDnsRecords "zone-1" "acme.example.com")
                 (providers w)
               = (Axios.Resolved [first; second], st))
    by (vm_compute; reflexivity).
  assert (H3 : Sim.provider (Axios.DeleteDnsRecord "zone-1" "rec-1") st
               = (Axios.Resolved tt, left)) by (vm_compute; reflexivity).
  repeat (split; [assumption|]).
  exact (delete_removes_the_first_record_only Sim.provider api "acme" w
           first [second] st left H1 H2 H3).
Defined.

(** X4.  When the DNS provider cannot be reached (every request is rejected
    with no response at all), each of the three operations throws the same
    [CloudflareAPIError]: kind [API_ERROR], the adapter's default message,
    and no status. *)
Theorem cloudflare_unreachable {P : Type} (prov : Axios.Provider P)
  (api : Cloudflare.CloudflareAPI) (subdomain message : string)
  (w : World P) :
  subdomain <> "" ->
  (forall r, exists p', prov r (providers w) = (Axios.Rejected message None, p')) ->
  let error :=
    CloudflareAPIError "An error occurred with the Cloudflare API"
                       "API_ERROR" None JUndefined in
  fst (Cloudflare.checkSubdomainAvailability prov api subdomain w) = Throw error
  /\ fst (Cloudflare.createSubdomainRecord prov api subdomain w) = Throw error
  /\ fst (Cloudflare.deleteSubdomainRecord prov api subdomain w) = Throw error.
Proof.
  intros Hsub Hdown error.
  unfold Cloudflare.checkSubdomainAvailability, Cloudflare.createSubdomainRecord,
    Cloudflare.deleteSubdomainRecord.
  apply truthy_JStr in Hsub. rewrite Hsub. cbn [negb].
  run_async.
  split; [|split];
    match goal with
    | |- context [prov ?r (providers w)] =>
        destruct (Hdown r) as (p' & ->)
    end; reflexivity.
Qed.

Lemma cloudflare_unreachable_witness :
  let st := Sim.with_faults Sim.empty_zone [Some ("Network Error", None)] in
  let api := Cloudflare.mkCloudflareAPI "zone-1" "example.com" "203.0.113.7" in
  let w := Sim.world st [] in
  let error :=
    CloudflareAPIError "An error occurred with the Cloudflare API"
                       "API_ERROR" None JUndefined in
  "acme" <> ""
  /\ (forall r, exists p',
        Sim.provider r (providers w) = (Axios.Rejected "Network Error" None, p'))
  /\ fst (Cloudflare.checkSubdomainAvailability Sim.provider api "acme" w)
     = Throw error
  /\ fst (Cloudflare.createSubdomainRecord Sim.provider api "acme" w)
     = Throw error
  /\ fst (Cloudflare.deleteSubdomainRecord Sim.provider api "acme" w)
     = Throw error.
Proof.
  intros st api w error.
  assert (H1 : "acme" <> "") by discriminate.
  assert (H2 : forall r, exists p',
               Sim.provider r (providers w)
               = (Axios.Rejected "Network Error" None, p'))
    by (intros r; eexists; reflexivity).
  split; [exact H1|]. split; [exact H2|].
  exact (cloudflare_unreachable Sim.provider api "acme" "Network Error" w H1 H2).
Defined.

(** X5.  [findApplicationByName] never throws.  What it returns is an
    application whose name is exactly the one asked for, or nothing; when
    the listing is rejected, for whatever reason, it returns nothing, as if
    no such application existed. *)
Theorem findApplicationByName_is_forgiving {P : Type}
  (prov : Axios.Provider P) (name : string) (w : World P) :
  exists found w',
    Coolify.findApplicationByName prov name w = (Return found, w')
    /\ (forall app, found = Some app -> Axios.app_name app = name)
    /\ (forall message response p',
          prov Axios.GetApplications (providers w)
          = (Axios.Rejected message response, p') ->
          found = None).
Proof.
  destruct (prov Axios.GetApplications (providers w))
    as [[data|message response] p1] eqn:Hlist.
  - rewrite (findApplicationByName_resolved prov name w data p1 Hlist).
    do 2 eexists. split; [reflexivity|]. split; [|discriminate].
    intros app Happ. unfold find_application in Happ.
    apply find_some in Happ as [_ Happ]. now apply String.eqb_eq in Happ.
  - destruct (findApplicationByName_rejected prov name w _ _ _ Hlist)
      as (c & ->).
    do 2 eexists. split; [reflexivity|]. split; [discriminate|reflexivity].
Qed.

Ltac split_error e :=
  destruct e as [? [[? []]|]|? ? ? ?|? ? ? ?|?|?].

Ltac finish_run :=
  cbn beta iota zeta delta [providers trace console store fst snd];
  do 3 eexists;
  (split; [reflexivity|]);
  (split; [cbn [trace]; rewrite <- ?app_assoc; reflexivity|]);
  (split; [repeat constructor|]);
  (split; [reflexivity|]);
  first [ intros; discriminate
        | intros _; eexists; split; reflexivity ].

(** X6.  With its configuration in place, when the listing shows an
    application named after the subdomain, [createDeployment] creates no
    second one: after the listing it sends nothing but the variables and
    the deploy signal of that application, and leaves the tenant store
    alone.  When it returns, it has sent exactly those two, the variables
    being the ones it built. *)
Theorem createDeployment_reuses_application {P : Type}
  (prov : Axios.Provider P) (env : ProcessEnv) (subdomain : string)
  (clientData : JsObject) (w : World P)
  (data : option (list Axios.Application)) (p1 : P)
  (app : Axios.Application) :
  deployment_configured env = true ->
  prov Axios.GetApplications (providers w) = (Axios.Resolved data, p1) ->
  find_application subdomain data = Some app ->
  exists o w' sent,
    Coolify.createDeployment prov env subdomain clientData w = (o, w')
    /\ trace w' = (trace w ++ Axios.GetApplications :: sent)%list
    /\ Forall (only_touches (Axios.uuid app)) sent
    /\ store w' = store w
    /\ (o = Return tt ->
        exists vars,
          Coolify.createDeployment_envVariables clientData = Return vars
          /\ sent = [Axios.PatchEnvsBulk (Axios.uuid app) vars;
                     Axios.GetDeploy (Axios.uuid app)]).
Proof.
  intros Hconf Hlist Hfind.
  rewrite (createDeployment_after_lookup prov env subdomain clientData w _ _
             Hconf (findApplicationByName_resolved prov subdomain w data p1
                      Hlist)).
  rewrite Hfind. unfold after_lookup, Coolify.handleError. run_async.
  destruct (Coolify.createDeployment_envVariables clientData) as [vars|e];
    [|split_error e; finish_run].
  destruct (prov (Axios.PatchEnvsBulk (Axios.uuid app) vars) p1)
    as [[[]|message [[status body]|]] p2];
    [|destruct body; finish_run|finish_run].
  cbn beta iota zeta delta [providers trace console store fst snd].
  destruct (prov (Axios.GetDeploy (Axios.uuid app)) p2)
    as [[[]|message [[status body]|]] p3];
    [|destruct body; finish_run|finish_run].
  finish_run.
Qed.

Lemma createDeployment_reuses_application_witness :
  let app := Axios.mkApplication "app-7" "acme" in
  let other := Axios.mkApplication "app-3" "acme-staging" in
  let st := Sim.mkState "example.com" [] [other; app] [] in
  let w := Sim.world st [] in
  let clientData := Clients.clientData_of Sim.acme in
  deployment_configured Sim.env = true
  /\ Sim.provider Axios.GetApplications (providers w)
     = (Axios.Resolved (Some [other; app]), st)
  /\ find_application "acme" (Some [other; app]) = Some app
  /\ exists o w' sent,
       Coolify.createDeployment Sim.provider Sim.env "acme" clientData w
       = (o, w')
       /\ trace w' = (trace w ++ Axios.GetApplications :: sent)%list
       /\ Forall (only_touches "app-7") sent
       /\ store w' = store w
       /\ (o = Return tt ->
           exists vars,
             Coolify.createDeployment_envVariables clientData = Return vars
             /\ sent = [Axios.PatchEnvsBulk "app-7" vars;
                        Axios.GetDeploy "app-7"]).
Proof.
  intros app other st w clientData.
  assert (H1 : deployment_configured Sim.env = true) by reflexivity.
  assert (H2 : Sim.provider Axios.GetApplications (providers w)
               = (Axios.Resolved (Some [other; app]), st)) by reflexivity.
  assert (H3 : find_application "acme" (Some [other; app]) = Some app)
    by reflexivity.
  repeat (split; [assumption|]).
  exact (createDeployment_reuses_application Sim.provider Sim.env "acme"
           clientData w (Some [other; app]) st app H1 H2 H3).
Defined.

(** X7.  With its configuration in place and no application of that name
    in the listing, [createDeployment] sends, in this order: the listing,
    the creation of an application named after the subdomain with the
    domain [https://subdomain.DOMAIN], the variables it built for the
    identifier the provider returned, and the deploy signal for that
    identifier.  When the provider accepts them all it returns, and the
    tenant store is as it was. *)
Theorem createDeployment_creates_then_configures {P : Type}
  (prov : Axios.Provider P) (env : ProcessEnv) (subdomain : string)
  (clientData : JsObject) (w : World P)
  (data : option (list Axios.Application)) (p1 p2 p3 p4 : P)
  (applicationId : string) (vars : list Axios.EnvVar) :
  deployment_configured env = true ->
  prov Axios.GetApplications (providers w) = (Axios.Resolved data, p1) ->
  find_application subdomain data = None ->
  let payload := Coolify.createPayload env subdomain clientData in
  prov (Axios.PostApplication payload) p1
  = (Axios.Resolved (Some applicationId), p2) ->
  applicationId <> "" ->
  Coolify.createDeployment_envVariables clientData = Return vars ->
  prov (Axios.PatchEnvsBulk applicationId vars) p2 = (Axios.Resolved tt, p3) ->
  prov (Axios.GetDeploy applicationId) p3 = (Axios.Resolved tt, p4) ->
  exists w',
    Coolify.createDeployment prov env subdomain clientData w = (Return tt, w')
    /\ providers w' = p4
    /\ store w' = store w
    /\ trace w'
       = (trace w
          ++ [Axios.GetApplications; Axios.PostApplication payload;
              Axios.PatchEnvsBulk applicationId vars;
              Axios.GetDeploy applicationId])%list
    /\ obj_get payload "name" = JStr subdomain
    /\ obj_get payload "domains"
       = JStr ("https://" ++ subdomain ++ "."
               ++ js_toString (js_opt_string (DOMAIN env)))
    /\ obj_get payload "instant_deploy" = JBool false.
Proof.
  intros Hconf Hlist Hfind payload Hpost Hid Hvars Hpatch Hdeploy.
  rewrite (createDeployment_after_lookup prov env subdomain clientData w _ _
             Hconf (findApplicationByName_resolved prov subdomain w data p1
                      Hlist)).
  rewrite Hfind. unfold after_lookup. fold payload. run_async.
  rewrite Hpost.
  assert (Hset : env_set (Some applicationId) = true)
    by (now apply truthy_JStr).
  rewrite Hset, Hvars.
  cbn beta iota zeta delta [providers trace console store fst snd str_or].
  apply String.eqb_neq in Hid. rewrite Hid.
  rewrite Hpatch.
  cbn beta iota zeta delta [providers trace console store fst snd].
  rewrite Hdeploy.
  eexists. split; [reflexivity|]. cbn [providers store trace].
  repeat split. now rewrite <- !app_assoc.
Qed.

Lemma createDeployment_creates_then_configures_witness :
  let w := Sim.world Sim.empty_zone [] in
  let clientData := Clients.clientData_of Sim.acme in
  let payload := Coolify.createPayload Sim.env "acme" clientData in
  let created :=
    Sim.mkState "example.com" [] [Axios.mkApplication "app-acme" "acme"] [] in
  exists vars,
    deployment_configured Sim.env = true
    /\ Sim.provider Axios.GetApplications (providers w)
       = (Axios.Resolved (Some []), Sim.empty_zone)
    /\ find_application "acme" (Some []) = None
    /\ Sim.provider (Axios.PostApplication payload) Sim.empty_zone
       = (Axios.Resolved (Some "app-acme"), created)
    /\ "app-acme" <> ""
    /\ Coolify.createDeployment_envVariables clientData = Return vars
    /\ Sim.provider (Axios.PatchEnvsBulk "app-acme" vars) created
       = (Axios.Resolved tt, created)
    /\ Sim.provider (Axios.GetDeploy "app-acme") created
       = (Axios.Resolved tt, created)
    /\ exists w',
         Coolify.createDeployment Sim.provider Sim.env "acme" clientData w
         = (Return tt, w')
         /\ providers w' = created
         /\ trace w'
            = [Axios.GetApplications; Axios.PostApplication payload;
               Axios.PatchEnvsBulk "app-acme" vars;
               Axios.GetDeploy "app-acme"].
Proof.
  intros w clientData payload created.
  destruct (Coolify.createDeployment_envVariables clientData) as [vars|e] eqn:Hv;
    [|vm_compute in Hv; discriminate].
  exists vars.
  assert (H1 : deployment_configured Sim.env = true) by reflexivity.
  assert (H2 : Sim.provider Axios.GetApplications (providers w)
               = (Axios.Resolved (Some []), Sim.empty_zone)) by reflexivity.
  assert (H3 : find_application "acme" (Some []) = None) by reflexivity.
  assert (H4 : Sim.provider (Axios.PostApplication payload) Sim.empty_zone
               = (Axios.Resolved (Some "app-acme"), created))
    by (vm_compute; reflexivity).
  assert (H5 : "app-acme" <> "") by discriminate.
  assert (H6 : Sim.provider (Axios.PatchEnvsBulk "app-acme" vars) created
               = (Axios.Resolved tt, created)) by reflexivity.
  assert (H7 : Sim.provider (Axios.GetDeploy "app-acme") created
               = (Axios.Resolved tt, created)) by reflexivity.
  repeat (split; [first [assumption | reflexivity]|]).
  destruct (createDeployment_creates_then_configures Sim.provider Sim.env
              "acme" clientData w (Some []) Sim.empty_zone created created
              created "app-acme" vars H1 H2 H3 H4 H5 Hv H6 H7)
    as (w' & Hrun & Hp & _ & Ht & _).
  exists w'. repeat split; assumption.
Defined.

(** X8.  When the provider accepts the creation but its answer carries no
    identifier, [createDeployment] stops there: nothing is sent after the
    creation, and the caller gets a 500 [UNKNOWN_ERROR] whose message says
    the deployment failed, although the provider has created the
    application. *)
Theorem createDeployment_without_identifier {P : Type}
  (prov : Axios.Provider P) (env : ProcessEnv) (subdomain : string)
  (clientData : JsObject) (w : World P)
  (data : option (list Axios.Application)) (p1 p2 : P)
  (created : option string) :
  deployment_configured env = true ->
  prov Axios.GetApplications (providers w) = (Axios.Resolved data, p1) ->
  find_application subdomain data = None ->
  prov (Axios.PostApplication (Coolify.createPayload env subdomain clientData))
       p1
  = (Axios.Resolved created, p2) ->
  created = None \/ created = Some "" ->
  exists w',
    Coolify.createDeployment prov env subdomain clientData w
    = (Throw (CoolifyAPIError
                "Failed to create deployment: Application created but no ID returned"
                "UNKNOWN_ERROR" (Some 500) JUndefined), w')
    /\ providers w' = p2
    /\ store w' = store w
    /\ trace w'
       = (trace w
          ++ [Axios.GetApplications;
              Axios.PostApplication
                (Coolify.createPayload env subdomain clientData)])%list.
Proof.
  intros Hconf Hlist Hfind Hpost Hid.
  rewrite (createDeployment_after_lookup prov env subdomain clientData w _ _
             Hconf (findApplicationByName_resolved prov subdomain w data p1
                      Hlist)).
  rewrite Hfind. unfold after_lookup, Coolify.handleError. run_async.
  rewrite Hpost.
  assert (Hset : env_set created = false) by (now destruct Hid as [-> | ->]).
  rewrite Hset.
  cbn beta iota zeta delta [providers trace console store fst snd].
  eexists. split; [reflexivity|]. cbn [providers store trace].
  repeat split. now rewrite <- !app_assoc.
Qed.

Lemma createDeployment_without_identifier_witness :
  let w := mkWorld tt [] [] [Sim.acme] in
  let clientData := Clients.clientData_of Sim.acme in
  let payload := Coolify.createPayload Sim.env "acme" clientData in
  deployment_configured Sim.env = true
  /\ empty_answers Axios.GetApplications (providers w)
     = (Axios.Resolved None, tt)
  /\ find_application "acme" None = None
  /\ empty_answers (Axios.PostApplication payload) tt
     = (Axios.Resolved None, tt)
  /\ exists w',
       Coolify.createDeployment empty_answers Sim.env "acme" clientData w
       = (Throw (CoolifyAPIError
                   "Failed to create deployment: Application created but no ID returned"
                   "UNKNOWN_ERROR" (Some 500) JUndefined), w')
       /\ providers w' = tt
       /\ store w' = store w
       /\ trace w' = [Axios.GetApplications; Axios.PostApplication payload].
Proof.
  intros w clientData payload.
  assert (H1 : deployment_configured Sim.env = true) by reflexivity.
  repeat (split; [first [assumption | reflexivity]|]).
  exact (createDeployment_without_identifier empty_answers Sim.env "acme"
           clientData w None tt tt None
           H1 eq_refl eq_refl eq_refl (or_introl eq_refl)).
Defined.

(** X9.  When one of [TEMPLATE_REPO], [COOLIFY_PROJECT_ID],
    [COOLIFY_ENVIRONMENT_ID] and [COOLIFY_SERVER_ID] is not set,
    [createDeployment] sends no request at all, not even the listing: it
    writes one line to the error console and throws a 500 [UNKNOWN_ERROR]
    whose message starts with its context. *)
Theorem createDeployment_needs_configuration {P : Type}
  (prov : Axios.Provider P) (env : ProcessEnv) (subdomain : string)
  (clientData : JsObject) (w : World P) :
  deployment_configured env = false ->
  exists message,
    Coolify.createDeployment prov env subdomain clientData w
    = (Throw (CoolifyAPIError ("Failed to create deployment: " ++ message)
                "UNKNOWN_ERROR" (Some 500) JUndefined),
       logged w ERROR "Coolify API Error (Failed to create deployment):").
Proof.
  unfold deployment_configured, Coolify.createDeployment, logged. intros H.
  destruct (env_set (TEMPLATE_REPO env)).
  - assert (H' : negb (env_set (COOLIFY_PROJECT_ID env))
                 || negb (env_set (COOLIFY_ENVIRONMENT_ID env))
                 || negb (env_set (COOLIFY_SERVER_ID env)) = true).
    { destruct (env_set (COOLIFY_PROJECT_ID env)),
        (env_set (COOLIFY_ENVIRONMENT_ID env)),
        (env_set (COOLIFY_SERVER_ID env)); (discriminate || reflexivity). }
    rewrite H'. eexists. reflexivity.
  - eexists. reflexivity.
Qed.

Lemma createDeployment_needs_configuration_witness :
  let env :=
    mkProcessEnv (Some "token") (Some "zone-1") (Some "example.com")
                 (Some "203.0.113.7") (Some "key")
                 (Some "https://coolify.example.com")
                 (Some "https://github.com/acme/template")
                 (Some "project-1") (Some "environment-1") None in
  let w := Sim.world Sim.empty_zone [] in
  deployment_configured env = false
  /\ exists message,
       Coolify.createDeployment Sim.provider env "acme"
         (Clients.clientData_of Sim.acme) w
       = (Throw (CoolifyAPIError ("Failed to create deployment: " ++ message)
                   "UNKNOWN_ERROR" (Some 500) JUndefined),
          logged w ERROR "Coolify API Error (Failed to create deployment):").
Proof.
  intros env w. split; [reflexivity|].
  exact (createDeployment_needs_configuration Sim.provider env "acme"
           (Clients.clientData_of Sim.acme) w eq_refl).
Defined.

(** X10.  When the listing is rejected, [createDeployment] takes the name
    for free: with its configuration in place, the request it sends next
    is the creation of a new application, whether or not one of that name
    exists at the provider. *)
Theorem createDeployment_creates_after_failed_listing {P : Type}
  (prov : Axios.Provider P) (env : ProcessEnv) (subdomain : string)
  (clientData : JsObject) (w : World P)
  (message : string) (response : option Axios.Response) (p1 : P) :
  deployment_configured env = true ->
  prov Axios.GetApplications (providers w)
  = (Axios.Rejected message response, p1) ->
  exists o w' rest,
    Coolify.createDeployment prov env subdomain clientData w = (o, w')
    /\ trace w'
       = (trace w
          ++ Axios.GetApplications
             :: Axios.PostApplication
                  (Coolify.createPayload env subdomain clientData)
             :: rest)%list
    /\ store w' = store w.
Proof.
  intros Hconf Hlist.
  destruct (findApplicationByName_rejected prov subdomain w _ _ _ Hlist)
    as (c & Hfind).
  destruct (Coolify.createDeployment prov env subdomain clientData w)
    as [o w'] eqn:Hrun.
  destruct (sends_createDeployment prov env subdomain clientData _ _ _ Hrun)
    as (Hst & _ & _).
  rewrite (createDeployment_after_lookup prov env subdomain clientData w _ _
             Hconf Hfind) in Hrun.
  assert (Hf : starts_with
                 (Axios.PostApplication
                    (Coolify.createPayload env subdomain clientData))
                 (try_catch
                    (after_lookup prov env subdomain clientData None)
                    (fun error =>
                       Coolify.handleError error
                         "Failed to create deployment"))).
  { unfold after_lookup, console_log.
    apply starts_try_catch with (Q := fun _ => True);
      [|intros e; apply sends_coolify_handleError].
    apply starts_bind with (Q := fun _ => True); [|intros a; sends_auto].
    apply starts_after_console.
    apply starts_bind with (Q := fun _ => True);
      [apply starts_request|intros a; sends_auto]. }
  destruct (Hf _ _ _ Hrun) as (rest & Ht).
  exists o, w', rest. split; [reflexivity|].
  cbn [trace] in Ht. rewrite Ht, <- app_assoc.
  split; [reflexivity|exact Hst].
Qed.

Lemma createDeployment_creates_after_failed_listing_witness :
  let app := Axios.mkApplication "app-7" "acme" in
  let st :=
    Sim.mkState "example.com" [] [app] [Sim.http_error 502 (JStr "Bad Gateway")] in
  let w := Sim.world st [] in
  let clientData := Clients.clientData_of Sim.acme in
  deployment_configured Sim.env = true
  /\ Sim.provider Axios.GetApplications (providers w)
     = (Axios.Rejected "Request failed with status code 502"
          (Some (Axios.mkResponse 502 (JStr "Bad Gateway"))),
        Sim.with_faults st [])
  /\ exists o w' rest,
       Coolify.createDeployment Sim.provider Sim.env "acme" clientData w
       = (o, w')
       /\ trace w'
          = (trace w
             ++ Axios.GetApplications
                :: Axios.PostApplication
                     (Coolify.createPayload Sim.env "acme" clientData)
                :: rest)%list
       /\ store w' = store w.
Proof.
  intros app st w clientData.
  assert (H1 : deployment_configured Sim.env = true) by reflexivity.
  assert (H2 : Sim.provider Axios.GetApplications (providers w)
               = (Axios.Rejected "Request failed with status code 502"
                    (Some (Axios.mkResponse 502 (JStr "Bad Gateway"))),
                  Sim.with_faults st []))
    by (vm_compute; reflexivity).
  repeat (split; [assumption|]).
  exact (createDeployment_creates_after_failed_listing Sim.provider Sim.env
           "acme" clientData w _ _ _ H1 H2).
Defined.

Lemma throws_coolify_handleError {P A : Type} (e : JsError) (context : string) :
  throws (P:=P) (A:=A) coolify_caller_error (Coolify.handleError e context).
Proof.
  unfold Coolify.handleError, console_error, console_log.
  destruct e as [message response|? ? ? ?|? ? ? ?|?|?]; throws_auto.
Qed.

(** X11.  Whatever happens inside them, the three operations of the
    deployment adapter let only two kinds of error out: a
    [CoolifyAPIError] whose code is [API_ERROR] or [UNKNOWN_ERROR], or the
    [TypeError] of reading [errors] off a rejection that has no body.  The
    codes [NOT_FOUND], [INVALID_PARAMETER] and [INVALID_RESPONSE] that they
    raise inside never reach a caller. *)
Theorem coolify_errors_reach_callers_recoded {P : Type}
  (prov : Axios.Provider P) (env : ProcessEnv) (subdomain : string)
  (clientData : JsObject) :
  throws coolify_caller_error
         (Coolify.createDeployment prov env subdomain clientData)
  /\ throws coolify_caller_error (Coolify.deleteDeployment prov subdomain)
  /\ throws coolify_caller_error
            (Coolify.updateDeployment prov env subdomain clientData).
Proof.
  split; [|split]; apply throws_try_catch; intros e;
    apply throws_coolify_handleError.
Qed.

(** X12.  When the listing shows an application named after the subdomain,
    [updateDeployment] updates it in place: after the listing it sends
    nothing but the variables and the deploy signal of that application,
    it creates and deletes nothing, and the tenant store is as it was.
    When it returns, it has sent exactly those two. *)
Theorem updateDeployment_updates_in_place {P : Type}
  (prov : Axios.Provider P) (env : ProcessEnv) (subdomain : string)
  (clientData : JsObject) (w : World P)
  (data : option (list Axios.Application)) (p1 : P)
  (app : Axios.Application) :
  prov Axios.GetApplications (providers w) = (Axios.Resolved data, p1) ->
  find_application subdomain data = Some app ->
  exists o w' sent,
    Coolify.updateDeployment prov env subdomain clientData w = (o, w')
    /\ trace w' = (trace w ++ Axios.GetApplications :: sent)%list
    /\ Forall (only_touches (Axios.uuid app)) sent
    /\ store w' = store w
    /\ (o = Return tt ->
        exists vars,
          Coolify.updateDeployment_envVariables clientData = Return vars
          /\ sent = [Axios.PatchEnvsBulk (Axios.uuid app) vars;
                     Axios.GetDeploy (Axios.uuid app)]).
Proof.
  intros Hlist Hfind.
  unfold Coolify.updateDeployment.
  cbv beta iota delta [try_catch bind].
  rewrite (findApplicationByName_resolved prov subdomain w data p1 Hlist).
  rewrite Hfind. unfold Coolify.handleError. run_async.
  destruct (Coolify.updateDeployment_envVariables clientData) as [vars|e];
    [|split_error e; finish_run].
  destruct (prov (Axios.PatchEnvsBulk (Axios.uuid app) vars) p1)
    as [[[]|message [[status body]|]] p2];
    [|destruct body; finish_run|finish_run].
  cbn beta iota zeta delta [providers trace console store fst snd].
  destruct (prov (Axios.GetDeploy (Axios.uuid app)) p2)
    as [[[]|message [[status body]|]] p3];
    [|destruct body; finish_run|finish_run].
  finish_run.
Qed.

Lemma updateDeployment_updates_in_place_witness :
  let app := Axios.mkApplication "app-7" "acme" in
  let other := Axios.mkApplication "app-3" "acme-staging" in
  let st := Sim.mkState "example.com" [] [other; app] [] in
  let w := Sim.world st [] in
  let clientData := Clients.clientData_of Sim.acme in
  Sim.provider Axios.GetApplications (providers w)
  = (Axios.Resolved (Some [other; app]), st)
  /\ find_application "acme" (Some [other; app]) = Some app
  /\ exists o w' sent,
       Coolify.updateDeployment Sim.provider Sim.env "acme" clientData w
       = (o, w')
       /\ trace w' = (trace w ++ Axios.GetApplications :: sent)%list
       /\ Forall (only_touches "app-7") sent
       /\ store w' = store w
       /\ (o = Return tt ->
           exists vars,
             Coolify.updateDeployment_envVariables clientData = Return vars
             /\ sent = [Axios.PatchEnvsBulk "app-7" vars;
                        Axios.GetDeploy "app-7"]).
Proof.
  intros app other st w clientData.
  assert (H2 : Sim.provider Axios.GetApplications (providers w)
               = (Axios.Resolved (Some [other; app]), st)) by reflexivity.
  assert (H3 : find_application "acme" (Some [other; app]) = Some app)
    by reflexivity.
  repeat (split; [assumption|]).
  exact (updateDeployment_updates_in_place Sim.provider Sim.env "acme"
           clientData w (Some [other; app]) st app H2 H3).
Defined.

(** X13.  When the first lookup finds no application, [updateDeployment]
    hands over to [createDeployment], which looks the name up again.  A
    success of [createDeployment] is its success; an error of
    [createDeployment] is wrapped a second time: it reaches the caller as
    a 500 [UNKNOWN_ERROR] whose message puts the context of the update
    before the message of that error, whatever status and code that error
    had. *)
Theorem updateDeployment_falls_back_to_create {P : Type}
  (prov : Axios.Provider P) (env : ProcessEnv) (subdomain : string)
  (clientData : JsObject) (w w1 w2 : World P) (o : Outcome unit) :
  Coolify.findApplicationByName prov subdomain w = (Return None, w1) ->
  Coolify.createDeployment prov env subdomain clientData
    (logged w1 LOG "Application not found, creating new deployment...")
  = (o, w2) ->
  Coolify.updateDeployment prov env subdomain clientData w
  = match o with
    | Return _ => (Return tt, w2)
    | Throw e =>
        (Throw (CoolifyAPIError
                  ("Failed to update deployment: " ++ error_message e)
                  "UNKNOWN_ERROR" (Some 500) JUndefined),
         logged w2 ERROR "Coolify API Error (Failed to update deployment):")
    end.
Proof.
  intros Hfind Hcreate.
  unfold Coolify.updateDeployment at 1.
  cbv beta iota delta [try_catch bind].
  rewrite Hfind. unfold console_log, console_write at 1.
  fold (logged w1 LOG "Application not found, creating new deployment...").
  rewrite Hcreate.
  destruct o as [[]|e]; [reflexivity|].
  revert Hcreate. unfold Coolify.createDeployment at 1.
  unfold try_catch at 1.
  match goal with
  | |- context [match ?m ?w0 with _ => _ end] => destruct (m w0) as [[[]|e0] w3]
  end; [discriminate|].
  unfold Coolify.handleError, console_error, console_log.
  destruct e0 as [message [[status body]|]|? ? ? ?|? ? ? ?|?|?];
    try destruct body; run_async; intros H; injection H as <- <-;
    reflexivity.
Qed.

Lemma updateDeployment_falls_back_to_create_witness :
  let w := Sim.world Sim.empty_zone [] in
  let clientData := Clients.clientData_of Sim.acme in
  let w1 := mkWorld Sim.empty_zone [Axios.GetApplications] [] [] in
  let run :=
    Coolify.createDeployment Sim.provider Sim.env "acme" clientData
      (logged w1 LOG "Application not found, creating new deployment...") in
  Coolify.findApplicationByName Sim.provider "acme" w = (Return None, w1)
  /\ run = (Return tt, snd run)
  /\ Coolify.updateDeployment Sim.provider Sim.env "acme" clientData w
     = (Return tt, snd run).
Proof.
  intros w clientData w1 run.
  assert (H1 : Coolify.findApplicationByName Sim.provider "acme" w
               = (Return None, w1)) by (vm_compute; reflexivity).
  assert (H2 : run = (Return tt, snd run)) by (vm_compute; reflexivity).
  split; [exact H1|]. split; [exact H2|].
  exact (updateDeployment_falls_back_to_create Sim.provider Sim.env "acme"
           clientData w w1 (snd run) (Return tt) H1 H2).
Defined.

(** X14.  The deployment adapter stays on its own provider and out of the
    tenant store, and each operation has its vocabulary: [createDeployment]
    and [updateDeployment] send no DNS request and delete nothing;
    [deleteDeployment] sends no DNS request and creates or configures
    nothing. *)
Theorem coolify_operations_keep_to_their_requests {P : Type}
  (prov : Axios.Provider P) (env : ProcessEnv) (subdomain : string)
  (clientData : JsObject) :
  sends (fun r => not_dns_request r /\ deletes_nothing r)
        (Coolify.createDeployment prov env subdomain clientData)
  /\ sends (fun r => not_dns_request r /\ deletes_nothing r)
           (Coolify.updateDeployment prov env subdomain clientData)
  /\ sends (fun r => not_dns_request r /\ creates_nothing r)
           (Coolify.deleteDeployment prov subdomain).
Proof.
  assert (Hcreate : sends (fun r => not_dns_request r /\ deletes_nothing r)
                      (Coolify.createDeployment prov env subdomain clientData))
    by (apply sends_createDeployment_with; intros; split; exact I || reflexivity).
  split; [exact Hcreate|]. split.
  - unfold Coolify.updateDeployment, console_log.
    apply sends_try_catch; [|intros e; apply sends_coolify_handleError].
    apply sends_bind;
      [apply sends_findApplicationByName; split; exact I || reflexivity
      |intros [app|]].
    + apply sends_bind; [sends_auto|intros _].
      apply sends_bind_lift. intros vars _.
      apply sends_bind;
        [refine (sends_request _ prov (Axios.PatchEnvsBulk _ _) _);
         split; exact I || reflexivity
        |intros _].
      apply sends_bind;
        [refine (sends_request _ prov (Axios.GetDeploy _) _);
         split; exact I || reflexivity
        |intros _].
      sends_auto.
    + apply sends_bind; [sends_auto|intros _]. exact Hcreate.
  - unfold Coolify.deleteDeployment, console_log.
    apply sends_try_catch; [|intros e; apply sends_coolify_handleError].
    apply sends_bind;
      [apply sends_findApplicationByName; split; exact I || reflexivity
      |intros [app|]]; [|sends_auto].
    apply sends_bind; [sends_auto|intros _].
    apply sends_bind;
      [refine (sends_request _ prov (Axios.DeleteApplication _) _);
       split; exact I || reflexivity
      |intros _].
    sends_auto.
Qed.

(** X15.  When the listing shows an application named after the subdomain,
    [deleteDeployment] sends the listing and then the deletion of the first
    application of that name, by its identifier, and nothing else, even
    when several applications carry the name.  It returns exactly when the
    provider accepts that deletion. *)
Theorem deleteDeployment_deletes_first_match {P : Type}
  (prov : Axios.Provider P) (subdomain : string) (w : World P)
  (data : option (list Axios.Application)) (p1 : P)
  (app : Axios.Application) :
  prov Axios.GetApplications (providers w) = (Axios.Resolved data, p1) ->
  find_application subdomain data = Some app ->
  exists o w',
    Coolify.deleteDeployment prov subdomain w = (o, w')
    /\ trace w'
       = (trace w
          ++ [Axios.GetApplications;
              Axios.DeleteApplication (Axios.uuid app)])%list
    /\ store w' = store w
    /\ (o = Return tt
        <-> exists p2,
              prov (Axios.DeleteApplication (Axios.uuid app)) p1
              = (Axios.Resolved tt, p2)).
Proof.
  intros Hlist Hfind.
  unfold Coolify.deleteDeployment.
  cbv beta iota delta [try_catch bind].
  rewrite (findApplicationByName_resolved prov subdomain w data p1 Hlist).
  rewrite Hfind. unfold Coolify.handleError. run_async.
  destruct (prov (Axios.DeleteApplication (Axios.uuid app)) p1)
    as [[[]|message [[status body]|]] p2]; [|destruct body|];
    cbn beta iota zeta delta [providers trace console store fst snd];
    do 2 eexists; (split; [reflexivity|]);
    (split; [cbn [trace]; rewrite <- ?app_assoc; reflexivity|]);
    (split; [reflexivity|]);
    (split; [intros H; first [discriminate H | now eexists]
            |intros (p' & H); first [discriminate H | reflexivity]]).
Qed.

Lemma deleteDeployment_deletes_first_match_witness :
  let first := Axios.mkApplication "app-3" "acme" in
  let second := Axios.mkApplication "app-7" "acme" in
  let st := Sim.mkState "example.com" [] [first; second] [] in
  let w := Sim.world st [] in
  Sim.provider Axios.GetApplications (providers w)
  = (Axios.Resolved (Some [first; second]), st)
  /\ find_application "acme" (Some [first; second]) = Some first
  /\ exists o w',
       Coolify.deleteDeployment Sim.provider "acme" w = (o, w')
       /\ trace w'
          = (trace w
             ++ [Axios.GetApplications; Axios.DeleteApplication "app-3"])%list
       /\ store w' = store w
       /\ (o = Return tt
           <-> exists p2,
                 Sim.provider (Axios.DeleteApplication "app-3") st
                 = (Axios.Resolved tt, p2)).
Proof.
  intros first second st w.
  assert (H1 : Sim.provider Axios.GetApplications (providers w)
               = (Axios.Resolved (Some [first; second]), st)) by reflexivity.
  assert (H2 : find_application "acme" (Some [first; second]) = Some first)
    by reflexivity.
  repeat (split; [assumption|]).
  exact (deleteDeployment_deletes_first_match Sim.provider "acme" w
           (Some [first; second]) st first H1 H2).
Defined.

Lemma strip_trailing_slash_app (s : string) :
  Coolify.strip_trailing_slash (s ++ "/") = s.
Proof.
  induction s as [|c s IH]; [reflexivity|].
  cbn [append Coolify.strip_trailing_slash]. rewrite IH.
  destruct s; reflexivity.
Qed.

Lemma strip_trailing_slash_spec (s : string) :
  Coolify.strip_trailing_slash s = s
  \/ s = Coolify.strip_trailing_slash s ++ "/".
Proof.
  induction s as [|c s IH]; [now left|].
  destruct s as [|d s].
  - cbn. destruct (Ascii.eqb_spec c "/") as [->|]; [now right|now left].
  - change (Coolify.strip_trailing_slash (String c (String d s)))
      with (String c (Coolify.strip_trailing_slash (String d s))).
    destruct IH as [-> | IH]; [now left|].
    right. cbn [append]. now rewrite <- IH.
Qed.

(** X16.  [new CoolifyAPI(apiKey, baseUrl)] with a key that is set drops
    one slash from the end of the base URL and no more: a URL given with a
    trailing slash builds the client of the URL without it, and a URL that
    does not end in a slash is kept as it is. *)
Theorem coolify_base_url_normalised (apiKey : option string) (url : string) :
  env_set apiKey = true ->
  Coolify.new apiKey (Some (url ++ "/")) = Return (Coolify.mkCoolifyAPI url)
  /\ (url <> "" -> (forall s, url <> s ++ "/") ->
      Coolify.new apiKey (Some url) = Return (Coolify.mkCoolifyAPI url)).
Proof.
  intros Hkey. unfold Coolify.new. rewrite Hkey. split.
  - assert (Hne : url ++ "/" <> "") by (destruct url; discriminate).
    assert (Hset : env_set (Some (url ++ "/")) = true)
      by (now apply truthy_JStr).
    rewrite Hset. cbn [negb orb str_or].
    apply String.eqb_neq in Hne. rewrite Hne.
    now rewrite strip_trailing_slash_app.
  - intros Hne Hend.
    assert (Hset : env_set (Some url) = true) by (now apply truthy_JStr).
    rewrite Hset. cbn [negb orb str_or].
    apply String.eqb_neq in Hne. rewrite Hne.
    destruct (strip_trailing_slash_spec url) as [-> | H]; [reflexivity|].
    now destruct (Hend _ H).
Qed.

Lemma coolify_base_url_normalised_witness :
  env_set (Some "key") = true
  /\ Coolify.new (Some "key") (Some "https://coolify.example.com/")
     = Return (Coolify.mkCoolifyAPI "https://coolify.example.com").
Proof.
  assert (H1 : env_set (Some "key") = true) by reflexivity.
  split; [exact H1|].
  exact (proj1 (coolify_base_url_normalised (Some "key")
                  "https://coolify.example.com" H1)).
Defined.

(** X17.  Without one of the four credentials (the Cloudflare token and
    zone, the Coolify key and URL) the create route and the undeploy route
    answer 503 and do nothing else: no request is sent and nothing is
    saved, so the create route does not store the tenant.  The deploy
    route does the same for a tenant it found and that is not deployed. *)
Theorem routes_need_credentials {P : Type} (prov : Axios.Provider P)
  (JSON_parse : string -> Outcome JsValue)
  (env : ProcessEnv) (req : Clients.CreateRequest) (id userId : string)
  (w : World P) :
  services_configured env = false ->
  (exists body w',
     Clients.create_route prov JSON_parse env req w
     = (Return (Clients.mkRes 503 body), w') /\ quiet w w')
  /\ (exists body w',
        Clients.undeploy_route prov env id userId w
        = (Return (Clients.mkRes 503 body), w') /\ quiet w w')
  /\ (forall client,
        lookup_client id userId (store w) = Some client ->
        isDeployed client = false ->
        exists body w',
          Clients.deploy_route prov env id userId w
          = (Return (Clients.mkRes 503 body), w') /\ quiet w w').
Proof.
  intros Hconf.
  destruct (checkServices_unconfigured env w Hconf) as (message & c & Hsvc).
  split; [|split].
  - unfold Clients.create_route. cbv beta iota delta [try_catch bind ret].
    rewrite Hsvc. do 2 eexists. split; [reflexivity|]. now repeat split.
  - unfold Clients.undeploy_route. cbv beta iota delta [try_catch bind ret].
    rewrite Hsvc. do 2 eexists. split; [reflexivity|]. now repeat split.
  - intros client Hfind Hflag.
    unfold Clients.deploy_route.
    cbv beta iota delta [try_catch bind ret findOne].
    rewrite Hfind, Hflag, Hsvc.
    do 2 eexists. split; [reflexivity|]. now repeat split.
Qed.

Lemma routes_need_credentials_witness :
  let env :=
    mkProcessEnv (Some "token") (Some "zone-1") (Some "example.com")
                 (Some "203.0.113.7") None
                 (Some "https://coolify.example.com")
                 (Some "https://github.com/acme/template")
                 (Some "project-1") (Some "environment-1") (Some "server-1") in
  let req :=
    Clients.mkCreateRequest "c2" "u1" "Beta" "beta" None (JArr []) (JObj [])
      None None None in
  let w := Sim.world Sim.empty_zone [Sim.acme] in
  services_configured env = false
  /\ (exists body w',
        Clients.create_route Sim.provider JSON_parse_rejects env req w
        = (Return (Clients.mkRes 503 body), w') /\ quiet w w')
  /\ (exists body w',
        Clients.deploy_route Sim.provider env "c1" "u1" w
        = (Return (Clients.mkRes 503 body), w') /\ quiet w w').
Proof.
  intros env req w.
  assert (H : services_configured env = false) by reflexivity.
  split; [exact H|].
  destruct (routes_need_credentials Sim.provider JSON_parse_rejects env req "c1" "u1" w H)
    as (Hc & _ & Hd).
  split; [exact Hc|]. exact (Hd Sim.acme eq_refl eq_refl).
Defined.

(** X18.  With the four credentials set, the routes work with a DNS client
    for the domain [DOMAIN], or [theosirislabs.com] when [DOMAIN] is not
    set or empty, while the deployment is created for the domain
    [https://subdomain.DOMAIN] read from the environment as it is.  So the
    name of the DNS record and the domain of the deployment are the same
    when [DOMAIN] is set and not empty; when it is missing the record is
    made under [theosirislabs.com] and the deployment under [undefined]. *)
Theorem dns_name_and_deployment_domain {P : Type} (env : ProcessEnv)
  (subdomain : string) (clientData : JsObject) (w : World P) :
  services_configured env = true ->
  exists cloudflare coolify,
    Clients.checkServices env w = (Return (inl (cloudflare, coolify)), w)
    /\ (forall d, DOMAIN env = Some d -> d <> "" ->
        obj_get (Coolify.createPayload env subdomain clientData) "domains"
        = JStr ("https://" ++ subdomain ++ "." ++ Cloudflare.domain cloudflare))
    /\ (DOMAIN env = None ->
        Cloudflare.domain cloudflare = "theosirislabs.com"
        /\ obj_get (Coolify.createPayload env subdomain clientData) "domains"
           = JStr ("https://" ++ subdomain ++ ".undefined")).
Proof.
  intros Hconf. exists (cloudflare_of env), (coolify_of env).
  split; [now apply checkServices_configured|].
  unfold cloudflare_of, Coolify.createPayload. cbn [Cloudflare.domain obj_get].
  split.
  - intros d -> Hd. cbn. apply String.eqb_neq in Hd. now rewrite Hd.
  - intros ->. split; reflexivity.
Qed.

Lemma dns_name_and_deployment_domain_witness :
  let w := Sim.world Sim.empty_zone [] in
  services_configured Sim.env = true
  /\ exists cloudflare coolify,
       Clients.checkServices Sim.env w = (Return (inl (cloudflare, coolify)), w)
       /\ obj_get (Coolify.createPayload Sim.env "acme" []) "domains"
          = JStr ("https://" ++ "acme" ++ "." ++ Cloudflare.domain cloudflare).
Proof.
  intros w.
  assert (H : services_configured Sim.env = true) by reflexivity.
  split; [exact H|].
  destruct (dns_name_and_deployment_domain Sim.env "acme" [] w H)
    as (cloudflare & coolify & Hsvc & Hset & _).
  exists cloudflare, coolify. split; [exact Hsvc|].
  apply (Hset "example.com"); [reflexivity|discriminate].
Defined.

(** X19.  For a tenant that is not in the store under that identifier and
    owner, the deploy route answers 404 before it looks at the services,
    and the undeploy route answers 404 once the credentials are there;
    neither sends a request or saves anything.  The two answers carry the
    text under different keys, [error] and [message]. *)
Theorem unknown_tenant_is_not_found {P : Type} (prov : Axios.Provider P)
  (env : ProcessEnv) (id userId : string) (w : World P) :
  lookup_client id userId (store w) = None ->
  Clients.deploy_route prov env id userId w
  = (Return (Clients.mkRes 404 [("error", JStr "Client not found")]), w)
  /\ (services_configured env = true ->
      Clients.undeploy_route prov env id userId w
      = (Return (Clients.mkRes 404 [("message", JStr "Client not found")]), w)).
Proof.
  intros Hfind. split.
  - unfold Clients.deploy_route.
    cbv beta iota delta [try_catch bind ret findOne]. now rewrite Hfind.
  - intros Hconf. unfold Clients.undeploy_route.
    cbv beta iota delta [try_catch bind ret findOne].
    rewrite (checkServices_configured env w Hconf). now rewrite Hfind.
Qed.

Lemma unknown_tenant_is_not_found_witness :
  let w := Sim.world Sim.empty_zone [Sim.acme] in
  lookup_client "c1" "u2" (store w) = None
  /\ Clients.deploy_route Sim.provider Sim.env "c1" "u2" w
     = (Return (Clients.mkRes 404 [("error", JStr "Client not found")]), w)
  /\ Clients.undeploy_route Sim.provider Sim.env "c1" "u2" w
     = (Return (Clients.mkRes 404 [("message", JStr "Client not found")]), w).
Proof.
  intros w.
  assert (H : lookup_client "c1" "u2" (store w) = None) by reflexivity.
  split; [exact H|].
  destruct (unknown_tenant_is_not_found Sim.provider Sim.env "c1" "u2" w H)
    as [Hd Hu].
  split; [exact Hd|]. exact (Hu eq_refl).
Defined.

(** X20.  When the DNS provider rejects the query for the name, or answers
    that the name is free and then rejects the creation of the record, the
    deploy route stops there: it answers 500 [Failed to manage DNS record]
    with the adapter's message, sends nothing to the deployment provider,
    and saves nothing, so the tenant stays not deployed. *)
Theorem deploy_stops_at_dns_failure {P : Type} (prov : Axios.Provider P)
  (env : ProcessEnv) (id userId : string) (client : Client) (w : World P)
  (message : string) (response : option Axios.Response) :
  lookup_client id userId (store w) = Some client ->
  isDeployed client = false ->
  services_configured env = true ->
  subdomain client <> "" ->
  let cloudflare := cloudflare_of env in
  let query :=
    Axios.GetDnsRecords (Cloudflare.zoneId cloudflare)
      (subdomain client ++ "." ++ Cloudflare.domain cloudflare) in
  let create :=
    Axios.PostDnsRecord (Cloudflare.zoneId cloudflare) (subdomain client)
      (Cloudflare.serverIp cloudflare) in
  forall p1,
    (prov query (providers w) = (Axios.Rejected message response, p1)
     -> exists details w',
          Clients.deploy_route prov env id userId w
          = (Return (Clients.mkRes 500
                       [("error", JStr "Failed to manage DNS record");
                        ("details", JStr details)]), w')
          /\ providers w' = p1
          /\ trace w' = (trace w ++ [query])%list
          /\ store w' = store w)
    /\ (forall p2,
          prov query (providers w) = (Axios.Resolved [], p1) ->
          prov create p1 = (Axios.Rejected message response, p2) ->
          exists details w',
            Clients.deploy_route prov env id userId w
            = (Return (Clients.mkRes 500
                         [("error", JStr "Failed to manage DNS record");
                          ("details", JStr details)]), w')
            /\ providers w' = p2
            /\ trace w' = (trace w ++ [query; create])%list
            /\ store w' = store w).
Proof.
  intros Hfind Hflag Hconf Hsub cloudflare query create p1.
  pose proof (deploy_route_run prov env id userId client cloudflare
                (coolify_of env) w Hfind Hflag
                (checkServices_configured env w Hconf)) as Hrun.
  split.
  - intros Hq. rewrite Hrun.
    unfold Clients.deploy_dns_phase.
    cbv beta iota delta [try_catch bind console_log console_write].
    match goal with
    | |- context [Cloudflare.checkSubdomainAvailability prov cloudflare _ ?w0] =>
        destruct (checkSubdomainAvailability_rejected prov cloudflare
                    (subdomain client) w0 message response p1 Hsub Hq)
          as (msg & code & details & ->)
    end.
    run_async. do 2 eexists. split; [reflexivity|]. now repeat split.
  - intros p2 Hq Hc. rewrite Hrun.
    unfold Clients.deploy_dns_phase.
    cbv beta iota delta [try_catch bind console_log console_write].
    match goal with
    | |- context [Cloudflare.checkSubdomainAvailability prov cloudflare _ ?w0] =>
        rewrite (checkSubdomainAvailability_resolved prov cloudflare
                   (subdomain client) w0 [] p1 Hsub Hq)
    end.
    cbn beta iota zeta delta [providers trace console store fst snd length Nat.eqb].
    match goal with
    | |- context [Cloudflare.createSubdomainRecord prov cloudflare _ ?w0] =>
        destruct (createSubdomainRecord_rejected prov cloudflare
                    (subdomain client) w0 message response p2 Hsub Hc)
          as (msg & code & details & ->)
    end.
    run_async. do 2 eexists. split; [reflexivity|].
    cbn [providers trace store]. rewrite <- app_assoc. now repeat split.
Qed.

Lemma deploy_stops_at_dns_failure_witness :
  let st := Sim.with_faults Sim.empty_zone [Sim.http_error 403 JNull] in
  let w := Sim.world st [Sim.acme] in
  lookup_client "c1" "u1" (store w) = Some Sim.acme
  /\ isDeployed Sim.acme = false
  /\ services_configured Sim.env = true
  /\ subdomain Sim.acme <> ""
  /\ Sim.provider (Axios.GetDnsRecords "zone-1" "acme.example.com")
       (providers w)
     = (Axios.Rejected "Request failed with status code 403"
          (Some (Axios.mkResponse 403 JNull)), Sim.empty_zone)
  /\ exists details w',
       Clients.deploy_route Sim.provider Sim.env "c1" "u1" w
       = (Return (Clients.mkRes 500
                    [("error", JStr "Failed to manage DNS record");
                     ("details", JStr details)]), w')
       /\ providers w' = Sim.empty_zone
       /\ trace w' = [Axios.GetDnsRecords "zone-1" "acme.example.com"]
       /\ store w' = store w.
Proof.
  intros st w.
  assert (H1 : lookup_client "c1" "u1" (store w) = Some Sim.acme)
    by reflexivity.
  assert (H2 : isDeployed Sim.acme = false) by reflexivity.
  assert (H3 : services_configured Sim.env = true) by reflexivity.
  assert (H4 : subdomain Sim.acme <> "") by discriminate.
  assert (H5 : Sim.provider (Axios.GetDnsRecords "zone-1" "acme.example.com")
                 (providers w)
               = (Axios.Rejected "Request failed with status code 403"
                    (Some (Axios.mkResponse 403 JNull)), Sim.empty_zone))
    by (vm_compute; reflexivity).
  repeat (split; [assumption|]).
  exact (proj1 (deploy_stops_at_dns_failure Sim.provider Sim.env "c1" "u1"
                  Sim.acme w _ _ H1 H2 H3 H4 Sim.empty_zone) H5).
Defined.

(** X21.  When the DNS provider answers that the name is free and accepts
    the record, the deploy route has created the record for the tenant's
    label in the configured zone, pointing at the configured server, before
    it turns to the deployment; when the deployment then succeeds the route
    answers 200, has saved the tenant as deployed, and has sent no further
    DNS request. *)
Theorem deploy_creates_record_when_free {P : Type} (prov : Axios.Provider P)
  (env : ProcessEnv) (id userId : string) (client : Client) (w : World P)
  (p1 p2 : P) :
  lookup_client id userId (store w) = Some client ->
  isDeployed client = false ->
  services_configured env = true ->
  subdomain client <> "" ->
  let cloudflare := cloudflare_of env in
  let query :=
    Axios.GetDnsRecords (Cloudflare.zoneId cloudflare)
      (subdomain client ++ "." ++ Cloudflare.domain cloudflare) in
  let create :=
    Axios.PostDnsRecord (str_or (CLOUDFLARE_ZONE_ID env) "") (subdomain client)
      (str_or (SERVER_IP env) "127.0.0.1") in
  prov query (providers w) = (Axios.Resolved [], p1) ->
  prov create p1 = (Axios.Resolved tt, p2) ->
  let w1 :=
    mkWorld p2 (trace w ++ [query; create])
      (console w ++ [(LOG, "Starting deployment process for client:");
                     (LOG, "Checking Cloudflare DNS record for:");
                     (LOG, "");
                     (LOG, "Creating Cloudflare DNS record for:");
                     (LOG, "Successfully created Cloudflare DNS record")])
      (store w) in
  Clients.deploy_route prov env id userId w
  = Clients.deploy_app_phase prov env cloudflare client w1
  /\ forall w2,
       Coolify.createDeployment prov env (subdomain client)
         (Clients.clientData_of client)
         (logged w1 LOG "Creating Coolify deployment for:")
       = (Return tt, w2) ->
       exists w3 sent,
         Clients.deploy_route prov env id userId w
         = (Return (Clients.deployment_successful
                      (set_isDeployed client true)), w3)
         /\ deployed_flag id userId (store w3) = Some true
         /\ trace w3 = (trace w ++ query :: create :: sent)%list
         /\ Forall not_dns_request sent.
Proof.
  intros Hfind Hflag Hconf Hsub cloudflare query create Hq Hc w1.
  assert (Hrun : Clients.deploy_route prov env id userId w
                 = Clients.deploy_app_phase prov env cloudflare client w1).
  { rewrite (deploy_route_run prov env id userId client cloudflare
               (coolify_of env) w Hfind Hflag
               (checkServices_configured env w Hconf)).
    unfold Clients.deploy_dns_phase.
    cbv beta iota delta [try_catch bind console_log console_write ret].
    match goal with
    | |- context [Cloudflare.checkSubdomainAvailability prov cloudflare _ ?w0] =>
        rewrite (checkSubdomainAvailability_resolved prov cloudflare
                   (subdomain client) w0 [] p1 Hsub Hq)
    end.
    cbn beta iota zeta delta [providers trace console store fst snd length Nat.eqb].
    match goal with
    | |- context [Cloudflare.createSubdomainRecord prov cloudflare _ ?w0] =>
        rewrite (createSubdomainRecord_resolved prov cloudflare
                   (subdomain client) w0 p2 Hsub Hc)
    end.
    cbn beta iota zeta delta [providers trace console store fst snd logged].
    unfold w1. now rewrite <- !app_assoc. }
  split; [exact Hrun|].
  intros w2 Hcreate. rewrite Hrun, deploy_app_phase_run, Hcreate.
  destruct (sends_createDeployment prov env _ _ _ _ _ Hcreate)
    as (Hst & (sent & Ht & Hq') & _).
  do 2 eexists. split; [reflexivity|].
  cbn [store trace logged]. split; [|split].
  - unfold deployed_flag.
    rewrite (lookup_store_put id userId (store w2) client
               (set_isDeployed client true)); [reflexivity| | |].
    + rewrite Hst. exact Hfind.
    + now destruct (lookup_client_some _ _ _ _ Hfind).
    + now destruct (lookup_client_some _ _ _ _ Hfind).
  - rewrite Ht. cbn [trace logged w1]. rewrite <- app_assoc. reflexivity.
  - exact Hq'.
Qed.

Lemma deploy_creates_record_when_free_witness :
  let w := Sim.world Sim.empty_zone [Sim.acme] in
  let query := Axios.GetDnsRecords "zone-1" "acme.example.com" in
  let create := Axios.PostDnsRecord "zone-1" "acme" "203.0.113.7" in
  let p2 :=
    Sim.mkState "example.com"
      [Axios.mkDnsRecord "rec-acme" "acme.example.com" "203.0.113.7"] [] [] in
  lookup_client "c1" "u1" (store w) = Some Sim.acme
  /\ isDeployed Sim.acme = false
  /\ services_configured Sim.env = true
  /\ subdomain Sim.acme <> ""
  /\ Sim.provider query (providers w) = (Axios.Resolved [], Sim.empty_zone)
  /\ Sim.provider create Sim.empty_zone = (Axios.Resolved tt, p2)
  /\ exists c,
       Clients.deploy_route Sim.provider Sim.env "c1" "u1" w
       = Clients.deploy_app_phase Sim.provider Sim.env (cloudflare_of Sim.env)
           Sim.acme (mkWorld p2 [query; create] c [Sim.acme]).
Proof.
  intros w query create p2.
  assert (H1 : lookup_client "c1" "u1" (store w) = Some Sim.acme)
    by reflexivity.
  assert (H2 : isDeployed Sim.acme = false) by reflexivity.
  assert (H3 : services_configured Sim.env = true) by reflexivity.
  assert (H4 : subdomain Sim.acme <> "") by discriminate.
  assert (H5 : Sim.provider query (providers w)
               = (Axios.Resolved [], Sim.empty_zone)) by reflexivity.
  assert (H6 : Sim.provider create Sim.empty_zone = (Axios.Resolved tt, p2))
    by (vm_compute; reflexivity).
  repeat (split; [assumption|]).
  eexists.
  exact (proj1 (deploy_creates_record_when_free Sim.provider Sim.env "c1" "u1"
                  Sim.acme w Sim.empty_zone p2 H1 H2 H3 H4 H5 H6)).
Defined.

(** X22.  The create route saves nothing for a name it cannot have: when
    the DNS provider shows a record for the name it answers 400 [This
    subdomain is not available], and when the provider rejects the query
    it answers 500 [Failed to check subdomain availability]; in both cases
    the query is the only request sent and the store is as it was. *)
Theorem create_refuses_unavailable_name {P : Type} (prov : Axios.Provider P)
  (JSON_parse : string -> Outcome JsValue)
  (env : ProcessEnv) (req : Clients.CreateRequest) (w : World P) (p1 : P) :
  services_configured env = true ->
  Clients.req_subdomain req <> "" ->
  let cloudflare := cloudflare_of env in
  let query :=
    Axios.GetDnsRecords (Cloudflare.zoneId cloudflare)
      (Clients.req_subdomain req ++ "." ++ Cloudflare.domain cloudflare) in
  (forall record others,
     prov query (providers w) = (Axios.Resolved (record :: others), p1) ->
     exists w',
       Clients.create_route prov JSON_parse env req w
       = (Return (Clients.mkRes 400
                    [("message", JStr "This subdomain is not available")]), w')
       /\ providers w' = p1
       /\ trace w' = (trace w ++ [query])%list
       /\ store w' = store w)
  /\ (forall message response,
        prov query (providers w) = (Axios.Rejected message response, p1) ->
        exists w',
          Clients.create_route prov JSON_parse env req w
          = (Return (Clients.mkRes 500
                       [("message",
                         JStr "Failed to check subdomain availability")]), w')
          /\ providers w' = p1
          /\ trace w' = (trace w ++ [query])%list
          /\ store w' = store w).
Proof.
  intros Hconf Hsub cloudflare query. split.
  - intros record others Hq.
    unfold Clients.create_route. cbv beta iota delta [try_catch bind ret].
    rewrite (checkServices_configured env w Hconf).
    cbv beta iota.
    rewrite (checkSubdomainAvailability_resolved prov (cloudflare_of env)
               (Clients.req_subdomain req) w (record :: others) p1 Hsub Hq).
    cbn [length Nat.eqb negb].
    eexists. split; [reflexivity|]. now repeat split.
  - intros message response Hq.
    unfold Clients.create_route. cbv beta iota delta [try_catch bind ret].
    rewrite (checkServices_configured env w Hconf).
    cbv beta iota.
    destruct (checkSubdomainAvailability_rejected prov (cloudflare_of env)
                (Clients.req_subdomain req) w message response p1 Hsub Hq)
      as (msg & code & details & ->).
    run_async. eexists. split; [reflexivity|]. now repeat split.
Qed.

Lemma create_refuses_unavailable_name_witness :
  let taken := Axios.mkDnsRecord "rec-9" "beta.example.com" "198.51.100.4" in
  let st := Sim.mkState "example.com" [taken] [] [] in
  let w := Sim.world st [] in
  let req :=
    Clients.mkCreateRequest "c2" "u1" "Beta" "beta" None (JArr []) (JObj [])
      None None None in
  let query := Axios.GetDnsRecords "zone-1" "beta.example.com" in
  services_configured Sim.env = true
  /\ Clients.req_subdomain req <> ""
  /\ Sim.provider query (providers w) = (Axios.Resolved [taken], st)
  /\ exists w',
       Clients.create_route Sim.provider JSON_parse_rejects Sim.env req w
       = (Return (Clients.mkRes 400
                    [("message", JStr "This subdomain is not available")]), w')
       /\ providers w' = st
       /\ trace w' = [query]
       /\ store w' = [].
Proof.
  intros taken st w req query.
  assert (H1 : services_configured Sim.env = true) by reflexivity.
  assert (H2 : Clients.req_subdomain req <> "") by discriminate.
  assert (H3 : Sim.provider query (providers w) = (Axios.Resolved [taken], st))
    by (vm_compute; reflexivity).
  repeat (split; [assumption|]).
  exact (proj1 (create_refuses_unavailable_name Sim.provider
                  JSON_parse_rejects Sim.env req w st
                  H1 H2) taken [] H3).
Defined.



(** X24.  Each route has its vocabulary, whatever the providers answer: the
    create route never sends a deletion, the deploy route never deletes an
    application (the only thing it may delete is a DNS record), and the
    undeploy route never creates a record or an application, sets no
    variables and triggers no deployment. *)
Theorem routes_keep_to_their_requests {P : Type} (prov : Axios.Provider P)
  (JSON_parse : string -> Outcome JsValue)
  (env : ProcessEnv) (req : Clients.CreateRequest) (id userId : string) :
  requests deletes_nothing (Clients.create_route prov JSON_parse env req)
  /\ requests deletes_no_application (Clients.deploy_route prov env id userId)
  /\ requests creates_nothing (Clients.undeploy_route prov env id userId).
Proof.
  split; [|split].
  - unfold Clients.create_route, console_error.
    apply requests_try_catch; [|intros e; repeat requests_step].
    apply requests_bind; [apply requests_checkServices|].
    intros [[cloudflare coolify]|res]; [|apply requests_ret].
    apply requests_bind.
    { apply requests_try_catch; [|intros e; repeat requests_step].
      apply requests_bind; [|intros a; repeat requests_step].
      apply requests_of_sends, sends_checkSubdomainAvailability_with.
      intros; exact I. }
    intros [res|]; [apply requests_ret|].
    apply requests_bind; [apply requests_lift_outcome|intros links].
    apply requests_bind; [apply requests_lift_outcome|intros customization].
    apply requests_bind; [apply requests_save|intros _].
    apply requests_bind.
    { apply requests_try_catch; [|intros e; repeat requests_step].
      apply requests_of_sends, sends_createSubdomainRecord_with.
      intros; exact I. }
    intros _. apply requests_bind; [|intros c; apply requests_ret].
    apply requests_try_catch; [|intros e; repeat requests_step].
    apply requests_bind; [apply requests_lift_outcome|intros links'].
    apply requests_bind;
      [apply requests_lift_outcome|intros customization'].
    apply requests_bind; [|intros a; repeat requests_step].
    apply requests_of_sends, sends_createDeployment_with; intros; exact I.
  - unfold Clients.deploy_route, console_error, console_log.
    apply requests_try_catch; [|intros e; repeat requests_step].
    apply requests_bind; [apply requests_findOne|].
    intros [client|]; [|apply requests_ret].
    destruct (isDeployed client); [apply requests_ret|].
    apply requests_bind; [apply requests_checkServices|].
    intros [[cloudflare coolify]|res]; [|apply requests_ret].
    apply requests_bind; [apply requests_console_write|intros _].
    apply requests_bind.
    { apply requests_of_sends.
      apply (sends_weaken dns_request); [|apply sends_deploy_dns_phase].
      intros [] H; first [exact I | discriminate H]. }
    intros [res|]; [apply requests_ret|].
    unfold Clients.deploy_app_phase, Clients.deploy_cleanup, console_error,
      console_log.
    apply requests_try_catch.
    + apply requests_bind; [apply requests_console_write|intros _].
      apply requests_bind; [|intros a; repeat requests_step].
      apply requests_of_sends, sends_createDeployment_with; intros; exact I.
    + intros e.
      apply requests_bind; [apply requests_console_write|intros _].
      apply requests_bind; [|intros a; apply requests_ret].
      apply requests_try_catch; [|intros e'; apply requests_console_write].
      apply requests_bind; [|intros a; apply requests_console_write].
      apply requests_of_sends, sends_deleteSubdomainRecord_with;
        intros; exact I.
  - unfold Clients.undeploy_route, console_error, console_log.
    apply requests_try_catch; [|intros e; repeat requests_step].
    apply requests_bind; [apply requests_checkServices|].
    intros [[cloudflare coolify]|res]; [|apply requests_ret].
    apply requests_bind; [apply requests_findOne|].
    intros [client|]; [|apply requests_ret].
    apply requests_bind; [apply requests_console_write|intros _].
    apply requests_bind.
    { unfold Clients.undeploy_dns_phase, console_error, console_log.
      apply requests_try_catch; [|intros e; repeat requests_step].
      apply requests_bind; [apply requests_console_write|intros _].
      apply requests_bind; [|intros a; repeat requests_step].
      apply requests_of_sends, sends_deleteSubdomainRecord_with;
        intros; exact I. }
    intros errors1. apply requests_bind.
    { unfold Clients.undeploy_app_phase, console_error, console_log.
      apply requests_try_catch; [|intros e; repeat requests_step].
      apply requests_bind; [apply requests_console_write|intros _].
      apply requests_bind; [|intros a; repeat requests_step].
      apply requests_of_sends, sends_deleteDeployment_with;
        intros; exact I. }
    intros errors2. repeat requests_step.
Qed.

(** X25.  The availability route never throws and saves nothing.  It sends
    a request only for a name that is made of lowercase letters, digits and
    hyphens and that no tenant in the store has, and then exactly one: the
    query for that name in the configured zone.  A missing or empty name,
    a name that is not a string, a name in another alphabet and a name a
    tenant already has are answered without asking the provider. *)
Theorem check_subdomain_asks_only_for_free_names {P : Type}
  (prov : Axios.Provider P) (env : ProcessEnv) (query : JsValue)
  (w : World P) :
  exists res w',
    CheckSubdomain.check_subdomain_route prov env query w = (Return res, w')
    /\ store w' = store w
    /\ (trace w' = trace w
        \/ exists s,
             query = JStr s
             /\ CheckSubdomain.subdomainRegex_test s = true
             /\ find (fun c => (subdomain c =? s)%string) (store w) = None
             /\ trace w'
                = (trace w
                   ++ [Axios.GetDnsRecords
                         (Cloudflare.zoneId (cloudflare_of env))
                         (s ++ "." ++ Cloudflare.domain (cloudflare_of env))])%list).
Proof.
  destruct query as [| |b|n|s|l|o];
    try (do 2 eexists; split; [reflexivity|]; split; [reflexivity|now left]).
  destruct (truthy (JStr s)) eqn:Hne;
    [|unfold CheckSubdomain.check_subdomain_route; rewrite Hne;
      do 2 eexists; split; [reflexivity|]; split; [reflexivity|now left]].
  destruct (dns_configured env) eqn:Hconf.
  - destruct (CheckSubdomain.subdomainRegex_test s) eqn:Hre.
    + destruct (find (fun c => (subdomain c =? s)%string) (store w))
        as [c|] eqn:Hfree.
      * unfold CheckSubdomain.check_subdomain_route. rewrite Hne, Hre.
        cbn [negb].
        cbv beta iota delta
          [try_catch bind ret CheckSubdomain.findOne_by_subdomain].
        rewrite (checkCloudflareAPI_configured env w Hconf), Hfree.
        do 2 eexists; split; [reflexivity|]; split; [reflexivity|now left].
      * rewrite (check_subdomain_route_run prov env s w Hconf Hre Hfree).
        pose proof (subdomainRegex_test_nonempty s Hre) as Hs.
        destruct (prov (Axios.GetDnsRecords
                          (Cloudflare.zoneId (cloudflare_of env))
                          (s ++ "." ++ Cloudflare.domain (cloudflare_of env)))
                       (providers w)) as [[result|message response] p1] eqn:Hq.
        -- rewrite (checkSubdomainAvailability_resolved prov _ s w result p1
                      Hs Hq).
           do 2 eexists; split; [reflexivity|]; split; [reflexivity|].
           right. exists s. now repeat split.
        -- destruct (checkSubdomainAvailability_rejected prov _ s w message
                       response p1 Hs Hq) as (msg & code & details & ->).
           do 2 eexists; split; [reflexivity|]; split; [reflexivity|].
           right. exists s. now repeat split.
    + unfold CheckSubdomain.check_subdomain_route. rewrite Hne, Hre.
      cbn [negb]. cbv beta iota delta [try_catch bind ret].
      rewrite (checkCloudflareAPI_configured env w Hconf).
      do 2 eexists; split; [reflexivity|]; split; [reflexivity|now left].
  - unfold CheckSubdomain.check_subdomain_route. rewrite Hne. cbn [negb].
    cbv beta iota delta [try_catch bind ret].
    rewrite (checkCloudflareAPI_unconfigured env w Hconf).
    do 2 eexists; split; [reflexivity|]; split; [reflexivity|now left].
Qed.

(** X26.  For a well-formed name that no tenant has, the availability
    route answers what the DNS provider says: 200 with [available] true
    exactly when the provider shows no record for the name; and when the
    provider rejects the query, the status of the rejection (500 when
    there is none) with the adapter's message. *)
Theorem check_subdomain_answers_from_the_provider {P : Type}
  (prov : Axios.Provider P) (env : ProcessEnv) (s : string) (w : World P)
  (p1 : P) :
  dns_configured env = true ->
  CheckSubdomain.subdomainRegex_test s = true ->
  find (fun c => (subdomain c =? s)%string) (store w) = None ->
  let query :=
    Axios.GetDnsRecords (Cloudflare.zoneId (cloudflare_of env))
      (s ++ "." ++ Cloudflare.domain (cloudflare_of env)) in
  (forall result,
     prov query (providers w) = (Axios.Resolved result, p1) ->
     exists available,
       fst (CheckSubdomain.check_subdomain_route prov env (JStr s) w)
       = Return (Clients.mkRes 200 [("available", JBool available)])
       /\ (available = true <-> result = []))
  /\ (forall message response,
        prov query (providers w) = (Axios.Rejected message response, p1) ->
        exists text,
          fst (CheckSubdomain.check_subdomain_route prov env (JStr s) w)
          = Return (Clients.mkRes
                      (status_or_500 (option_map Axios.status response))
                      [("message", JStr text)])).
Proof.
  intros Hconf Hre Hfree query.
  pose proof (subdomainRegex_test_nonempty s Hre) as Hs.
  rewrite (check_subdomain_route_run prov env s w Hconf Hre Hfree).
  split.
  - intros result Hq.
    rewrite (checkSubdomainAvailability_resolved prov _ s w result p1 Hs Hq).
    eexists. split; [reflexivity|].
    destruct result; cbn; split; congruence.
  - intros message response Hq.
    destruct (checkSubdomainAvailability_rejected prov _ s w message response
                p1 Hs Hq) as (msg & code & details & ->).
    eexists. reflexivity.
Qed.

Lemma check_subdomain_answers_from_the_provider_witness :
  let st := Sim.with_faults Sim.empty_zone [Sim.http_error 429 JNull] in
  let w := Sim.world st [Sim.acme] in
  dns_configured Sim.env = true
  /\ CheckSubdomain.subdomainRegex_test "beta-2" = true
  /\ find (fun c => (subdomain c =? "beta-2")%string) (store w) = None
  /\ Sim.provider (Axios.GetDnsRecords "zone-1" "beta-2.example.com")
       (providers w)
     = (Axios.Rejected "Request failed with status code 429"
          (Some (Axios.mkResponse 429 JNull)), Sim.empty_zone)
  /\ exists text,
       fst (CheckSubdomain.check_subdomain_route Sim.provider Sim.env
              (JStr "beta-2") w)
       = Return (Clients.mkRes 429 [("message", JStr text)]).
Proof.
  intros st w.
  assert (H1 : dns_configured Sim.env = true) by reflexivity.
  assert (H2 : CheckSubdomain.subdomainRegex_test "beta-2" = true)
    by reflexivity.
  assert (H3 : find (fun c => (subdomain c =? "beta-2")%string) (store w)
               = None) by reflexivity.
  assert (H4 : Sim.provider (Axios.GetDnsRecords "zone-1" "beta-2.example.com")
                 (providers w)
               = (Axios.Rejected "Request failed with status code 429"
                    (Some (Axios.mkResponse 429 JNull)), Sim.empty_zone))
    by (vm_compute; reflexivity).
  repeat (split; [assumption|]).
  exact (proj2 (check_subdomain_answers_from_the_provider Sim.provider Sim.env
                  "beta-2" w Sim.empty_zone H1 H2 H3) _ _ H4).
Defined.

(** X27.  The undeploy route and the deploy route answer every request: no
    error escapes them, whatever the providers do.  The undeploy route
    answers 200, 207, 404, 500 or 503 and nothing else; the deploy route
    200, 400, 404, 500 or 503, or the answer it makes of a failed
    deployment. *)
Theorem routes_always_answer {P : Type} (prov : Axios.Provider P)
  (env : ProcessEnv) (id userId : string) :
  answers (fun res =>
             In (Clients.statusCode res) [200; 207; 404; 500; 503]%Z)
          (Clients.undeploy_route prov env id userId)
  /\ answers (fun res =>
                In (Clients.statusCode res) [200; 400; 404; 500; 503]%Z
                \/ exists error, res = Clients.deployment_failed error)
             (Clients.deploy_route prov env id userId).
Proof.
  split.
  - unfold Clients.undeploy_route, console_error.
    apply answers_try_catch;
      [|intros e; apply answers_after_console, answers_ret; cbn; tauto].
    apply (yields_bind unavailable); [apply yields_checkServices|].
    intros [[cloudflare coolify]|res] Hsvc;
      [|apply yields_ret; cbn in *; rewrite Hsvc; tauto].
    apply (yields_bind (fun _ => True)); [apply yields_any|].
    intros [client|] _; [|apply yields_ret; cbn; tauto].
    apply (yields_bind (fun _ => True)); [apply yields_any|]. intros _ _.
    apply (yields_bind (fun _ => True)); [apply yields_any|]. intros errors1 _.
    apply (yields_bind (fun _ => True)); [apply yields_any|]. intros errors2 _.
    apply (yields_bind (fun _ => True)); [apply yields_any|]. intros _ _.
    destruct (length (errors1 ++ errors2) =? 0)%nat;
      [apply yields_ret; cbn; tauto|].
    destruct (length (errors1 ++ errors2) =? 2)%nat;
      apply yields_ret; cbn; tauto.
  - unfold Clients.deploy_route, console_error.
    apply answers_try_catch;
      [|intros e; apply answers_after_console, answers_ret; cbn; tauto].
    apply (yields_bind (fun _ => True)); [apply yields_any|].
    intros [client|] _; [|apply yields_ret; cbn; tauto].
    destruct (isDeployed client); [apply yields_ret; cbn; tauto|].
    apply (yields_bind unavailable); [apply yields_checkServices|].
    intros [[cloudflare coolify]|res] Hsvc;
      [|apply yields_ret; cbn in *; rewrite Hsvc; tauto].
    apply (yields_bind (fun _ => True)); [apply yields_any|]. intros _ _.
    apply (yields_bind
             (fun dns =>
                match dns with
                | Some res => Clients.statusCode res = 500%Z
                | None => True
                end)).
    { unfold Clients.deploy_dns_phase, console_error.
      apply yields_try_catch.
      - apply (yields_bind (fun _ => True)); [apply yields_any|]. intros _ _.
        apply (yields_bind (fun _ => True)); [apply yields_any|].
        intros dnsExists _.
        apply (yields_bind (fun _ => True)); [apply yields_any|]. intros _ _.
        now apply yields_ret.
      - intros e. apply (yields_bind (fun _ => True)); [apply yields_any|].
        intros _ _. now apply yields_ret. }
    intros [res|] Hres; [apply yields_ret; cbn in *; rewrite Hres; tauto|].
    unfold Clients.deploy_app_phase, console_error, console_log.
    apply yields_try_catch.
    + apply (yields_bind (fun _ => True)); [apply yields_any|]. intros _ _.
      apply (yields_bind (fun _ => True)); [apply yields_any|]. intros _ _.
      apply (yields_bind (fun _ => True)); [apply yields_any|]. intros _ _.
      apply (yields_bind (fun _ => True)); [apply yields_any|]. intros _ _.
      apply yields_ret; cbn; tauto.
    + intros e.
      apply (yields_bind (fun _ => True)); [apply yields_any|]. intros _ _.
      apply (yields_bind (fun _ => True)); [apply yields_any|]. intros _ _.
      apply yields_ret. right. now exists e.
Qed.

(** X28.  When the deployment provider cannot be reached (every request is
    rejected with no response at all), no operation of the adapter reports
    that.  [createDeployment] throws the [TypeError] of reading [errors]
    off the missing body; [updateDeployment] wraps that [TypeError] into a
    500 [UNKNOWN_ERROR]; and [deleteDeployment], whose lookup swallowed
    the rejection, reports that the application was not found. *)
Theorem coolify_unreachable {P : Type} (prov : Axios.Provider P)
  (env : ProcessEnv) (subdomain message : string) (clientData : JsObject)
  (w : World P) :
  deployment_configured env = true ->
  (forall r p, exists p', prov r p = (Axios.Rejected message None, p')) ->
  fst (Coolify.createDeployment prov env subdomain clientData w)
  = Throw (TypeError "Cannot read properties of undefined (reading 'errors')")
  /\ fst (Coolify.updateDeployment prov env subdomain clientData w)
     = Throw (CoolifyAPIError
                "Failed to update deployment: Cannot read properties of undefined (reading 'errors')"
                "UNKNOWN_ERROR" (Some 500) JUndefined)
  /\ fst (Coolify.deleteDeployment prov subdomain w)
     = Throw (CoolifyAPIError
                "Failed to delete deployment: Application not found"
                "UNKNOWN_ERROR" (Some 500) JUndefined).
Proof.
  intros Hconf Hdown.
  assert (Hcreate : forall w0 : World P,
             fst (Coolify.createDeployment prov env subdomain clientData w0)
             = Throw (TypeError
                        "Cannot read properties of undefined (reading 'errors')")).
  { intros w0.
    destruct (Hdown Axios.GetApplications (providers w0)) as (p1 & Hlist).
    destruct (findApplicationByName_rejected prov subdomain w0 _ _ _ Hlist)
      as (c & Hfind).
    rewrite (createDeployment_after_lookup prov env subdomain clientData w0 _ _
               Hconf Hfind).
    unfold after_lookup, Coolify.handleError. run_async.
    destruct (Hdown (Axios.PostApplication
                       (Coolify.createPayload env subdomain clientData)) p1)
      as (p2 & ->).
    reflexivity. }
  destruct (Hdown Axios.GetApplications (providers w)) as (p1 & Hlist).
  destruct (findApplicationByName_rejected prov subdomain w _ _ _ Hlist)
    as (c & Hfind).
  split; [apply Hcreate|]. split.
  - unfold Coolify.updateDeployment.
    cbv beta iota delta [try_catch bind]. rewrite Hfind.
    unfold console_log, console_write at 1.
    match goal with
    | |- context [Coolify.createDeployment prov env subdomain clientData ?w0] =>
        pose proof (Hcreate w0) as Hc;
        destruct (Coolify.createDeployment prov env subdomain clientData w0)
          as [o w2]
    end.
    cbn [fst] in Hc. subst o. reflexivity.
  - unfold Coolify.deleteDeployment.
    cbv beta iota delta [try_catch bind]. rewrite Hfind. reflexivity.
Qed.

Lemma coolify_unreachable_witness :
  let w := mkWorld tt [] [] [Sim.acme] in
  let clientData := Clients.clientData_of Sim.acme in
  deployment_configured Sim.env = true
  /\ (forall r p, exists p',
        no_answers r p = (Axios.Rejected "Network Error" None, p'))
  /\ fst (Coolify.createDeployment no_answers Sim.env "acme" clientData w)
     = Throw (TypeError "Cannot read properties of undefined (reading 'errors')")
  /\ fst (Coolify.deleteDeployment no_answers "acme" w)
     = Throw (CoolifyAPIError
                "Failed to delete deployment: Application not found"
                "UNKNOWN_ERROR" (Some 500) JUndefined).
Proof.
  intros w clientData.
  assert (H1 : deployment_configured Sim.env = true) by reflexivity.
  assert (H2 : forall r p, exists p',
               no_answers r p = (Axios.Rejected "Network Error" None, p'))
    by (intros r p; exists p; reflexivity).
  split; [exact H1|]. split; [exact H2|].
  destruct (coolify_unreachable no_answers Sim.env "acme" "Network Error"
              clientData w H1 H2) as (Hc & _ & Hd).
  split; [exact Hc|exact Hd].
Defined.
